(** * GPS L1 C/A DLL + PLL tracking block

    A shallow embedding of [Gps_L1_Ca_Dll_Pll_Tracking_cc]
    (gps_l1_ca_dll_pll_tracking_cc.cc): the constructor, [start_tracking],
    [update_local_code] and [general_work], with the properties of the
    tracking loop stated over them.

    Conventions of the embedding.
    - A C++ [double] or [float] held in the object is an exact rational
      ([Q]): arithmetic is the real arithmetic the floating-point code
      approximates, without rounding, infinities or NaN. A quotient by
      zero is zero in [Q] where the machine yields an infinity or NaN,
      so statements about a quotient are meant for a divisor that is
      not zero.
    - A correlator output ([gr_complex]) has components of type [ieee],
      a rational or NaN, because [general_work] tests them with
      [std::isnan].
    - Machine integers are [Z]; [unsigned long], [int64_t] and the
      [unsigned long] to [int] conversion wrap around explicitly.
    - A cell of a sample buffer is [option gr_complex]: [None] is an
      indeterminate value (memory never written, or read outside the
      allocation).
    - The classes and functions the block calls but which live in other
      files (loop filters, correlator, discriminators, estimators, code
      generator, fixed-point conversion) are the fields of the class
      [Externals]; every theorem holds for all of them. *)

From Stdlib Require Import ZArith QArith Qround Qabs List Bool Ascii Lia Lqa.
Import ListNotations.

Local Open Scope Z_scope.

(* ================================================================== *)
(** * Machine integers *)

Module Int.

(** [unsigned long]: arithmetic modulo 2^64. *)
Definition u64 (z : Z) : Z := z mod 2 ^ 64.

(** [long] / [int64_t]: two's complement on 64 bits. *)
Definition s64 (z : Z) : Z := (z + 2 ^ 63) mod 2 ^ 64 - 2 ^ 63.

(** [int]: two's complement on 32 bits. *)
Definition s32 (z : Z) : Z := (z + 2 ^ 31) mod 2 ^ 32 - 2 ^ 31.

(** [x >> n] on a signed integer (arithmetic shift). *)
Definition sar (x n : Z) : Z := Z.shiftr x n.

(** Integer division of an [unsigned long] by a [long]: the divisor is
    converted to [unsigned long]; a zero divisor traps. *)
Definition udiv (a b : Z) : option Z :=
  if u64 b =? 0 then None else Some (a / u64 b).

End Int.

(* ================================================================== *)
(** * Floating-point values *)

Module Fp.

(** Truncation toward zero (conversion of a double to an integer). *)
Definition trunc (x : Q) : Z := Z.quot (Qnum x) (Zpos (Qden x)).

(** [fmod(x, y)]: [x - n*y] with [n] the quotient truncated toward
    zero, so the result has the sign of [x]. *)
Definition fmod (x y : Q) : Q := (x - inject_Z (trunc (x / y)) * y)%Q.

(** [round(x)]: nearest integer, halfway cases away from zero. *)
Definition round (x : Q) : Z :=
  if Qle_bool 0 x then Qfloor (x + (1 # 2)) else Qceiling (x - (1 # 2)).

(** [x < y] on doubles. *)
Definition ltb (x y : Q) : bool := negb (Qle_bool y x).

(** A value that may be NaN. *)
Inductive ieee : Type :=
| NaN : ieee
| Fin : Q -> ieee.

Definition isnan (x : ieee) : bool :=
  match x with NaN => true | Fin _ => false end.

End Fp.

Import Fp.

(** [std::complex<float>]. *)
Record gr_complex : Type := Cplx { real : ieee; imag : ieee }.

Definition gr_complex_zero : gr_complex := Cplx (Fin 0) (Fin 0).

(** A cell of a sample buffer. *)
Definition cell : Type := option gr_complex.

(* ================================================================== *)
(** * Constants *)

(** CN0_ESTIMATION_SAMPLES, MINIMUM_VALID_CN0, MAXIMUM_LOCK_FAIL_COUNTER
    and CARRIER_LOCK_THRESHOLD are defined at the top of the file. *)
Definition CN0_ESTIMATION_SAMPLES : Z := 20.
Definition MINIMUM_VALID_CN0 : Q := 25.
Definition MAXIMUM_LOCK_FAIL_COUNTER : Z := 50.
Definition CARRIER_LOCK_THRESHOLD : Q := 85 # 100.

(** Modelled from the spec: GPS_L1_CA.h is not among the sources. The
    C/A code has 1023 chips at 1.023 Mchip/s, so one code period is one
    millisecond; the L1 carrier is at 1575.42 MHz. *)
Definition GPS_L1_CA_CODE_LENGTH_CHIPS : Q := 1023.
Definition GPS_L1_CA_CODE_RATE_HZ : Q := 1023000.
Definition GPS_L1_FREQ_HZ : Q := 1575420000.
Definition GPS_L1_CA_CODE_PERIOD : Q := 1 # 1000.

(** Modelled from the spec: the double nearest to 2 pi, as GPS_L1_CA.h
    writes it, and [M_PI] of <cmath>. *)
Definition GPS_TWO_PI : Q := 6283185307179586 # 1000000000000000.
Definition M_PI : Q := 3141592653589793 # 1000000000000000.

(** [static_cast<int>(GPS_L1_CA_CODE_LENGTH_CHIPS)]. *)
Definition code_length_chips : Z := trunc GPS_L1_CA_CODE_LENGTH_CHIPS.

(* ================================================================== *)
(** * Records exchanged with the neighbouring blocks *)

(** Modelled from the spec: gnss_synchro.h is not among the sources.
    The fields are those this file reads or writes; [Gnss_Synchro()]
    is the zero-valued record. *)
Record Gnss_Synchro : Type := {
  System : ascii;
  PRN : Z;
  Acq_delay_samples : Q;
  Acq_doppler_hz : Q;
  Acq_samplestamp_samples : Z;
  Prompt_I : ieee;
  Prompt_Q : ieee;
  Tracking_timestamp_secs : Q;
  Carrier_phase_rads : Q;
  Carrier_Doppler_hz : Q;
  Code_phase_secs : Q;
  CN0_dB_hz : Q;
  Flag_valid_tracking : bool;
  Flag_valid_pseudorange : bool
}.

Definition Gnss_Synchro_default : Gnss_Synchro := {|
  System := zero;
  PRN := 0;
  Acq_delay_samples := 0;
  Acq_doppler_hz := 0;
  Acq_samplestamp_samples := 0;
  Prompt_I := Fin 0;
  Prompt_Q := Fin 0;
  Tracking_timestamp_secs := 0;
  Carrier_phase_rads := 0;
  Carrier_Doppler_hz := 0;
  Code_phase_secs := 0;
  CN0_dB_hz := 0;
  Flag_valid_tracking := false;
  Flag_valid_pseudorange := false
|}.

(** The message [ControlMessageFactory::GetQueueMessage(who, what)]
    builds. *)
Record ControlMessage : Type := { who : Z; what : Z }.

(* ================================================================== *)
(** * External collaborators *)

Class Externals : Type := {
  (** Tracking_2nd_PLL_filter *)
  pll_filter : Type;
  pll_filter_new : pll_filter;
  set_PLL_BW : pll_filter -> Q -> pll_filter;
  pll_initialize : pll_filter -> Q -> pll_filter;
  get_carrier_nco : pll_filter -> Q -> pll_filter * Q;
  (** Tracking_2nd_DLL_filter *)
  dll_filter : Type;
  dll_filter_new : dll_filter;
  set_DLL_BW : dll_filter -> Q -> dll_filter;
  dll_initialize : dll_filter -> Q -> dll_filter;
  get_code_nco : dll_filter -> Q -> dll_filter * Q;
  (** [gr_complex(std::cos(x), -std::sin(x))] *)
  conj_rotor : Q -> gr_complex;
  (** Correlator::Carrier_rotate_and_EPL_volk: length, input, starting
      rotor, rotor increment, early, prompt and late replicas; returns
      the Early, Prompt and Late sums. *)
  Carrier_rotate_and_EPL_volk :
    Z -> list gr_complex -> gr_complex -> gr_complex ->
    list cell -> list cell -> list cell ->
    gr_complex * gr_complex * gr_complex;
  (** tracking_discriminators.h *)
  pll_cloop_two_quadrant_atan : gr_complex -> Q;
  dll_nc_e_minus_l_normalized : gr_complex -> gr_complex -> Q;
  (** lock_detectors.h *)
  cn0_svn_estimator : list gr_complex -> Z -> Z -> Q -> Q;
  carrier_lock_detector : list gr_complex -> Z -> Q;
  (** gps_sdr_signal_processing.h: the chips of one C/A code period *)
  gps_l1_ca_code_gen_complex : Z -> Z -> list gr_complex;
  (** fxpt64.h *)
  double_to_fxpt64 : Q -> Z
}.

(** Modelled from the spec: fxpt64.h is not among the sources. A double
    becomes a 64-bit fixed-point number with 32 integer bits and 32
    fractional bits. *)
Definition double_to_fxpt64_q32 (x : Q) : Z :=
  Int.s64 (trunc (x * inject_Z (2 ^ 32))).

(* ================================================================== *)
(** * The tracking object *)

Section Tracking.

Context {X : Externals}.

(** The members of [Gps_L1_Ca_Dll_Pll_Tracking_cc]. [d_queue] is [None]
    for a null queue pointer and otherwise holds the messages handed to
    the queue so far. [d_acquisition_gnss_synchro] holds the record the
    pointer refers to. The dump file stream is not represented. *)
Record State : Type := {
  d_queue : option (list ControlMessage);
  d_dump : bool;
  d_if_freq : Z;
  d_fs_in : Z;
  d_vector_length : Z;
  d_code_loop_filter : dll_filter;
  d_carrier_loop_filter : pll_filter;
  d_carrier_aiding_enabled : bool;
  d_early_late_spc_chips : Q;
  d_ca_code : list cell;
  d_early_code : list cell;
  d_prompt_code : list cell;
  d_late_code : list cell;
  d_Early : gr_complex;
  d_Prompt : gr_complex;
  d_Late : gr_complex;
  d_code_freq_chips : Q;
  d_rem_code_phase_samples : Q;
  d_rem_carr_phase_rad : Q;
  d_sample_counter : Z;
  d_acq_sample_stamp : Z;
  d_enable_tracking : bool;
  d_pull_in : bool;
  d_last_seg : Z;
  d_current_prn_length_samples : Z;
  d_cn0_estimation_counter : Z;
  d_Prompt_buffer : list gr_complex;
  d_carrier_lock_test : Q;
  d_CN0_SNV_dB_Hz : Q;
  d_carrier_lock_fail_counter : Z;
  d_carrier_lock_threshold : Q;
  d_acquisition_gnss_synchro : Gnss_Synchro;
  d_channel : Z;
  d_acq_code_phase_samples : Q;
  d_acq_carrier_doppler_hz : Q;
  d_carrier_doppler_hz : Q;
  d_acc_carrier_phase_rad : Q;
  d_code_phase_samples : Q;
  d_acc_code_phase_secs : Q;
  d_code_phase_chips : Q;
  d_carrier_phase_rad : Q
}.

(** ** Construction *)

(** The arguments of the constructor (the dump file name is left out). *)
Record Args : Type := {
  if_freq : Z;
  fs_in : Z;
  vector_length : Z;
  queue : option (list ControlMessage);
  dump : bool;
  pll_bw_hz : Q;
  dll_bw_hz : Q;
  early_late_space_chips : Q
}.

(** The constructor. The three correlator outputs are allocated but not
    written, and [d_code_phase_chips] and [d_carrier_phase_rad] are not
    assigned; they appear here with value zero. *)
Definition Gps_L1_Ca_Dll_Pll_Tracking_cc (a : Args) : State := {|
  d_queue := queue a;
  d_dump := dump a;
  d_if_freq := if_freq a;
  d_fs_in := fs_in a;
  d_vector_length := vector_length a;
  d_code_loop_filter := set_DLL_BW dll_filter_new (dll_bw_hz a);
  d_carrier_loop_filter := set_PLL_BW pll_filter_new (pll_bw_hz a);
  d_carrier_aiding_enabled := true;
  d_early_late_spc_chips := early_late_space_chips a;
  d_ca_code := repeat None (Z.to_nat (code_length_chips + 2));
  d_early_code := repeat None (Z.to_nat (2 * vector_length a));
  d_prompt_code := repeat None (Z.to_nat (2 * vector_length a));
  d_late_code := repeat None (Z.to_nat (2 * vector_length a));
  d_Early := gr_complex_zero;
  d_Prompt := gr_complex_zero;
  d_Late := gr_complex_zero;
  d_code_freq_chips := GPS_L1_CA_CODE_RATE_HZ;
  d_rem_code_phase_samples := 0;
  d_rem_carr_phase_rad := 0;
  d_sample_counter := 0;
  d_acq_sample_stamp := 0;
  d_enable_tracking := false;
  d_pull_in := false;
  d_last_seg := 0;
  d_current_prn_length_samples := vector_length a;
  d_cn0_estimation_counter := 0;
  d_Prompt_buffer := repeat gr_complex_zero (Z.to_nat CN0_ESTIMATION_SAMPLES);
  d_carrier_lock_test := 1;
  d_CN0_SNV_dB_Hz := 0;
  d_carrier_lock_fail_counter := 0;
  d_carrier_lock_threshold := CARRIER_LOCK_THRESHOLD;
  d_acquisition_gnss_synchro := Gnss_Synchro_default;
  d_channel := 0;
  d_acq_code_phase_samples := 0;
  d_acq_carrier_doppler_hz := 0;
  d_carrier_doppler_hz := 0;
  d_acc_carrier_phase_rad := 0;
  d_code_phase_samples := 0;
  d_acc_code_phase_secs := 0;
  d_code_phase_chips := 0;
  d_carrier_phase_rad := 0
|}.



(** ** The code table *)

(** [buf[k] = v] for [k] inside the buffer. *)
Definition store {A : Type} (buf : list A) (k : nat) (v : A) : list A :=
  if (k <? length buf)%nat then firstn k buf ++ v :: skipn (S k) buf else buf.

(** Copy [src] into [buf] from position [k] on. *)
Definition blit {A : Type} (buf : list A) (k : nat) (src : list A) : list A :=
  firstn k buf ++ src ++ skipn (k + length src) buf.

(** [d_ca_code[k]]: indeterminate outside the table. *)
Definition ca_code_at (tbl : list cell) (k : Z) : cell :=
  if k <? 0 then None
  else match nth_error tbl (Z.to_nat k) with
       | Some c => c
       | None => None
       end.

(** The three assignments of [start_tracking] that fill the table: the
    generated chips at positions 1 .. L, then the two guard entries. *)
Definition fill_ca_code (tbl : list cell) (prn : Z) : list cell :=
  let t1 := blit tbl 1 (map Some (gps_l1_ca_code_gen_complex prn 0)) in
  let t2 := store t1 0 (ca_code_at t1 code_length_chips) in
  store t2 (Z.to_nat (code_length_chips + 1)) (ca_code_at t2 1).

(** ** [set_channel], [set_gnss_synchro] *)

(** [set_channel]; the dump file it may open is not represented. *)
Definition set_channel (s : State) (channel : Z) : State := {|
  d_queue := d_queue s;
  d_dump := d_dump s;
  d_if_freq := d_if_freq s;
  d_fs_in := d_fs_in s;
  d_vector_length := d_vector_length s;
  d_code_loop_filter := d_code_loop_filter s;
  d_carrier_loop_filter := d_carrier_loop_filter s;
  d_carrier_aiding_enabled := d_carrier_aiding_enabled s;
  d_early_late_spc_chips := d_early_late_spc_chips s;
  d_ca_code := d_ca_code s;
  d_early_code := d_early_code s;
  d_prompt_code := d_prompt_code s;
  d_late_code := d_late_code s;
  d_Early := d_Early s;
  d_Prompt := d_Prompt s;
  d_Late := d_Late s;
  d_code_freq_chips := d_code_freq_chips s;
  d_rem_code_phase_samples := d_rem_code_phase_samples s;
  d_rem_carr_phase_rad := d_rem_carr_phase_rad s;
  d_sample_counter := d_sample_counter s;
  d_acq_sample_stamp := d_acq_sample_stamp s;
  d_enable_tracking := d_enable_tracking s;
  d_pull_in := d_pull_in s;
  d_last_seg := d_last_seg s;
  d_current_prn_length_samples := d_current_prn_length_samples s;
  d_cn0_estimation_counter := d_cn0_estimation_counter s;
  d_Prompt_buffer := d_Prompt_buffer s;
  d_carrier_lock_test := d_carrier_lock_test s;
  d_CN0_SNV_dB_Hz := d_CN0_SNV_dB_Hz s;
  d_carrier_lock_fail_counter := d_carrier_lock_fail_counter s;
  d_carrier_lock_threshold := d_carrier_lock_threshold s;
  d_acquisition_gnss_synchro := d_acquisition_gnss_synchro s;
  d_channel := channel;
  d_acq_code_phase_samples := d_acq_code_phase_samples s;
  d_acq_carrier_doppler_hz := d_acq_carrier_doppler_hz s;
  d_carrier_doppler_hz := d_carrier_doppler_hz s;
  d_acc_carrier_phase_rad := d_acc_carrier_phase_rad s;
  d_code_phase_samples := d_code_phase_samples s;
  d_acc_code_phase_secs := d_acc_code_phase_secs s;
  d_code_phase_chips := d_code_phase_chips s;
  d_carrier_phase_rad := d_carrier_phase_rad s
|}.

(** [set_gnss_synchro]: the object now refers to the record [g]. *)
Definition set_gnss_synchro (s : State) (g : Gnss_Synchro) : State := {|
  d_queue := d_queue s;
  d_dump := d_dump s;
  d_if_freq := d_if_freq s;
  d_fs_in := d_fs_in s;
  d_vector_length := d_vector_length s;
  d_code_loop_filter := d_code_loop_filter s;
  d_carrier_loop_filter := d_carrier_loop_filter s;
  d_carrier_aiding_enabled := d_carrier_aiding_enabled s;
  d_early_late_spc_chips := d_early_late_spc_chips s;
  d_ca_code := d_ca_code s;
  d_early_code := d_early_code s;
  d_prompt_code := d_prompt_code s;
  d_late_code := d_late_code s;
  d_Early := d_Early s;
  d_Prompt := d_Prompt s;
  d_Late := d_Late s;
  d_code_freq_chips := d_code_freq_chips s;
  d_rem_code_phase_samples := d_rem_code_phase_samples s;
  d_rem_carr_phase_rad := d_rem_carr_phase_rad s;
  d_sample_counter := d_sample_counter s;
  d_acq_sample_stamp := d_acq_sample_stamp s;
  d_enable_tracking := d_enable_tracking s;
  d_pull_in := d_pull_in s;
  d_last_seg := d_last_seg s;
  d_current_prn_length_samples := d_current_prn_length_samples s;
  d_cn0_estimation_counter := d_cn0_estimation_counter s;
  d_Prompt_buffer := d_Prompt_buffer s;
  d_carrier_lock_test := d_carrier_lock_test s;
  d_CN0_SNV_dB_Hz := d_CN0_SNV_dB_Hz s;
  d_carrier_lock_fail_counter := d_carrier_lock_fail_counter s;
  d_carrier_lock_threshold := d_carrier_lock_threshold s;
  d_acquisition_gnss_synchro := g;
  d_channel := d_channel s;
  d_acq_code_phase_samples := d_acq_code_phase_samples s;
  d_acq_carrier_doppler_hz := d_acq_carrier_doppler_hz s;
  d_carrier_doppler_hz := d_carrier_doppler_hz s;
  d_acc_carrier_phase_rad := d_acc_carrier_phase_rad s;
  d_code_phase_samples := d_code_phase_samples s;
  d_acc_code_phase_secs := d_acc_code_phase_secs s;
  d_code_phase_chips := d_code_phase_chips s;
  d_carrier_phase_rad := d_carrier_phase_rad s
|}.

(** The object [s] with [n] Prompt values buffered since the last
    estimation and [fails] on the lock fail counter. *)
Definition with_lock_history (s : State) (n fails : Z) : State := {|
  d_queue := d_queue s;
  d_dump := d_dump s;
  d_if_freq := d_if_freq s;
  d_fs_in := d_fs_in s;
  d_vector_length := d_vector_length s;
  d_code_loop_filter := d_code_loop_filter s;
  d_carrier_loop_filter := d_carrier_loop_filter s;
  d_carrier_aiding_enabled := d_carrier_aiding_enabled s;
  d_early_late_spc_chips := d_early_late_spc_chips s;
  d_ca_code := d_ca_code s;
  d_early_code := d_early_code s;
  d_prompt_code := d_prompt_code s;
  d_late_code := d_late_code s;
  d_Early := d_Early s;
  d_Prompt := d_Prompt s;
  d_Late := d_Late s;
  d_code_freq_chips := d_code_freq_chips s;
  d_rem_code_phase_samples := d_rem_code_phase_samples s;
  d_rem_carr_phase_rad := d_rem_carr_phase_rad s;
  d_sample_counter := d_sample_counter s;
  d_acq_sample_stamp := d_acq_sample_stamp s;
  d_enable_tracking := d_enable_tracking s;
  d_pull_in := d_pull_in s;
  d_last_seg := d_last_seg s;
  d_current_prn_length_samples := d_current_prn_length_samples s;
  d_cn0_estimation_counter := n;
  d_Prompt_buffer := d_Prompt_buffer s;
  d_carrier_lock_test := d_carrier_lock_test s;
  d_CN0_SNV_dB_Hz := d_CN0_SNV_dB_Hz s;
  d_carrier_lock_fail_counter := fails;
  d_carrier_lock_threshold := d_carrier_lock_threshold s;
  d_acquisition_gnss_synchro := d_acquisition_gnss_synchro s;
  d_channel := d_channel s;
  d_acq_code_phase_samples := d_acq_code_phase_samples s;
  d_acq_carrier_doppler_hz := d_acq_carrier_doppler_hz s;
  d_carrier_doppler_hz := d_carrier_doppler_hz s;
  d_acc_carrier_phase_rad := d_acc_carrier_phase_rad s;
  d_code_phase_samples := d_code_phase_samples s;
  d_acc_code_phase_secs := d_acc_code_phase_secs s;
  d_code_phase_chips := d_code_phase_chips s;
  d_carrier_phase_rad := d_carrier_phase_rad s
|}.

(** ** [start_tracking] *)

Definition start_tracking (s : State) : State :=
  let acq := d_acquisition_gnss_synchro s in
  let acq_code_phase_samples := Acq_delay_samples acq in
  let acq_carrier_doppler_hz := Acq_doppler_hz acq in
  let acq_sample_stamp := Int.u64 (Acq_samplestamp_samples acq) in
  let acq_trk_diff_samples :=
    Int.s64 (Int.s64 (d_sample_counter s) - Int.s64 acq_sample_stamp) in
  let acq_trk_diff_seconds :=
    (inject_Z acq_trk_diff_samples / inject_Z (d_fs_in s))%Q in
  let radial_velocity :=
    ((GPS_L1_FREQ_HZ + acq_carrier_doppler_hz) / GPS_L1_FREQ_HZ)%Q in
  let code_freq_chips0 := (radial_velocity * GPS_L1_CA_CODE_RATE_HZ)%Q in
  let T_chip_mod_seconds := (1 / code_freq_chips0)%Q in
  let T_prn_mod_seconds := (T_chip_mod_seconds * GPS_L1_CA_CODE_LENGTH_CHIPS)%Q in
  let T_prn_mod_samples := (T_prn_mod_seconds * inject_Z (d_fs_in s))%Q in
  let current_prn_length_samples := round T_prn_mod_samples in
  let T_prn_true_seconds :=
    (GPS_L1_CA_CODE_LENGTH_CHIPS / GPS_L1_CA_CODE_RATE_HZ)%Q in
  let T_prn_true_samples := (T_prn_true_seconds * inject_Z (d_fs_in s))%Q in
  let T_prn_diff_seconds := (T_prn_true_seconds - T_prn_mod_seconds)%Q in
  let N_prn_diff := (acq_trk_diff_seconds / T_prn_true_seconds)%Q in
  let corrected0 :=
    fmod (acq_code_phase_samples
          + T_prn_diff_seconds * N_prn_diff * inject_Z (d_fs_in s))%Q
         T_prn_true_samples in
  let corrected_acq_phase_samples :=
    if ltb corrected0 0 then (T_prn_mod_samples + corrected0)%Q else corrected0 in
  let carrier_doppler_hz := acq_carrier_doppler_hz in
  let code_freq_chips :=
    (GPS_L1_CA_CODE_RATE_HZ
     + (carrier_doppler_hz * GPS_L1_CA_CODE_RATE_HZ) / GPS_L1_FREQ_HZ)%Q in
  let code_phase_chips :=
    (corrected_acq_phase_samples * GPS_L1_CA_CODE_RATE_HZ
     / inject_Z (d_fs_in s))%Q in
  {|
  d_queue := d_queue s;
  d_dump := d_dump s;
  d_if_freq := d_if_freq s;
  d_fs_in := d_fs_in s;
  d_vector_length := d_vector_length s;
  d_code_loop_filter :=
    if d_carrier_aiding_enabled s
    then dll_initialize (d_code_loop_filter s) 0
    else dll_initialize (d_code_loop_filter s)
           (carrier_doppler_hz * GPS_L1_CA_CODE_RATE_HZ / GPS_L1_FREQ_HZ)%Q;
  d_carrier_loop_filter :=
    pll_initialize (d_carrier_loop_filter s) carrier_doppler_hz;
  d_carrier_aiding_enabled := d_carrier_aiding_enabled s;
  d_early_late_spc_chips := d_early_late_spc_chips s;
  d_ca_code := fill_ca_code (d_ca_code s) (PRN acq);
  d_early_code := d_early_code s;
  d_prompt_code := d_prompt_code s;
  d_late_code := d_late_code s;
  d_Early := d_Early s;
  d_Prompt := d_Prompt s;
  d_Late := d_Late s;
  d_code_freq_chips := code_freq_chips;
  d_rem_code_phase_samples := 0;
  d_rem_carr_phase_rad := 0;
  d_sample_counter := d_sample_counter s;
  d_acq_sample_stamp := acq_sample_stamp;
  d_enable_tracking := true;
  d_pull_in := true;
  d_last_seg := d_last_seg s;
  d_current_prn_length_samples := current_prn_length_samples;
  d_cn0_estimation_counter := d_cn0_estimation_counter s;
  d_Prompt_buffer := d_Prompt_buffer s;
  d_carrier_lock_test := d_carrier_lock_test s;
  d_CN0_SNV_dB_Hz := d_CN0_SNV_dB_Hz s;
  d_carrier_lock_fail_counter := 0;
  d_carrier_lock_threshold := d_carrier_lock_threshold s;
  d_acquisition_gnss_synchro := d_acquisition_gnss_synchro s;
  d_channel := d_channel s;
  d_acq_code_phase_samples := corrected_acq_phase_samples;
  d_acq_carrier_doppler_hz := acq_carrier_doppler_hz;
  d_carrier_doppler_hz := carrier_doppler_hz;
  d_acc_carrier_phase_rad := 0;
  d_code_phase_samples := corrected_acq_phase_samples;
  d_acc_code_phase_secs := 0;
  d_code_phase_chips := code_phase_chips;
  d_carrier_phase_rad := d_carrier_phase_rad s
|}.

(** ** [update_local_code] *)

(** The index into [d_ca_code] for a fixed-point chip phase. *)
Definition chip_index (phase_fxp : Z) : Z := 1 + Int.sar phase_fxp 32.

(** The loop over the samples of the block: the early, prompt and late
    replica values, each phase advanced by the step after every sample. *)
Fixpoint epl_loop (n : nat) (tbl : list cell) (early prompt late step : Z)
  : list cell * list cell * list cell :=
  match n with
  | O => ([], [], [])
  | S n' =>
      let '(es, ps, ls) :=
        epl_loop n' tbl (Int.s64 (early + step)) (Int.s64 (prompt + step))
                 (Int.s64 (late + step)) step in
      (ca_code_at tbl (chip_index early) :: es,
       ca_code_at tbl (chip_index prompt) :: ps,
       ca_code_at tbl (chip_index late) :: ls)
  end.

(** The chip phase at which the prompt replica starts. *)
Definition tcode_chips (s : State) : Q :=
  let rem_code_phase_chips :=
    (d_rem_code_phase_samples s
     * (d_code_freq_chips s / inject_Z (d_fs_in s)))%Q in
  (- rem_code_phase_chips)%Q.

Definition prompt_code_phase_fxp (s : State) : Z :=
  double_to_fxpt64 (tcode_chips s).

Definition early_code_phase_fxp (s : State) : Z :=
  double_to_fxpt64 (tcode_chips s + d_early_late_spc_chips s)%Q.

Definition late_code_phase_fxp (s : State) : Z :=
  double_to_fxpt64 (tcode_chips s - d_early_late_spc_chips s)%Q.

Definition code_phase_step_fxp (s : State) : Z :=
  double_to_fxpt64 (d_code_freq_chips s / inject_Z (d_fs_in s))%Q.

(** The new contents of [d_early_code], [d_prompt_code] and
    [d_late_code]: the first [d_current_prn_length_samples] cells are
    rewritten. *)
Definition update_local_code (s : State) : list cell * list cell * list cell :=
  let n := Z.to_nat (d_current_prn_length_samples s) in
  let '(es, ps, ls) :=
    epl_loop n (d_ca_code s) (early_code_phase_fxp s)
             (prompt_code_phase_fxp s) (late_code_phase_fxp s)
             (code_phase_step_fxp s) in
  (blit (d_early_code s) 0 es,
   blit (d_prompt_code s) 0 ps,
   blit (d_late_code s) 0 ls).


(** ** [general_work] *)

(** What one invocation does besides changing the object: the count
    passed to [consume_each], the records written to the output buffer,
    and the returned number of output items. *)
Record Work : Type := {
  state : State;
  consumed : Z;
  out : list Gnss_Synchro;
  returned : Z
}.

(** "Now update the code and carrier phase estimates": the new
    [d_code_phase_chips], [d_carrier_phase_rad] and
    [d_rem_code_phase_samples]. *)
Definition code_phase_chips_next (s : State) : Q :=
  let T := (inject_Z (d_current_prn_length_samples s) / inject_Z (d_fs_in s))%Q in
  fmod (d_code_phase_chips s + T * d_code_freq_chips s)%Q
       GPS_L1_CA_CODE_LENGTH_CHIPS.

Definition carrier_phase_rad_next (s : State) : Q :=
  let T := (inject_Z (d_current_prn_length_samples s) / inject_Z (d_fs_in s))%Q in
  (d_carrier_phase_rad s + T * 2 * M_PI * d_carrier_doppler_hz s)%Q.

Definition rem_code_phase_chips_next (s : State) : Q :=
  let rem_code_phase_chips :=
    (GPS_L1_CA_CODE_LENGTH_CHIPS - code_phase_chips_next s)%Q in
  if ltb (GPS_L1_CA_CODE_LENGTH_CHIPS / 2)%Q rem_code_phase_chips
  then (rem_code_phase_chips - GPS_L1_CA_CODE_LENGTH_CHIPS)%Q
  else rem_code_phase_chips.

Definition rem_code_phase_samples_next (s : State) : Q :=
  (rem_code_phase_chips_next s * inject_Z (d_fs_in s)
   / GPS_L1_CA_CODE_RATE_HZ)%Q.

(** The block that aligns the input with the local replica. *)
Definition pull_in_block (s : State) : Work :=
  let acq_to_trk_delay_samples :=
    Int.s32 (Int.u64 (d_sample_counter s - d_acq_sample_stamp s)) in
  let acq_trk_shif_correction_samples :=
    (inject_Z (d_current_prn_length_samples s)
     - fmod (inject_Z acq_to_trk_delay_samples)
            (inject_Z (d_current_prn_length_samples s)))%Q in
  let samples_offset :=
    round (d_acq_code_phase_samples s + acq_trk_shif_correction_samples)%Q in
  {|
  state := {|
    d_queue := d_queue s;
    d_dump := d_dump s;
    d_if_freq := d_if_freq s;
    d_fs_in := d_fs_in s;
    d_vector_length := d_vector_length s;
    d_code_loop_filter := d_code_loop_filter s;
    d_carrier_loop_filter := d_carrier_loop_filter s;
    d_carrier_aiding_enabled := d_carrier_aiding_enabled s;
    d_early_late_spc_chips := d_early_late_spc_chips s;
    d_ca_code := d_ca_code s;
    d_early_code := d_early_code s;
    d_prompt_code := d_prompt_code s;
    d_late_code := d_late_code s;
    d_Early := d_Early s;
    d_Prompt := d_Prompt s;
    d_Late := d_Late s;
    d_code_freq_chips := d_code_freq_chips s;
    d_rem_code_phase_samples := 0;
    d_rem_carr_phase_rad := d_rem_carr_phase_rad s;
    d_sample_counter := Int.u64 (d_sample_counter s + samples_offset);
    d_acq_sample_stamp := d_acq_sample_stamp s;
    d_enable_tracking := d_enable_tracking s;
    d_pull_in := false;
    d_last_seg := d_last_seg s;
    d_current_prn_length_samples := d_current_prn_length_samples s;
    d_cn0_estimation_counter := d_cn0_estimation_counter s;
    d_Prompt_buffer := d_Prompt_buffer s;
    d_carrier_lock_test := d_carrier_lock_test s;
    d_CN0_SNV_dB_Hz := d_CN0_SNV_dB_Hz s;
    d_carrier_lock_fail_counter := d_carrier_lock_fail_counter s;
    d_carrier_lock_threshold := d_carrier_lock_threshold s;
    d_acquisition_gnss_synchro := d_acquisition_gnss_synchro s;
    d_channel := d_channel s;
    d_acq_code_phase_samples := d_acq_code_phase_samples s;
    d_acq_carrier_doppler_hz := d_acq_carrier_doppler_hz s;
    d_carrier_doppler_hz := d_carrier_doppler_hz s;
    d_acc_carrier_phase_rad := d_acc_carrier_phase_rad s;
    d_code_phase_samples := d_code_phase_samples s;
    d_acc_code_phase_secs := d_acc_code_phase_secs s;
    d_code_phase_chips := 0;
    d_carrier_phase_rad := d_carrier_phase_rad s
  |};
  consumed := samples_offset;
  out := [d_acquisition_gnss_synchro s];
  returned := 1
|}.

(** The early return taken when the Prompt correlator output is NaN.
    [E], [P], [L] are the correlator outputs and [codes] the fresh
    replicas of this block. *)
Definition nan_block (s : State) (ninput_items : Z)
    (codes : list cell * list cell * list cell)
    (E P L : gr_complex) : Work :=
  let samples_available := ninput_items in
  let sample_counter := Int.u64 (d_sample_counter s + samples_available) in
  let acq := d_acquisition_gnss_synchro s in
  {|
  state := {|
    d_queue := d_queue s;
    d_dump := d_dump s;
    d_if_freq := d_if_freq s;
    d_fs_in := d_fs_in s;
    d_vector_length := d_vector_length s;
    d_code_loop_filter := d_code_loop_filter s;
    d_carrier_loop_filter := d_carrier_loop_filter s;
    d_carrier_aiding_enabled := d_carrier_aiding_enabled s;
    d_early_late_spc_chips := d_early_late_spc_chips s;
    d_ca_code := d_ca_code s;
    d_early_code := fst (fst codes);
    d_prompt_code := snd (fst codes);
    d_late_code := snd codes;
    d_Early := E;
    d_Prompt := P;
    d_Late := L;
    d_code_freq_chips := d_code_freq_chips s;
    d_rem_code_phase_samples := rem_code_phase_samples_next s;
    d_rem_carr_phase_rad := d_rem_carr_phase_rad s;
    d_sample_counter := sample_counter;
    d_acq_sample_stamp := d_acq_sample_stamp s;
    d_enable_tracking := d_enable_tracking s;
    d_pull_in := d_pull_in s;
    d_last_seg := d_last_seg s;
    d_current_prn_length_samples := d_current_prn_length_samples s;
    d_cn0_estimation_counter := d_cn0_estimation_counter s;
    d_Prompt_buffer := d_Prompt_buffer s;
    d_carrier_lock_test := d_carrier_lock_test s;
    d_CN0_SNV_dB_Hz := d_CN0_SNV_dB_Hz s;
    d_carrier_lock_fail_counter := d_carrier_lock_fail_counter s;
    d_carrier_lock_threshold := d_carrier_lock_threshold s;
    d_acquisition_gnss_synchro := d_acquisition_gnss_synchro s;
    d_channel := d_channel s;
    d_acq_code_phase_samples := d_acq_code_phase_samples s;
    d_acq_carrier_doppler_hz := d_acq_carrier_doppler_hz s;
    d_carrier_doppler_hz := d_carrier_doppler_hz s;
    d_acc_carrier_phase_rad := d_acc_carrier_phase_rad s;
    d_code_phase_samples := d_code_phase_samples s;
    d_acc_code_phase_secs := d_acc_code_phase_secs s;
    d_code_phase_chips := code_phase_chips_next s;
    d_carrier_phase_rad := carrier_phase_rad_next s
  |};
  consumed := samples_available;
  out := [ {|
    System := System acq;
    PRN := PRN acq;
    Acq_delay_samples := Acq_delay_samples acq;
    Acq_doppler_hz := Acq_doppler_hz acq;
    Acq_samplestamp_samples := Acq_samplestamp_samples acq;
    Prompt_I := Fin 0;
    Prompt_Q := Fin 0;
    Tracking_timestamp_secs :=
      (inject_Z sample_counter / inject_Z (d_fs_in s))%Q;
    Carrier_phase_rads := 0;
    Carrier_Doppler_hz := Carrier_Doppler_hz acq;
    Code_phase_secs := 0;
    CN0_dB_hz := 0;
    Flag_valid_tracking := false;
    Flag_valid_pseudorange := false
  |} ];
  returned := 1
|}.

(** The rest of a tracking block, after the NaN test: PLL, DLL, buffer
    alignment, C/N0 estimation and lock detection, output. *)
Definition tracking_block (s : State)
    (codes : list cell * list cell * list cell)
    (E P L : gr_complex) : option Work :=
  (* consume the input samples *)
  let sample_counter :=
    Int.u64 (d_sample_counter s + d_current_prn_length_samples s) in
  (* PLL *)
  let carr_error_hz := (pll_cloop_two_quadrant_atan P / GPS_TWO_PI)%Q in
  let '(carrier_loop_filter, carr_error_filt_hz) :=
    get_carrier_nco (d_carrier_loop_filter s) carr_error_hz in
  let carrier_doppler_hz := carr_error_filt_hz in
  let code_freq_chips_pll :=
    if d_carrier_aiding_enabled s
    then (GPS_L1_CA_CODE_RATE_HZ
          + (carrier_doppler_hz * GPS_L1_CA_CODE_RATE_HZ) / GPS_L1_FREQ_HZ)%Q
    else GPS_L1_CA_CODE_RATE_HZ in
  let acc_carrier_phase_rad :=
    (d_acc_carrier_phase_rad s
     - GPS_TWO_PI * carrier_doppler_hz * GPS_L1_CA_CODE_PERIOD)%Q in
  let rem_carr_phase_rad :=
    fmod (d_rem_carr_phase_rad s
          + GPS_TWO_PI * (inject_Z (d_if_freq s) + carrier_doppler_hz)
            * GPS_L1_CA_CODE_PERIOD)%Q
         GPS_TWO_PI in
  (* DLL *)
  let code_error_chips :=
    (dll_nc_e_minus_l_normalized E L * (1 - d_early_late_spc_chips s))%Q in
  let '(code_loop_filter, code_error_filt_chips) :=
    get_code_nco (d_code_loop_filter s) code_error_chips in
  let code_freq_chips := (code_freq_chips_pll + code_error_filt_chips)%Q in
  let code_error_filt_secs :=
    ((GPS_L1_CA_CODE_PERIOD * code_error_filt_chips)
     / GPS_L1_CA_CODE_RATE_HZ)%Q in
  let acc_code_phase_secs := (d_acc_code_phase_secs s + code_error_filt_secs)%Q in
  (* carrier and code NCO buffer alignment *)
  let rem_code_phase_samples := rem_code_phase_samples_next s in
  let T_chip_seconds := (1 / code_freq_chips)%Q in
  let T_prn_seconds := (T_chip_seconds * GPS_L1_CA_CODE_LENGTH_CHIPS)%Q in
  let T_prn_samples := (T_prn_seconds * inject_Z (d_fs_in s))%Q in
  let K_blk_samples := (T_prn_samples + rem_code_phase_samples)%Q in
  let next_prn_length_samples := round K_blk_samples in
  (* CN0 estimation and lock detectors *)
  let filling := d_cn0_estimation_counter s <? CN0_ESTIMATION_SAMPLES in
  let Prompt_buffer :=
    if filling
    then store (d_Prompt_buffer s) (Z.to_nat (d_cn0_estimation_counter s)) P
    else d_Prompt_buffer s in
  let cn0_estimation_counter :=
    if filling then d_cn0_estimation_counter s + 1 else 0 in
  let CN0_SNV_dB_Hz :=
    if filling then d_CN0_SNV_dB_Hz s
    else cn0_svn_estimator (d_Prompt_buffer s) CN0_ESTIMATION_SAMPLES
           (d_fs_in s) GPS_L1_CA_CODE_LENGTH_CHIPS in
  let carrier_lock_test :=
    if filling then d_carrier_lock_test s
    else carrier_lock_detector (d_Prompt_buffer s) CN0_ESTIMATION_SAMPLES in
  let fail_counter_1 :=
    if filling then d_carrier_lock_fail_counter s
    else if ltb carrier_lock_test (d_carrier_lock_threshold s)
            || ltb CN0_SNV_dB_Hz MINIMUM_VALID_CN0
         then d_carrier_lock_fail_counter s + 1
         else if d_carrier_lock_fail_counter s >? 0
              then d_carrier_lock_fail_counter s - 1
              else d_carrier_lock_fail_counter s in
  let loss_of_lock :=
    negb filling && (fail_counter_1 >? MAXIMUM_LOCK_FAIL_COUNTER) in
  let queue' :=
    if loss_of_lock
    then match d_queue s with
         | Some q => Some (q ++ [ {| who := d_channel s; what := 2 |} ])
         | None => None
         end
    else d_queue s in
  let carrier_lock_fail_counter := if loss_of_lock then 0 else fail_counter_1 in
  let enable_tracking := if loss_of_lock then false else d_enable_tracking s in
  (* output *)
  let acq := d_acquisition_gnss_synchro s in
  let current_synchro_data := {|
    System := System acq;
    PRN := PRN acq;
    Acq_delay_samples := Acq_delay_samples acq;
    Acq_doppler_hz := Acq_doppler_hz acq;
    Acq_samplestamp_samples := Acq_samplestamp_samples acq;
    Prompt_I := real P;
    Prompt_Q := imag P;
    Tracking_timestamp_secs :=
      ((inject_Z sample_counter + rem_code_phase_samples)
       / inject_Z (d_fs_in s))%Q;
    Carrier_phase_rads := acc_carrier_phase_rad;
    Carrier_Doppler_hz := carrier_doppler_hz;
    Code_phase_secs := 0;
    CN0_dB_hz := CN0_SNV_dB_Hz;
    Flag_valid_tracking := Flag_valid_tracking acq;
    Flag_valid_pseudorange := false
  |} in
  (* second counter of the debug output *)
  match Int.udiv sample_counter (d_fs_in s) with
  | None => None
  | Some seg =>
    Some {|
    state := {|
      d_queue := queue';
      d_dump := d_dump s;
      d_if_freq := d_if_freq s;
      d_fs_in := d_fs_in s;
      d_vector_length := d_vector_length s;
      d_code_loop_filter := code_loop_filter;
      d_carrier_loop_filter := carrier_loop_filter;
      d_carrier_aiding_enabled := d_carrier_aiding_enabled s;
      d_early_late_spc_chips := d_early_late_spc_chips s;
      d_ca_code := d_ca_code s;
      d_early_code := fst (fst codes);
      d_prompt_code := snd (fst codes);
      d_late_code := snd codes;
      d_Early := E;
      d_Prompt := P;
      d_Late := L;
      d_code_freq_chips := code_freq_chips;
      d_rem_code_phase_samples := rem_code_phase_samples;
      d_rem_carr_phase_rad := rem_carr_phase_rad;
      d_sample_counter := sample_counter;
      d_acq_sample_stamp := d_acq_sample_stamp s;
      d_enable_tracking := enable_tracking;
      d_pull_in := d_pull_in s;
      d_last_seg := seg;
      d_current_prn_length_samples := next_prn_length_samples;
      d_cn0_estimation_counter := cn0_estimation_counter;
      d_Prompt_buffer := Prompt_buffer;
      d_carrier_lock_test := carrier_lock_test;
      d_CN0_SNV_dB_Hz := CN0_SNV_dB_Hz;
      d_carrier_lock_fail_counter := carrier_lock_fail_counter;
      d_carrier_lock_threshold := d_carrier_lock_threshold s;
      d_acquisition_gnss_synchro := d_acquisition_gnss_synchro s;
      d_channel := d_channel s;
      d_acq_code_phase_samples := d_acq_code_phase_samples s;
      d_acq_carrier_doppler_hz := d_acq_carrier_doppler_hz s;
      d_carrier_doppler_hz := carrier_doppler_hz;
      d_acc_carrier_phase_rad := acc_carrier_phase_rad;
      d_code_phase_samples := d_code_phase_samples s;
      d_acc_code_phase_secs := acc_code_phase_secs;
      d_code_phase_chips := code_phase_chips_next s;
      d_carrier_phase_rad := carrier_phase_rad_next s
    |};
    consumed := d_current_prn_length_samples s;
    out := [current_synchro_data];
    returned := 1
  |}
  end.

(** The branch taken while tracking is disabled. *)
Definition idle_block (s : State) : option Work :=
  match Int.udiv (d_sample_counter s) (d_fs_in s) with
  | None => None
  | Some seg =>
    Some {|
    state := {|
      d_queue := d_queue s;
      d_dump := d_dump s;
      d_if_freq := d_if_freq s;
      d_fs_in := d_fs_in s;
      d_vector_length := d_vector_length s;
      d_code_loop_filter := d_code_loop_filter s;
      d_carrier_loop_filter := d_carrier_loop_filter s;
      d_carrier_aiding_enabled := d_carrier_aiding_enabled s;
      d_early_late_spc_chips := d_early_late_spc_chips s;
      d_ca_code := d_ca_code s;
      d_early_code := d_early_code s;
      d_prompt_code := d_prompt_code s;
      d_late_code := d_late_code s;
      d_Early := gr_complex_zero;
      d_Prompt := gr_complex_zero;
      d_Late := gr_complex_zero;
      d_code_freq_chips := d_code_freq_chips s;
      d_rem_code_phase_samples := d_rem_code_phase_samples s;
      d_rem_carr_phase_rad := d_rem_carr_phase_rad s;
      d_sample_counter :=
        Int.u64 (d_sample_counter s + d_current_prn_length_samples s);
      d_acq_sample_stamp := d_acq_sample_stamp s;
      d_enable_tracking := d_enable_tracking s;
      d_pull_in := d_pull_in s;
      d_last_seg := seg;
      d_current_prn_length_samples := d_current_prn_length_samples s;
      d_cn0_estimation_counter := d_cn0_estimation_counter s;
      d_Prompt_buffer := d_Prompt_buffer s;
      d_carrier_lock_test := d_carrier_lock_test s;
      d_CN0_SNV_dB_Hz := d_CN0_SNV_dB_Hz s;
      d_carrier_lock_fail_counter := d_carrier_lock_fail_counter s;
      d_carrier_lock_threshold := d_carrier_lock_threshold s;
      d_acquisition_gnss_synchro := d_acquisition_gnss_synchro s;
      d_channel := d_channel s;
      d_acq_code_phase_samples := d_acq_code_phase_samples s;
      d_acq_carrier_doppler_hz := d_acq_carrier_doppler_hz s;
      d_carrier_doppler_hz := d_carrier_doppler_hz s;
      d_acc_carrier_phase_rad := d_acc_carrier_phase_rad s;
      d_code_phase_samples := d_code_phase_samples s;
      d_acc_code_phase_secs := d_acc_code_phase_secs s;
      d_code_phase_chips := d_code_phase_chips s;
      d_carrier_phase_rad := d_carrier_phase_rad s
    |};
    consumed := d_current_prn_length_samples s;
    out := [ {|
      System := "G"%char;
      PRN := PRN Gnss_Synchro_default;
      Acq_delay_samples := Acq_delay_samples Gnss_Synchro_default;
      Acq_doppler_hz := Acq_doppler_hz Gnss_Synchro_default;
      Acq_samplestamp_samples := Acq_samplestamp_samples Gnss_Synchro_default;
      Prompt_I := Prompt_I Gnss_Synchro_default;
      Prompt_Q := Prompt_Q Gnss_Synchro_default;
      Tracking_timestamp_secs := Tracking_timestamp_secs Gnss_Synchro_default;
      Carrier_phase_rads := Carrier_phase_rads Gnss_Synchro_default;
      Carrier_Doppler_hz := Carrier_Doppler_hz Gnss_Synchro_default;
      Code_phase_secs := Code_phase_secs Gnss_Synchro_default;
      CN0_dB_hz := CN0_dB_hz Gnss_Synchro_default;
      Flag_valid_tracking := Flag_valid_tracking Gnss_Synchro_default;
      Flag_valid_pseudorange := false
    |} ];
    returned := 1
  |}
  end.

(** The correlator call of a tracking block: replicas generated with
    the estimates of the previous block, then carrier rotation and the
    Early, Prompt and Late sums. *)
Definition correlate (s : State) (input : list gr_complex)
    (codes : list cell * list cell * list cell)
  : gr_complex * gr_complex * gr_complex :=
  let phase_as_complex := conj_rotor (d_rem_carr_phase_rad s) in
  let carrier_doppler_inc_rad :=
    (2 * M_PI * (inject_Z (d_if_freq s) + d_carrier_doppler_hz s)
     / inject_Z (d_fs_in s))%Q in
  let phase_inc_as_complex := conj_rotor carrier_doppler_inc_rad in
  Carrier_rotate_and_EPL_volk (d_current_prn_length_samples s) input
    phase_as_complex phase_inc_as_complex
    (fst (fst codes)) (snd (fst codes)) (snd codes).

(** [general_work]. The result is [None] when the invocation traps on
    the integer division by a zero sampling rate. *)
Definition general_work (s : State) (noutput_items : Z) (ninput_items : Z)
    (input : list gr_complex) : option Work :=
  if d_enable_tracking s then
    if d_pull_in s then Some (pull_in_block s)
    else
      let codes := update_local_code s in
      let '(E, P, L) := correlate s input codes in
      if isnan (real P) || isnan (imag P)
      then Some (nan_block s ninput_items codes E P L)
      else tracking_block s codes E P L
  else idle_block s.

(** The Early, Prompt and Late correlator outputs of the block that
    starts in [s]. *)
Definition early_of (s : State) (input : list gr_complex) : gr_complex :=
  fst (fst (correlate s input (update_local_code s))).

Definition prompt_of (s : State) (input : list gr_complex) : gr_complex :=
  snd (fst (correlate s input (update_local_code s))).

Definition late_of (s : State) (input : list gr_complex) : gr_complex :=
  snd (correlate s input (update_local_code s)).

(** Whether the Prompt output of that block is NaN. *)
Definition prompt_is_nan (s : State) (input : list gr_complex) : bool :=
  isnan (real (prompt_of s input)) || isnan (imag (prompt_of s input)).

(** ** Vocabulary for the properties *)

(** The three replicas [update_local_code] fills. *)
Inductive Replica : Type := Early | Prompt | Late.

Definition replica_code (r : Replica)
    (codes : list cell * list cell * list cell) : list cell :=
  match r with
  | Early => fst (fst codes)
  | Prompt => snd (fst codes)
  | Late => snd codes
  end.

Definition replica_phase_fxp (r : Replica) (s : State) : Z :=
  match r with
  | Early => early_code_phase_fxp s
  | Prompt => prompt_code_phase_fxp s
  | Late => late_code_phase_fxp s
  end.

(** The fixed-point phase of a replica at sample [i] of the loop. *)
Fixpoint phase_at (phase0 step : Z) (i : nat) : Z :=
  match i with
  | O => phase0
  | S i' => phase_at (Int.s64 (phase0 + step)) step i'
  end.

Definition replica_phase_at (r : Replica) (s : State) (i : nat) : Z :=
  phase_at (replica_phase_fxp r s) (code_phase_step_fxp s) i.


(** The two guard entries mirror the last and the first chip. *)
Definition guarded (tbl : list cell) : Prop :=
  ca_code_at tbl 0 = ca_code_at tbl code_length_chips /\
  ca_code_at tbl (code_length_chips + 1) = ca_code_at tbl 1.


(** A tracking block that runs to its end: tracking enabled, alignment
    done, Prompt free of NaN. *)
Definition completes (s : State) (input : list gr_complex) : Prop :=
  d_enable_tracking s = true /\ d_pull_in s = false /\
  prompt_is_nan s input = false.

(** A tracking block cut short by a NaN Prompt. *)
Definition faults (s : State) (input : list gr_complex) : Prop :=
  d_enable_tracking s = true /\ d_pull_in s = false /\
  prompt_is_nan s input = true.

(** An output record whose numeric fields are zero and whose flags are
    down. *)
Definition zero_valued (o : Gnss_Synchro) : Prop :=
  PRN o = 0 /\ Acq_delay_samples o = 0%Q /\ Acq_doppler_hz o = 0%Q /\
  Acq_samplestamp_samples o = 0 /\
  Prompt_I o = Fin 0 /\ Prompt_Q o = Fin 0 /\
  Tracking_timestamp_secs o = 0%Q /\ Carrier_phase_rads o = 0%Q /\
  Carrier_Doppler_hz o = 0%Q /\ Code_phase_secs o = 0%Q /\
  CN0_dB_hz o = 0%Q /\
  Flag_valid_tracking o = false /\ Flag_valid_pseudorange o = false.

(** The loop filters, the frequency estimates and the lock detector
    are the same in [s] and [s']. *)
Definition same_loops (s s' : State) : Prop :=
  d_code_loop_filter s' = d_code_loop_filter s /\
  d_carrier_loop_filter s' = d_carrier_loop_filter s /\
  d_carrier_doppler_hz s' = d_carrier_doppler_hz s /\
  d_code_freq_chips s' = d_code_freq_chips s /\
  d_acc_carrier_phase_rad s' = d_acc_carrier_phase_rad s /\
  d_acc_code_phase_secs s' = d_acc_code_phase_secs s /\
  d_rem_carr_phase_rad s' = d_rem_carr_phase_rad s /\
  d_cn0_estimation_counter s' = d_cn0_estimation_counter s /\
  d_Prompt_buffer s' = d_Prompt_buffer s /\
  d_CN0_SNV_dB_Hz s' = d_CN0_SNV_dB_Hz s /\
  d_carrier_lock_test s' = d_carrier_lock_test s /\
  d_carrier_lock_fail_counter s' = d_carrier_lock_fail_counter s /\
  d_carrier_lock_threshold s' = d_carrier_lock_threshold s /\
  d_current_prn_length_samples s' = d_current_prn_length_samples s /\
  d_queue s' = d_queue s.

(** Everything else that [same_loops] leaves out, except the sample
    counter, the second counter of the debug output and the three
    correlator outputs. *)
Definition same_rest (s s' : State) : Prop :=
  d_dump s' = d_dump s /\
  d_if_freq s' = d_if_freq s /\
  d_fs_in s' = d_fs_in s /\
  d_vector_length s' = d_vector_length s /\
  d_carrier_aiding_enabled s' = d_carrier_aiding_enabled s /\
  d_early_late_spc_chips s' = d_early_late_spc_chips s /\
  d_ca_code s' = d_ca_code s /\
  d_early_code s' = d_early_code s /\
  d_prompt_code s' = d_prompt_code s /\
  d_late_code s' = d_late_code s /\
  d_rem_code_phase_samples s' = d_rem_code_phase_samples s /\
  d_code_phase_chips s' = d_code_phase_chips s /\
  d_carrier_phase_rad s' = d_carrier_phase_rad s /\
  d_code_phase_samples s' = d_code_phase_samples s /\
  d_acq_sample_stamp s' = d_acq_sample_stamp s /\
  d_acq_code_phase_samples s' = d_acq_code_phase_samples s /\
  d_acq_carrier_doppler_hz s' = d_acq_carrier_doppler_hz s /\
  d_acquisition_gnss_synchro s' = d_acquisition_gnss_synchro s /\
  d_channel s' = d_channel s /\
  d_enable_tracking s' = d_enable_tracking s /\
  d_pull_in s' = d_pull_in s.

(** The loss-of-lock message of channel [d_channel s]. *)
Definition loss_of_lock_message (s : State) : ControlMessage :=
  {| who := d_channel s; what := 2 |}.

(** The message has been handed to the external queue. *)
Definition loss_of_lock_emitted (s s' : State) : Prop :=
  exists q, d_queue s = Some q /\
            d_queue s' = Some (q ++ [loss_of_lock_message s]).

(** The state of the C/N0 buffer the code maintains: a counter between
    0 and N over a buffer of N entries. *)
Definition buffer_invariant (s : State) : Prop :=
  0 <= d_cn0_estimation_counter s <= CN0_ESTIMATION_SAMPLES /\
  length (d_Prompt_buffer s) = Z.to_nat CN0_ESTIMATION_SAMPLES.

(** The carrier phase a tracking block reaches before the reduction,
    with the Doppler estimate of the new state [s']. *)
Definition carr_phase_advance (s s' : State) : Q :=
  (d_rem_carr_phase_rad s
   + GPS_TWO_PI * (inject_Z (d_if_freq s) + d_carrier_doppler_hz s')
     * GPS_L1_CA_CODE_PERIOD)%Q.

(** Successive invocations, one input buffer each, as long as none
    traps. *)
Fixpoint invocations (s : State) (inputs : list (list gr_complex))
  : option State :=
  match inputs with
  | [] => Some s
  | input :: rest =>
      match general_work s 1 (Z.of_nat (length input)) input with
      | Some w => invocations (state w) rest
      | None => None
      end
  end.

(** Every one of these invocations is a tracking block that runs to its
    end. *)
Fixpoint all_complete (s : State) (inputs : list (list gr_complex)) : Prop :=
  match inputs with
  | [] => True
  | input :: rest =>
      completes s input /\
      match general_work s 1 (Z.of_nat (length input)) input with
      | Some w => all_complete (state w) rest
      | None => False
      end
  end.

(** The Prompt outputs of these invocations, in order. *)
Fixpoint prompts_of (s : State) (inputs : list (list gr_complex))
  : list gr_complex :=
  match inputs with
  | [] => []
  | input :: rest =>
      prompt_of s input ::
      match general_work s 1 (Z.of_nat (length input)) input with
      | Some w => prompts_of (state w) rest
      | None => []
      end
  end.

(** One code period, in samples, at the code frequency of [s]. *)
Definition prn_period_samples (s : State) : Q :=
  (inject_Z (d_fs_in s) * GPS_L1_CA_CODE_LENGTH_CHIPS / d_code_freq_chips s)%Q.


End Tracking.

(* ================================================================== *)
(** * The object over its lifetime *)

Section Lifetime.

Context {X : Externals}.

(** The states of an object built from the arguments [a]: as
    constructed, and after any call of [set_channel],
    [set_gnss_synchro], [start_tracking] or of a [general_work] that
    returns. *)
Inductive reached (a : Args) : State -> Prop :=
| reached_new : reached a (Gps_L1_Ca_Dll_Pll_Tracking_cc a)
| reached_set_channel (s : State) (channel : Z) :
    reached a s -> reached a (set_channel s channel)
| reached_set_gnss_synchro (s : State) (g : Gnss_Synchro) :
    reached a s -> reached a (set_gnss_synchro s g)
| reached_start_tracking (s : State) :
    reached a s -> reached a (start_tracking s)
| reached_general_work (s : State) (nout nin : Z) (input : list gr_complex)
    (w : Work) :
    reached a s -> general_work s nout nin input = Some w ->
    reached a (state w).

(** The contents of a replica buffer before [update_local_code]. *)
Definition replica_buffer (r : Replica) (s : State) : list cell :=
  match r with
  | Early => d_early_code s
  | Prompt => d_prompt_code s
  | Late => d_late_code s
  end.

(** [T_prn_true_samples] of [start_tracking]: one code period at the
    nominal code rate, in samples. *)
Definition nominal_period_samples (s : State) : Q :=
  (GPS_L1_CA_CODE_LENGTH_CHIPS / GPS_L1_CA_CODE_RATE_HZ
   * inject_Z (d_fs_in s))%Q.

(** The acquisition code phase brought forward to [start_tracking],
    before it is wrapped into one code period: the first argument of
    the [fmod] of [start_tracking]. *)
Definition uncorrected_acq_phase_samples (s : State) : Q :=
  let acq := d_acquisition_gnss_synchro s in
  let acq_trk_diff_samples :=
    Int.s64 (Int.s64 (d_sample_counter s)
             - Int.s64 (Int.u64 (Acq_samplestamp_samples acq))) in
  let acq_trk_diff_seconds :=
    (inject_Z acq_trk_diff_samples / inject_Z (d_fs_in s))%Q in
  let radial_velocity :=
    ((GPS_L1_FREQ_HZ + Acq_doppler_hz acq) / GPS_L1_FREQ_HZ)%Q in
  let T_prn_mod_seconds :=
    (1 / (radial_velocity * GPS_L1_CA_CODE_RATE_HZ)
     * GPS_L1_CA_CODE_LENGTH_CHIPS)%Q in
  let T_prn_true_seconds :=
    (GPS_L1_CA_CODE_LENGTH_CHIPS / GPS_L1_CA_CODE_RATE_HZ)%Q in
  (Acq_delay_samples acq
   + (T_prn_true_seconds - T_prn_mod_seconds)
     * (acq_trk_diff_seconds / T_prn_true_seconds)
     * inject_Z (d_fs_in s))%Q.

(** [acq_to_trk_delay_samples] of the alignment block: the samples
    counted since the acquisition stamp, converted to [int]. *)
Definition acq_to_trk_delay_samples (s : State) : Z :=
  Int.s32 (Int.u64 (d_sample_counter s - d_acq_sample_stamp s)).

End Lifetime.

(* ================================================================== *)
(** * A test bench *)

(** A concrete set of collaborators on which the block can be run. The
    correlator is the complex multiply-accumulate of the input with the
    rotated carrier and each replica. The bench feeds only buffers of
    zero samples or of NaN samples, for which the rotation is
    immaterial, so the rotor is held at 1. The loop filters are
    integrators started at the value given to [initialize]. The
    discriminators and the estimators return zero, which is their value
    on the all-zero correlator outputs of a buffer of zero samples; the
    code generator yields 1023 chips of value +1 or -1. *)
Module Bench.

Definition ieee_add (a b : ieee) : ieee :=
  match a, b with
  | Fin x, Fin y => Fin (Qred (x + y))
  | _, _ => NaN
  end.

Definition ieee_sub (a b : ieee) : ieee :=
  match a, b with
  | Fin x, Fin y => Fin (Qred (x - y))
  | _, _ => NaN
  end.

Definition ieee_mul (a b : ieee) : ieee :=
  match a, b with
  | Fin x, Fin y => Fin (Qred (x * y))
  | _, _ => NaN
  end.

Definition cadd (a b : gr_complex) : gr_complex :=
  Cplx (ieee_add (real a) (real b)) (ieee_add (imag a) (imag b)).

Definition cmul (a b : gr_complex) : gr_complex :=
  Cplx (ieee_sub (ieee_mul (real a) (real b)) (ieee_mul (imag a) (imag b)))
       (ieee_add (ieee_mul (real a) (imag b)) (ieee_mul (imag a) (real b))).

(** An indeterminate replica cell poisons the sum. *)
Definition cell_value (c : cell) : gr_complex :=
  match c with Some v => v | None => Cplx NaN NaN end.

(** One accumulator of the correlator over the first [n] samples. *)
Fixpoint mac (n : nat) (input : list gr_complex) (rot inc : gr_complex)
    (code : list cell) (acc : gr_complex) : gr_complex :=
  match n, input, code with
  | S n', x :: input', c :: code' =>
      mac n' input' (cmul rot inc) inc code'
          (cadd acc (cmul (cmul x rot) (cell_value c)))
  | _, _, _ => acc
  end.

Definition correlator (n : Z) (input : list gr_complex) (rot inc : gr_complex)
    (early prompt late : list cell) : gr_complex * gr_complex * gr_complex :=
  (mac (Z.to_nat n) input rot inc early gr_complex_zero,
   mac (Z.to_nat n) input rot inc prompt gr_complex_zero,
   mac (Z.to_nat n) input rot inc late gr_complex_zero).

Definition chip (prn : Z) (i : nat) : gr_complex :=
  Cplx (Fin (if Z.even (prn + Z.of_nat i) then 1 else -1)) (Fin 0).

Definition code_gen (prn shift : Z) : list gr_complex :=
  map (chip (prn + shift)) (seq 0 1023).

#[export] Instance externals : Externals := {|
  pll_filter := Q;
  pll_filter_new := 0%Q;
  set_PLL_BW := fun f _ => f;
  pll_initialize := fun _ v => v;
  get_carrier_nco := fun f e => (Qred (f + e), Qred (f + e));
  dll_filter := Q;
  dll_filter_new := 0%Q;
  set_DLL_BW := fun f _ => f;
  dll_initialize := fun _ v => v;
  get_code_nco := fun f e => (Qred (f + e), Qred (f + e));
  conj_rotor := fun _ => Cplx (Fin 1) (Fin 0);
  Carrier_rotate_and_EPL_volk := correlator;
  pll_cloop_two_quadrant_atan := fun _ => 0%Q;
  dll_nc_e_minus_l_normalized := fun _ _ => 0%Q;
  cn0_svn_estimator := fun _ _ _ _ => 0%Q;
  carrier_lock_detector := fun _ _ => 0%Q;
  gps_l1_ca_code_gen_complex := code_gen;
  double_to_fxpt64 := double_to_fxpt64_q32
|}.

(** An input buffer of [n] zero samples, and one of [n] NaN samples. *)
Definition silence (n : Z) : list gr_complex :=
  repeat gr_complex_zero (Z.to_nat n).

Definition garbage (n : Z) : list gr_complex :=
  repeat (Cplx NaN NaN) (Z.to_nat n).

(** The object after construction, [set_gnss_synchro], [set_channel] and
    [start_tracking]. *)
Definition started (a : Args) (acq : Gnss_Synchro) (ch : Z) : State :=
  start_tracking
    (set_gnss_synchro (set_channel (Gps_L1_Ca_Dll_Pll_Tracking_cc a) ch) acq).

(** One invocation on an input buffer; an invocation that traps leaves
    the object as it was. *)
Definition step (s : State) (input : list gr_complex) : State :=
  match general_work s 1 (Z.of_nat (length input)) input with
  | Some w => state w
  | None => s
  end.

(** Successive invocations, one input buffer each. *)
Definition run (s : State) (inputs : list (list gr_complex)) : State :=
  fold_left step inputs s.

(** A receiver at zero intermediate frequency. *)
Definition args (fs : Z) (q : option (list ControlMessage)) : Args := {|
  if_freq := 0;
  fs_in := fs;
  vector_length := 2000;
  queue := q;
  dump := false;
  pll_bw_hz := 50;
  dll_bw_hz := 2;
  early_late_space_chips := 1 # 2
|}.

(** What acquisition reports for satellite 1. *)
Definition acquired (doppler : Q) : Gnss_Synchro := {|
  System := "G"%char;
  PRN := 1;
  Acq_delay_samples := 1234;
  Acq_doppler_hz := doppler;
  Acq_samplestamp_samples := 0;
  Prompt_I := Fin 0;
  Prompt_Q := Fin 0;
  Tracking_timestamp_secs := 0;
  Carrier_phase_rads := 0;
  Carrier_Doppler_hz := 0;
  Code_phase_secs := 0;
  CN0_dB_hz := 0;
  Flag_valid_tracking := false;
  Flag_valid_pseudorange := false
|}.

(** The object as constructed, before [start_tracking]. *)
Definition fresh : State :=
  Gps_L1_Ca_Dll_Pll_Tracking_cc (args 2000000 (Some [])).

(** The 2 MHz receiver on its channel, with the acquisition result of a
    satellite at a Doppler of -500 Hz, before [start_tracking]. *)
Definition tuned : State :=
  set_gnss_synchro (set_channel fresh 0) (acquired (-500)).

(** Sampling at 2 MHz, acquisition Doppler of -500 Hz. *)
Definition receding : State :=
  started (args 2000000 (Some [])) (acquired (-500)) 0.

(** Sampling at 2.00049 MHz, so that a code period is 2000.49 samples;
    no Doppler. *)
Definition offgrid : State :=
  started (args 2000490 (Some [])) (acquired 0) 0.

(** After the alignment block. *)
Definition aligned (s : State) : State := run s [silence 4000].

(** After the alignment block and [n] input buffers of NaN samples. *)
Definition disturbed (s : State) (n : nat) : State :=
  run s (silence 4000 :: repeat (garbage 4000) n).


(** The same receiver built with a null queue pointer. *)
Definition unheard : State :=
  started (args 2000000 None) (acquired (-500)) 0.

(** Tracking with nineteen Prompt values buffered and no failed
    epoch. *)
Definition filling (s : State) : State := with_lock_history (aligned s) 19 0.

(** Tracking with a full Prompt buffer and fifty failed epochs behind. *)
Definition fading (s : State) : State := with_lock_history (aligned s) 20 50.

(** The 2.00049 MHz receiver after two input buffers of NaN samples. *)
Definition adrift : State := disturbed offgrid 2.

End Bench.
(* ================================================================== *)
(** * Facts about the arithmetic *)

Section FpFacts.

Local Open Scope Q_scope.

Lemma trunc_nonneg (x : Q) : 0 <= x -> trunc x = Qfloor x.
Proof.
  destruct x as [n d]; unfold Qle, trunc, Qfloor; cbn [Qnum Qden]; intros H.
  apply Z.quot_div_nonneg; lia.
Qed.

Lemma trunc_nonpos (x : Q) : x <= 0 -> trunc x = Qceiling x.
Proof.
  destruct x as [n d]; unfold Qle, trunc, Qceiling, Qfloor, Qopp;
    cbn [Qnum Qden]; intros H.
  rewrite <- (Z.opp_involutive n) at 1.
  rewrite Z.quot_opp_l by lia.
  f_equal. apply Z.quot_div_nonneg; lia.
Qed.

Lemma Qceiling_lt (x : Q) : inject_Z (Qceiling x) < x + 1.
Proof.
  unfold Qceiling. rewrite inject_Z_opp.
  pose proof (Qlt_floor (- x)) as H.
  rewrite inject_Z_plus in H. change (inject_Z 1) with 1 in H. lra.
Qed.

(** [fmod] keeps the sign of its first argument and stays below the
    modulus in magnitude. *)
Lemma fmod_nonneg (x y : Q) :
  0 < y -> 0 <= x -> 0 <= fmod x y /\ fmod x y < y.
Proof.
  intros Hy Hx. unfold fmod.
  assert (Hq : 0 <= x / y) by (apply Qle_shift_div_l; lra).
  rewrite (trunc_nonneg _ Hq).
  pose proof (Qfloor_le (x / y)) as H1.
  pose proof (Qlt_floor (x / y)) as H2.
  rewrite inject_Z_plus in H2. change (inject_Z 1) with 1 in H2.
  set (n := inject_Z (Qfloor (x / y))) in *.
  assert (Hx' : x == (x / y) * y) by (field; lra).
  split.
  - assert (n * y <= (x / y) * y) by (apply Qmult_le_compat_r; lra). lra.
  - assert ((x / y) * y < (n + 1) * y) by (apply Qmult_lt_compat_r; lra). lra.
Qed.

Lemma fmod_nonpos (x y : Q) :
  0 < y -> x <= 0 -> - y < fmod x y /\ fmod x y <= 0.
Proof.
  intros Hy Hx. unfold fmod.
  assert (Hq : x / y <= 0).
  { apply Qle_shift_div_r; lra. }
  rewrite (trunc_nonpos _ Hq).
  pose proof (Qle_ceiling (x / y)) as H1.
  pose proof (Qceiling_lt (x / y)) as H2.
  set (n := inject_Z (Qceiling (x / y))) in *.
  assert (Hx' : x == (x / y) * y) by (field; lra).
  split.
  - assert (n * y < (x / y + 1) * y) by (apply Qmult_lt_compat_r; lra). lra.
  - assert ((x / y) * y <= n * y) by (apply Qmult_le_compat_r; lra). lra.
Qed.

Lemma fmod_abs_lt (x y : Q) : 0 < y -> Qabs (fmod x y) < y.
Proof.
  intros Hy. apply Qabs_Qlt_condition.
  destruct (Qlt_le_dec x 0) as [Hx | Hx].
  - destruct (fmod_nonpos x y Hy) as [H1 H2]; lra.
  - destruct (fmod_nonneg x y Hy Hx) as [H1 H2]; lra.
Qed.

(** [round] is within half a unit of its argument. *)
Lemma round_half (x : Q) : Qabs (inject_Z (round x) - x) <= 1 # 2.
Proof.
  apply Qabs_Qle_condition. unfold round.
  destruct (Qle_bool 0 x).
  - pose proof (Qfloor_le (x + (1 # 2))) as H1.
    pose proof (Qlt_floor (x + (1 # 2))) as H2.
    rewrite inject_Z_plus in H2. change (inject_Z 1) with 1 in H2. lra.
  - pose proof (Qle_ceiling (x - (1 # 2))) as H1.
    pose proof (Qceiling_lt (x - (1 # 2))) as H2. lra.
Qed.

Lemma ltb_lt (x y : Q) : ltb x y = true <-> x < y.
Proof.
  unfold ltb. rewrite negb_true_iff, <- not_true_iff_false, Qle_bool_iff.
  split; [apply Qnot_le_lt | apply Qlt_not_le].
Qed.

Lemma ltb_ge (x y : Q) : ltb x y = false <-> y <= x.
Proof.
  unfold ltb. rewrite negb_false_iff. apply Qle_bool_iff.
Qed.

End FpFacts.

(* ================================================================== *)
(** * Facts about the buffers *)

Section BufferFacts.

Context {A : Type}.

Lemma nth_error_blit_0 (buf src : list A) (i : nat) :
  (i < length src)%nat -> nth_error (blit buf 0 src) i = nth_error src i.
Proof.
  intros Hi. unfold blit. cbn [firstn app].
  now rewrite nth_error_app1.
Qed.

Lemma store_length (buf : list A) (k : nat) (v : A) :
  length (store buf k v) = length buf.
Proof.
  unfold store. destruct (k <? length buf)%nat eqn:Hk; [| reflexivity].
  apply Nat.ltb_lt in Hk.
  rewrite length_app, length_firstn. cbn [length]. rewrite length_skipn. lia.
Qed.

Lemma store_nth_error (buf : list A) (k : nat) (v : A) :
  (k < length buf)%nat -> nth_error (store buf k v) k = Some v.
Proof.
  intros Hk. unfold store.
  apply Nat.ltb_lt in Hk as Hb. rewrite Hb.
  rewrite nth_error_app2 by (rewrite length_firstn; lia).
  rewrite length_firstn.
  replace (k - Nat.min k (length buf))%nat with 0%nat by lia. reflexivity.
Qed.

Lemma store_nth_error_other (buf : list A) (k j : nat) (v : A) :
  j <> k -> nth_error (store buf k v) j = nth_error buf j.
Proof.
  intros Hj. unfold store.
  destruct (k <? length buf)%nat eqn:Hk; [| reflexivity].
  apply Nat.ltb_lt in Hk. clear -Hj Hk.
  revert k j Hj Hk.
  induction buf as [| x buf IH]; intros k j Hj Hk; cbn [length] in Hk; [lia |].
  destruct k as [| k], j as [| j]; cbn [firstn skipn app nth_error];
    try reflexivity; try congruence.
  apply IH; lia.
Qed.

End BufferFacts.

(* ================================================================== *)
(** * The local code replicas *)

Section LocalCode.

Context {X : Externals}.

Lemma epl_loop_length (n : nat) (tbl : list cell) (e p l step : Z) :
  length (fst (fst (epl_loop n tbl e p l step))) = n /\
  length (snd (fst (epl_loop n tbl e p l step))) = n /\
  length (snd (epl_loop n tbl e p l step)) = n.
Proof.
  revert e p l. induction n as [| n IH]; intros e p l; cbn [epl_loop].
  - now cbn.
  - specialize (IH (Int.s64 (e + step)) (Int.s64 (p + step)) (Int.s64 (l + step))).
    destruct (epl_loop n tbl _ _ _ step) as [[es ps] ls]. cbn in *. lia.
Qed.

(** Every sample of the loop reads the table at [1 + (phase >> 32)],
    with the phase advanced [i] times by the step. *)
Lemma epl_loop_nth (n : nat) (tbl : list cell) (step : Z) :
  forall (e p l : Z) (i : nat), (i < n)%nat ->
  nth_error (fst (fst (epl_loop n tbl e p l step))) i
    = Some (ca_code_at tbl (chip_index (phase_at e step i))) /\
  nth_error (snd (fst (epl_loop n tbl e p l step))) i
    = Some (ca_code_at tbl (chip_index (phase_at p step i))) /\
  nth_error (snd (epl_loop n tbl e p l step)) i
    = Some (ca_code_at tbl (chip_index (phase_at l step i))).
Proof.
  induction n as [| n IH]; intros e p l i Hi; [lia |].
  cbn [epl_loop].
  specialize (IH (Int.s64 (e + step)) (Int.s64 (p + step)) (Int.s64 (l + step))).
  destruct (epl_loop n tbl _ _ _ step) as [[es ps] ls].
  destruct i as [| i]; cbn [fst snd nth_error phase_at].
  - auto.
  - apply IH. lia.
Qed.

(** The value [update_local_code] stores at sample [i] of a replica. *)
Lemma update_local_code_nth (r : Replica) (s : State) (i : nat) :
  (i < Z.to_nat (d_current_prn_length_samples s))%nat ->
  nth_error (replica_code r (update_local_code s)) i
  = Some (ca_code_at (d_ca_code s) (chip_index (replica_phase_at r s i))).
Proof.
  intros Hi. unfold update_local_code, replica_phase_at.
  pose proof (epl_loop_length (Z.to_nat (d_current_prn_length_samples s))
                (d_ca_code s) (early_code_phase_fxp s) (prompt_code_phase_fxp s)
                (late_code_phase_fxp s) (code_phase_step_fxp s)) as HL.
  pose proof (epl_loop_nth (Z.to_nat (d_current_prn_length_samples s))
                (d_ca_code s) (code_phase_step_fxp s) (early_code_phase_fxp s)
                (prompt_code_phase_fxp s) (late_code_phase_fxp s) i Hi) as HN.
  destruct (epl_loop _ _ _ _ _ _) as [[es ps] ls].
  cbn [fst snd] in HL, HN. destruct HL as (Le & Lp & Ll), HN as (Ne & Np & Nl).
  destruct r; cbn [replica_code replica_phase_fxp fst snd];
    rewrite nth_error_blit_0 by lia; assumption.
Qed.


Lemma ca_code_at_store_same (tbl : list cell) (k : nat) (v : cell) :
  (k < length tbl)%nat -> ca_code_at (store tbl k v) (Z.of_nat k) = v.
Proof.
  intros Hk. unfold ca_code_at.
  destruct (Z.of_nat k <? 0) eqn:Hneg; [apply Z.ltb_lt in Hneg; lia |].
  rewrite Nat2Z.id. now rewrite store_nth_error.
Qed.

Lemma ca_code_at_store_other (tbl : list cell) (k : nat) (v : cell) (j : Z) :
  Z.to_nat j <> k ->
  ca_code_at (store tbl k v) j = ca_code_at tbl j.
Proof.
  intros Hj. unfold ca_code_at.
  destruct (j <? 0); [reflexivity |].
  now rewrite store_nth_error_other.
Qed.

(** The constructor allocates the L + 2 entries of the table. *)
Lemma constructor_table_length (a : Args) :
  length (d_ca_code (Gps_L1_Ca_Dll_Pll_Tracking_cc a)) = Z.to_nat (code_length_chips + 2).
Proof. cbn [Gps_L1_Ca_Dll_Pll_Tracking_cc d_ca_code]. apply repeat_length. Qed.

(** [start_tracking] puts the guard entries in place. *)
Lemma start_tracking_guarded (s : State) :
  length (d_ca_code s) = Z.to_nat (code_length_chips + 2) ->
  length (gps_l1_ca_code_gen_complex (PRN (d_acquisition_gnss_synchro s)) 0)
  = Z.to_nat code_length_chips ->
  guarded (d_ca_code (start_tracking s)).
Proof.
  intros Htbl Hgen. cbn [start_tracking d_ca_code].
  unfold guarded, fill_ca_code.
  set (code := map Some _).
  set (t1 := blit (d_ca_code s) 1 code).
  change code_length_chips with 1023 in *.
  set (t2 := store t1 0 (ca_code_at t1 1023)).
  change (Z.to_nat (1023 + 2)) with 1025%nat in Htbl.
  change (Z.to_nat (1023 + 1)) with 1024%nat.
  change (Z.to_nat 1023) with 1023%nat in Hgen.
  assert (Hcode : length code = 1023%nat)
    by (unfold code; rewrite length_map; exact Hgen).
  assert (H1 : length t1 = 1025%nat).
  { unfold t1, blit. rewrite !length_app, length_firstn, length_skipn.
    unfold cell in *. lia. }
  assert (H2 : length t2 = 1025%nat) by (unfold t2; now rewrite store_length).
  split.
  - rewrite !(ca_code_at_store_other t2 1024) by (cbn; lia).
    unfold t2. rewrite (ca_code_at_store_same t1 0) by lia.
    now rewrite ca_code_at_store_other by (cbn; lia).
  - change (1023 + 1) with (Z.of_nat 1024).
    rewrite (ca_code_at_store_same t2 1024) by lia.
    now rewrite ca_code_at_store_other by (cbn; lia).
Qed.


End LocalCode.



(* ================================================================== *)
(** * The four paths of [general_work] *)

Section Paths.

Context {X : Externals}.

Variables (s : State) (noutput_items ninput_items : Z) (input : list gr_complex).

Lemma general_work_idle :
  d_enable_tracking s = false ->
  general_work s noutput_items ninput_items input = idle_block s.
Proof. intros H. unfold general_work. now rewrite H. Qed.

Lemma general_work_pull_in :
  d_enable_tracking s = true -> d_pull_in s = true ->
  general_work s noutput_items ninput_items input = Some (pull_in_block s).
Proof. intros H1 H2. unfold general_work. now rewrite H1, H2. Qed.

Lemma general_work_nan :
  faults s input ->
  general_work s noutput_items ninput_items input
  = Some (nan_block s ninput_items (update_local_code s)
            (early_of s input) (prompt_of s input) (late_of s input)).
Proof.
  intros (H1 & H2 & H3). unfold general_work. rewrite H1, H2.
  unfold prompt_is_nan, early_of, prompt_of, late_of in *. cbv zeta.
  destruct (correlate s input (update_local_code s)) as [[E P] L].
  cbn [fst snd] in *. now rewrite H3.
Qed.

Lemma general_work_tracking :
  completes s input ->
  general_work s noutput_items ninput_items input
  = tracking_block s (update_local_code s)
      (early_of s input) (prompt_of s input) (late_of s input).
Proof.
  intros (H1 & H2 & H3). unfold general_work. rewrite H1, H2.
  unfold prompt_is_nan, early_of, prompt_of, late_of in *. cbv zeta.
  destruct (correlate s input (update_local_code s)) as [[E P] L].
  cbn [fst snd] in *. now rewrite H3.
Qed.

(** Every invocation is on exactly one of the four paths. *)
Lemma general_work_cases :
  d_enable_tracking s = false \/
  (d_enable_tracking s = true /\ d_pull_in s = true) \/
  faults s input \/ completes s input.
Proof.
  unfold faults, completes.
  destruct (d_enable_tracking s), (d_pull_in s), (prompt_is_nan s input);
    auto 8.
Qed.

End Paths.

(** Opens a [tracking_block] equation [H : tracking_block .. = Some w]. *)
Ltac open_tracking_block H :=
  unfold tracking_block in H; cbv zeta in H;
  destruct (get_carrier_nco _ _) as [?pll ?nco];
  destruct (get_code_nco _ _) as [?dll ?cnco];
  destruct (Int.udiv _ _) as [?seg |]; [| discriminate H];
  injection H as H; subst.

Section Returns.

Context {X : Externals}.

Lemma tracking_block_returns (s : State) codes E P L :
  Int.u64 (d_fs_in s) <> 0 -> exists w, tracking_block s codes E P L = Some w.
Proof.
  intros Hfs. unfold tracking_block. cbv zeta.
  destruct (get_carrier_nco _ _) as [pll nco].
  destruct (get_code_nco _ _) as [dll cnco].
  unfold Int.udiv. apply Z.eqb_neq in Hfs. rewrite Hfs. eauto.
Qed.

Lemma idle_block_returns (s : State) :
  Int.u64 (d_fs_in s) <> 0 -> exists w, idle_block s = Some w.
Proof.
  intros Hfs. unfold idle_block, Int.udiv.
  apply Z.eqb_neq in Hfs. rewrite Hfs. eauto.
Qed.

(** With a sampling rate that is not zero, an invocation returns. *)
Lemma general_work_returns (s : State) (nout nin : Z) (input : list gr_complex) :
  Int.u64 (d_fs_in s) <> 0 -> exists w, general_work s nout nin input = Some w.
Proof.
  intros Hfs.
  destruct (general_work_cases s input) as [H | [[H1 H2] | [H | H]]].
  - rewrite general_work_idle by assumption. now apply idle_block_returns.
  - rewrite general_work_pull_in by assumption. eauto.
  - rewrite general_work_nan by assumption. eauto.
  - rewrite general_work_tracking by assumption. now apply tracking_block_returns.
Qed.

End Returns.

(* ================================================================== *)
(** * Bench runs shared by the examples below *)

Lemma aligned_receding_completes :
  completes (Bench.aligned Bench.receding) (Bench.silence 4000).
Proof. split; [| split]; vm_compute; reflexivity. Qed.

Lemma aligned_receding_rate :
  Int.u64 (d_fs_in (Bench.aligned Bench.receding)) <> 0.
Proof. vm_compute. discriminate. Qed.

(** The full block that follows two NaN-fault blocks at 2.00049 MHz. *)
Lemma adrift_full_block :
  completes Bench.adrift (Bench.silence 4000) /\
  0 < d_fs_in Bench.adrift < 2 ^ 63 /\
  0 <= d_current_prn_length_samples Bench.adrift /\
  (0 <= d_code_phase_chips Bench.adrift)%Q /\
  (0 <= d_code_freq_chips Bench.adrift)%Q /\
  exists w,
    general_work Bench.adrift 1 4000 (Bench.silence 4000) = Some w /\
    d_current_prn_length_samples (state w) = 2002 /\
    (prn_period_samples (state w) == 200049 # 100)%Q /\
    (d_rem_code_phase_samples (state w) == 147 # 100)%Q.
Proof.
  assert (H : let s := Bench.adrift in
              match general_work s 1 4000 (Bench.silence 4000) with
              | Some w =>
                  d_enable_tracking s && negb (d_pull_in s)
                  && negb (prompt_is_nan s (Bench.silence 4000))
                  && (0 <? d_fs_in s) && (d_fs_in s <? 2 ^ 63)
                  && (0 <=? d_current_prn_length_samples s)
                  && Qle_bool 0 (d_code_phase_chips s)
                  && Qle_bool 0 (d_code_freq_chips s)
                  && (d_current_prn_length_samples (state w) =? 2002)
                  && Qeq_bool (prn_period_samples (state w)) (200049 # 100)
                  && Qeq_bool (d_rem_code_phase_samples (state w)) (147 # 100)
              | None => false
              end = true) by (vm_compute; reflexivity).
  cbv zeta in H.
  destruct (general_work Bench.adrift 1 4000 (Bench.silence 4000)) as [w |];
    [| discriminate H].
  apply andb_true_iff in H as [H Hrem]. apply Qeq_bool_iff in Hrem.
  apply andb_true_iff in H as [H Hper]. apply Qeq_bool_iff in Hper.
  apply andb_true_iff in H as [H Hnext]. apply Z.eqb_eq in Hnext.
  apply andb_true_iff in H as [H Hfreq]. apply Qle_bool_iff in Hfreq.
  apply andb_true_iff in H as [H Hphase]. apply Qle_bool_iff in Hphase.
  apply andb_true_iff in H as [H Hlen]. apply Z.leb_le in Hlen.
  apply andb_true_iff in H as [H Hhi]. apply Z.ltb_lt in Hhi.
  apply andb_true_iff in H as [H Hlo]. apply Z.ltb_lt in Hlo.
  apply andb_true_iff in H as [H Hnan]. apply negb_true_iff in Hnan.
  apply andb_true_iff in H as [Hen Hpull]. apply negb_true_iff in Hpull.
  split; [exact (conj Hen (conj Hpull Hnan)) |].
  split; [exact (conj Hlo Hhi) |].
  split; [exact Hlen |]. split; [exact Hphase |]. split; [exact Hfreq |].
  exists w. split; [reflexivity |].
  exact (conj Hnext (conj Hper Hrem)).
Qed.

Lemma fading_receding_completes :
  completes (Bench.fading Bench.receding) (Bench.silence 4000).
Proof. split; [| split]; vm_compute; reflexivity. Qed.

(* ================================================================== *)
(** * Sample accounting *)

Section Accounting.

Context {X : Externals}.




End Accounting.


(* ================================================================== *)
(** * Tracking disabled *)

Section Idle.

Context {X : Externals}.

(** C7. While tracking is disabled an invocation writes exactly one
    output record, zero-valued apart from its system tag 'G', and
    advances sample_counter by one block length
    (current_prn_length_samples); carrier_doppler_hz, code_freq_chips,
    the phase remainders and accumulators, the loop filters, the lock
    and fail counters and the block length itself are left as they
    were. *)
Theorem idle_block_only_counts
    (s : State) (nout nin : Z) (input : list gr_complex) :
  d_enable_tracking s = false ->
  Int.u64 (d_fs_in s) <> 0 ->
  exists w o,
    general_work s nout nin input = Some w /\
    out w = [o] /\ returned w = 1 /\ zero_valued o /\ System o = "G"%char /\
    consumed w = d_current_prn_length_samples s /\
    d_sample_counter (state w)
    = Int.u64 (d_sample_counter s + d_current_prn_length_samples s) /\
    same_loops s (state w) /\ same_rest s (state w).
Proof.
  intros Hen Hfs. rewrite general_work_idle by assumption.
  unfold idle_block, Int.udiv. apply Z.eqb_neq in Hfs. rewrite Hfs.
  eexists. eexists. split; [reflexivity |].
  cbn [out returned consumed state]. split; [reflexivity |].
  unfold zero_valued, same_loops, same_rest. cbn. intuition reflexivity.
Qed.

End Idle.

(** The hypotheses of C7 hold in the bench before [start_tracking]. *)
Lemma idle_block_only_counts_witness :
  exists w,
    general_work Bench.fresh 1 4000 (Bench.silence 4000) = Some w /\
    d_sample_counter (state w) = 2000 /\
    same_loops Bench.fresh (state w).
Proof.
  destruct (idle_block_only_counts Bench.fresh 1 4000 (Bench.silence 4000))
    as (w & o & Hw & _ & _ & _ & _ & _ & Hc & Hl & _).
  - reflexivity.
  - vm_compute. discriminate.
  - exists w. split; [exact Hw |]. split; [| exact Hl].
    rewrite Hc. vm_compute. reflexivity.
Defined.

(* ================================================================== *)
(** * NaN in the Prompt correlator output *)

Section Fault.

Context {X : Externals}.

(** C6. When the Prompt output of a tracking block is NaN, the
    invocation consumes all the available input samples, writes exactly
    one output record with valid = false and prompt_I = prompt_Q = 0,
    and leaves tracking enabled; the loop filters, the Doppler and code
    frequency estimates and the lock detector state are not updated; the
    next invocation is again a tracking block, and a full one as soon as
    its Prompt is free of NaN. *)
Theorem nan_block_skips_the_loops
    (s : State) (nout nin : Z) (input : list gr_complex) :
  faults s input ->
  exists w o,
    general_work s nout nin input = Some w /\
    consumed w = nin /\
    out w = [o] /\ returned w = 1 /\
    Flag_valid_tracking o = false /\ Prompt_I o = Fin 0 /\ Prompt_Q o = Fin 0 /\
    d_enable_tracking (state w) = true /\
    same_loops s (state w) /\
    d_pull_in (state w) = false /\
    forall nout' nin' input',
      prompt_is_nan (state w) input' = false ->
      general_work (state w) nout' nin' input'
      = tracking_block (state w) (update_local_code (state w))
          (early_of (state w) input') (prompt_of (state w) input')
          (late_of (state w) input').
Proof.
  intros Hf. pose proof Hf as (Hen & Hpull & Hnan).
  rewrite general_work_nan by assumption.
  eexists. eexists. split; [reflexivity |].
  cbn [nan_block out returned consumed state].
  split; [reflexivity |]. split; [reflexivity |]. split; [reflexivity |].
  cbn [Flag_valid_tracking Prompt_I Prompt_Q d_enable_tracking d_pull_in].
  repeat (split; [first [reflexivity | assumption] |]).
  split; [unfold same_loops; cbn; intuition reflexivity |].
  split; [assumption |].
  intros nout' nin' input' Hok.
  apply general_work_tracking. unfold completes.
  cbn [d_enable_tracking d_pull_in]. auto.
Qed.

End Fault.

(** The hypothesis of C6 holds in the bench on a buffer of NaN samples. *)
Lemma nan_block_skips_the_loops_witness :
  faults (Bench.aligned Bench.receding) (Bench.garbage 4000) /\
  exists w,
    general_work (Bench.aligned Bench.receding) 1 4000 (Bench.garbage 4000)
    = Some w /\
    consumed w = 4000 /\ d_enable_tracking (state w) = true.
Proof.
  assert (H : faults (Bench.aligned Bench.receding) (Bench.garbage 4000))
    by (split; [| split]; vm_compute; reflexivity).
  split; [exact H |].
  destruct (nan_block_skips_the_loops
              (Bench.aligned Bench.receding) 1 4000 (Bench.garbage 4000) H)
    as (w & o & Hw & Hc & _ & _ & _ & _ & _ & He & _).
  exists w. auto.
Defined.

(* ================================================================== *)
(** * C/N0 estimation and lock detection *)

Section LockDetector.

Context {X : Externals}.

(** The buffer invariant holds from construction on. *)
Lemma buffer_invariant_constructor (a : Args) : buffer_invariant (Gps_L1_Ca_Dll_Pll_Tracking_cc a).
Proof. split; cbn; [unfold CN0_ESTIMATION_SAMPLES; lia | apply repeat_length]. Qed.

Lemma buffer_invariant_start_tracking (s : State) :
  buffer_invariant s -> buffer_invariant (start_tracking s).
Proof. intros H. exact H. Qed.

Lemma buffer_invariant_general_work
    (s : State) (nout nin : Z) (input : list gr_complex) (w : Work) :
  general_work s nout nin input = Some w ->
  buffer_invariant s -> buffer_invariant (state w).
Proof.
  intros Hw [Hc Hl].
  destruct (general_work_cases s input) as [H | [[H1 H2] | [H | H]]].
  - rewrite general_work_idle in Hw by assumption. unfold idle_block in Hw.
    destruct (Int.udiv _ _); [| discriminate]. injection Hw as <-.
    split; assumption.
  - rewrite general_work_pull_in in Hw by assumption. injection Hw as <-.
    split; assumption.
  - rewrite general_work_nan in Hw by assumption. injection Hw as <-.
    split; assumption.
  - rewrite general_work_tracking in Hw by assumption.
    open_tracking_block Hw. unfold buffer_invariant.
    cbn [state d_cn0_estimation_counter d_Prompt_buffer].
    destruct (d_cn0_estimation_counter s <? CN0_ESTIMATION_SAMPLES) eqn:Hf.
    + apply Z.ltb_lt in Hf. rewrite store_length. split; [lia | assumption].
    + split; [unfold CN0_ESTIMATION_SAMPLES; lia | assumption].
Qed.

(** What a tracking block that runs to its end does to the Prompt
    buffer and to the estimates. *)
Lemma tracking_block_buffer
    (s : State) (nout nin : Z) (input : list gr_complex) :
  completes s input ->
  Int.u64 (d_fs_in s) <> 0 ->
  buffer_invariant s ->
  exists w,
    general_work s nout nin input = Some w /\
    buffer_invariant (state w) /\
    (d_cn0_estimation_counter s < CN0_ESTIMATION_SAMPLES ->
       d_Prompt_buffer (state w)
       = store (d_Prompt_buffer s) (Z.to_nat (d_cn0_estimation_counter s))
           (prompt_of s input) /\
       nth_error (d_Prompt_buffer (state w))
         (Z.to_nat (d_cn0_estimation_counter s)) = Some (prompt_of s input) /\
       (forall j, j <> Z.to_nat (d_cn0_estimation_counter s) ->
          nth_error (d_Prompt_buffer (state w)) j
          = nth_error (d_Prompt_buffer s) j) /\
       d_cn0_estimation_counter (state w) = d_cn0_estimation_counter s + 1 /\
       d_CN0_SNV_dB_Hz (state w) = d_CN0_SNV_dB_Hz s /\
       d_carrier_lock_test (state w) = d_carrier_lock_test s) /\
    (d_cn0_estimation_counter s = CN0_ESTIMATION_SAMPLES ->
       d_cn0_estimation_counter (state w) = 0 /\
       d_Prompt_buffer (state w) = d_Prompt_buffer s /\
       d_CN0_SNV_dB_Hz (state w)
       = cn0_svn_estimator (d_Prompt_buffer s) CN0_ESTIMATION_SAMPLES
           (d_fs_in s) GPS_L1_CA_CODE_LENGTH_CHIPS /\
       d_carrier_lock_test (state w)
       = carrier_lock_detector (d_Prompt_buffer s) CN0_ESTIMATION_SAMPLES).
Proof.
  intros Hc Hfs Hinv.
  destruct (general_work_returns s nout nin input Hfs) as [w Hw].
  exists w. split; [exact Hw |].
  split; [now apply (buffer_invariant_general_work s nout nin input) |].
  destruct Hinv as [Hcnt Hlen].
  rewrite general_work_tracking in Hw by assumption.
  open_tracking_block Hw.
  cbn [state d_cn0_estimation_counter d_Prompt_buffer d_CN0_SNV_dB_Hz
       d_carrier_lock_test].
  split.
  - intros Hlt. apply Z.ltb_lt in Hlt as Hb. rewrite Hb.
    assert (Hk : (Z.to_nat (d_cn0_estimation_counter s)
                  < length (d_Prompt_buffer s))%nat) by (rewrite Hlen; lia).
    repeat split.
    + now apply store_nth_error.
    + intros j Hj. now apply store_nth_error_other.
  - intros Heq.
    assert (Hb : (d_cn0_estimation_counter s <? CN0_ESTIMATION_SAMPLES) = false)
      by (apply Z.ltb_ge; lia).
    rewrite Hb. repeat split.
Qed.

Lemma general_work_fs_in
    (s : State) (nout nin : Z) (input : list gr_complex) (w : Work) :
  general_work s nout nin input = Some w -> d_fs_in (state w) = d_fs_in s.
Proof.
  intros Hw.
  destruct (general_work_cases s input) as [H | [[H1 H2] | [H | H]]].
  - rewrite general_work_idle in Hw by assumption. unfold idle_block in Hw.
    destruct (Int.udiv _ _); [| discriminate]. now injection Hw as <-.
  - rewrite general_work_pull_in in Hw by assumption. now injection Hw as <-.
  - rewrite general_work_nan in Hw by assumption. now injection Hw as <-.
  - rewrite general_work_tracking in Hw by assumption.
    open_tracking_block Hw. reflexivity.
Qed.

(** Between two estimations the buffer fills with the Prompt values of
    the tracking blocks, one per block and in order: after [n] blocks
    that run to their end, started with [k] values in the buffer and
    [k + n <= N], the counter is [k + n], positions [k .. k + n - 1]
    hold the [n] Prompt values, the positions below [k] are untouched
    and no estimate has been produced. *)
Lemma buffer_fills_one_prompt_per_block (inputs : list (list gr_complex)) :
  forall s : State,
  buffer_invariant s ->
  Int.u64 (d_fs_in s) <> 0 ->
  all_complete s inputs ->
  d_cn0_estimation_counter s + Z.of_nat (length inputs)
  <= CN0_ESTIMATION_SAMPLES ->
  exists s',
    invocations s inputs = Some s' /\
    buffer_invariant s' /\
    d_cn0_estimation_counter s'
    = d_cn0_estimation_counter s + Z.of_nat (length inputs) /\
    (forall j, (j < length inputs)%nat ->
       nth_error (d_Prompt_buffer s') (Z.to_nat (d_cn0_estimation_counter s) + j)
       = nth_error (prompts_of s inputs) j) /\
    (forall j, (j < Z.to_nat (d_cn0_estimation_counter s))%nat ->
       nth_error (d_Prompt_buffer s') j = nth_error (d_Prompt_buffer s) j) /\
    d_CN0_SNV_dB_Hz s' = d_CN0_SNV_dB_Hz s /\
    d_carrier_lock_test s' = d_carrier_lock_test s.
Proof.
  induction inputs as [| input rest IH]; intros s Hinv Hfs Hall Hroom.
  - exists s. cbn [invocations length prompts_of Z.of_nat].
    split; [reflexivity |]. split; [exact Hinv |]. split; [lia |].
    split; [intros j Hj; cbn in Hj; lia |]. auto.
  - cbn [all_complete] in Hall. destruct Hall as [Hc Hall].
    cbn [length] in Hroom. rewrite Nat2Z.inj_succ in Hroom.
    destruct (tracking_block_buffer s 1 (Z.of_nat (length input)) input
                Hc Hfs Hinv) as (w & Hw & Hinv1 & Hfill & _).
    pose proof Hinv as [Hcnt Hlen].
    destruct Hfill as (Hbuf & Hk & Hother & Hcnt1 & Hcn0 & Hlock); [lia |].
    cbn [invocations prompts_of]. rewrite Hw in Hall |- *.
    assert (Hfs1 : Int.u64 (d_fs_in (state w)) <> 0)
      by (rewrite (general_work_fs_in _ _ _ _ _ Hw); exact Hfs).
    destruct (IH (state w) Hinv1 Hfs1 Hall) as
      (s' & Hrun & Hinv' & Hcnt' & Hnew & Hold & Hcn0' & Hlock'); [lia |].
    exists s'. split; [exact Hrun |]. split; [exact Hinv' |].
    split; [cbn [length]; lia |].
    assert (Hk1 : Z.to_nat (d_cn0_estimation_counter (state w))
                  = S (Z.to_nat (d_cn0_estimation_counter s)))
      by (rewrite Hcnt1; lia).
    split; [| split; [| split; congruence]].
    + intros [| j] Hj; cbn [nth_error].
      * rewrite Nat.add_0_r, Hold by lia. exact Hk.
      * rewrite <- Hnew by (cbn [length] in Hj; lia). f_equal. lia.
    + intros j Hj. rewrite Hold by lia. apply Hother. lia.
Qed.

(** C8. A new C/N0 and carrier-lock estimate is produced only in a
    tracking block that finds N = 20 Prompt values in the buffer; that
    block resets the counter to 0. Every other tracking block that runs
    to its end stores its Prompt value at the position of the counter
    and advances the counter by one, leaving the estimates as they
    were. *)
Theorem estimate_on_full_buffer
    (s : State) (nout nin : Z) (input : list gr_complex) :
  completes s input ->
  Int.u64 (d_fs_in s) <> 0 ->
  buffer_invariant s ->
  exists w,
    general_work s nout nin input = Some w /\
    buffer_invariant (state w) /\
    (d_cn0_estimation_counter s < CN0_ESTIMATION_SAMPLES ->
       d_Prompt_buffer (state w)
       = store (d_Prompt_buffer s) (Z.to_nat (d_cn0_estimation_counter s))
           (prompt_of s input) /\
       nth_error (d_Prompt_buffer (state w))
         (Z.to_nat (d_cn0_estimation_counter s)) = Some (prompt_of s input) /\
       (forall j, j <> Z.to_nat (d_cn0_estimation_counter s) ->
          nth_error (d_Prompt_buffer (state w)) j
          = nth_error (d_Prompt_buffer s) j) /\
       d_cn0_estimation_counter (state w) = d_cn0_estimation_counter s + 1 /\
       d_CN0_SNV_dB_Hz (state w) = d_CN0_SNV_dB_Hz s /\
       d_carrier_lock_test (state w) = d_carrier_lock_test s) /\
    (d_cn0_estimation_counter s = CN0_ESTIMATION_SAMPLES ->
       d_cn0_estimation_counter (state w) = 0 /\
       d_Prompt_buffer (state w) = d_Prompt_buffer s /\
       d_CN0_SNV_dB_Hz (state w)
       = cn0_svn_estimator (d_Prompt_buffer s) CN0_ESTIMATION_SAMPLES
           (d_fs_in s) GPS_L1_CA_CODE_LENGTH_CHIPS /\
       d_carrier_lock_test (state w)
       = carrier_lock_detector (d_Prompt_buffer s) CN0_ESTIMATION_SAMPLES).
Proof. exact (tracking_block_buffer s nout nin input). Qed.

(** C5 (amended). In a tracking block that does not estimate, the fail
    counter, the enabled flag and the queue are untouched. At an
    estimation epoch, if carrier_lock_test < lock_threshold or
    cn0 < min_valid_cn0 the fail counter increments by 1, otherwise it
    decrements by 1 floored at 0. Whenever it then exceeds MAX_FAIL (50),
    tracking is disabled and the fail counter is reset to 0, and the
    loss-of-lock message is handed to the external queue if a queue is
    attached; with a null queue no message is sent. *)
Theorem lock_detector_epoch
    (s : State) (nout nin : Z) (input : list gr_complex) :
  completes s input ->
  Int.u64 (d_fs_in s) <> 0 ->
  0 <= d_carrier_lock_fail_counter s ->
  exists w,
    general_work s nout nin input = Some w /\
    (d_cn0_estimation_counter s < CN0_ESTIMATION_SAMPLES ->
       d_carrier_lock_fail_counter (state w) = d_carrier_lock_fail_counter s /\
       d_enable_tracking (state w) = true /\
       d_queue (state w) = d_queue s) /\
    (CN0_ESTIMATION_SAMPLES <= d_cn0_estimation_counter s ->
       exists fails,
         ((d_carrier_lock_test (state w) < d_carrier_lock_threshold s \/
           d_CN0_SNV_dB_Hz (state w) < MINIMUM_VALID_CN0)%Q ->
            fails = d_carrier_lock_fail_counter s + 1) /\
         (~ (d_carrier_lock_test (state w) < d_carrier_lock_threshold s \/
             d_CN0_SNV_dB_Hz (state w) < MINIMUM_VALID_CN0)%Q ->
            fails = Z.max 0 (d_carrier_lock_fail_counter s - 1)) /\
         (fails <= MAXIMUM_LOCK_FAIL_COUNTER ->
            d_carrier_lock_fail_counter (state w) = fails /\
            d_enable_tracking (state w) = true /\
            d_queue (state w) = d_queue s) /\
         (MAXIMUM_LOCK_FAIL_COUNTER < fails ->
            d_carrier_lock_fail_counter (state w) = 0 /\
            d_enable_tracking (state w) = false /\
            (forall q, d_queue s = Some q ->
               d_queue (state w) = Some (q ++ [loss_of_lock_message s])) /\
            (d_queue s = None -> d_queue (state w) = None))).
Proof.
  intros Hc Hfs Hfail. pose proof Hc as (Hen & _ & _).
  destruct (general_work_returns s nout nin input Hfs) as [w Hw].
  exists w. split; [exact Hw |].
  rewrite general_work_tracking in Hw by assumption.
  open_tracking_block Hw.
  cbn [state d_carrier_lock_fail_counter d_enable_tracking d_queue
       d_carrier_lock_test d_CN0_SNV_dB_Hz].
  split.
  - intros Hlt. apply Z.ltb_lt in Hlt. rewrite Hlt. cbn. auto.
  - intros Hge. apply Z.ltb_ge in Hge. rewrite Hge. cbn [negb andb].
    set (lock := carrier_lock_detector _ _).
    set (cn0 := cn0_svn_estimator _ _ _ _).
    set (bad := ltb lock (d_carrier_lock_threshold s) || ltb cn0 MINIMUM_VALID_CN0).
    set (fails := if bad then d_carrier_lock_fail_counter s + 1
                  else if d_carrier_lock_fail_counter s >? 0
                       then d_carrier_lock_fail_counter s - 1
                       else d_carrier_lock_fail_counter s).
    assert (Hbad : bad = true <->
                   (lock < d_carrier_lock_threshold s \/ cn0 < MINIMUM_VALID_CN0)%Q).
    { unfold bad. rewrite orb_true_iff, !ltb_lt. reflexivity. }
    exists fails. split; [| split; [| split]].
    + intros H. apply Hbad in H. unfold fails. now rewrite H.
    + intros H. unfold fails. destruct bad.
      * exfalso. apply H, Hbad. reflexivity.
      * destruct (d_carrier_lock_fail_counter s >? 0) eqn:Hpos;
          [apply Z.gtb_lt in Hpos | rewrite Z.gtb_ltb in Hpos;
                                    apply Z.ltb_ge in Hpos]; lia.
    + intros Hle.
      assert (Hb : (fails >? MAXIMUM_LOCK_FAIL_COUNTER) = false)
        by (rewrite Z.gtb_ltb; apply Z.ltb_ge; lia).
      rewrite Hb. auto.
    + intros Hgt.
      assert (Hb : (fails >? MAXIMUM_LOCK_FAIL_COUNTER) = true)
        by (rewrite Z.gtb_ltb; apply Z.ltb_lt; lia).
      rewrite Hb. repeat split.
      * intros q Hq. now rewrite Hq.
      * intros Hq. now rewrite Hq.
Qed.

End LockDetector.


(** The hypotheses of C8 hold in the bench on the first tracking block,
    which stores its Prompt value. *)
Lemma estimate_on_full_buffer_witness :
  completes (Bench.aligned Bench.receding) (Bench.silence 4000) /\
  buffer_invariant (Bench.aligned Bench.receding) /\
  exists w,
    general_work (Bench.aligned Bench.receding) 1 4000 (Bench.silence 4000)
    = Some w /\
    d_cn0_estimation_counter (state w)
    = d_cn0_estimation_counter (Bench.aligned Bench.receding) + 1.
Proof.
  assert (H3 : buffer_invariant (Bench.aligned Bench.receding))
    by (split; [split |]; vm_compute; first [discriminate | reflexivity]).
  split; [exact aligned_receding_completes |]. split; [exact H3 |].
  destruct (estimate_on_full_buffer
              (Bench.aligned Bench.receding) 1 4000 (Bench.silence 4000)
              aligned_receding_completes aligned_receding_rate H3)
    as (w & Hw & _ & Hfill & _).
  exists w. split; [exact Hw |].
  apply Hfill. vm_compute. reflexivity.
Defined.

(** The hypotheses of C5 (amended) hold in the bench at an estimation
    epoch. *)
Lemma lock_detector_epoch_witness :
  completes (Bench.fading Bench.receding) (Bench.silence 4000) /\
  0 <= d_carrier_lock_fail_counter (Bench.fading Bench.receding) /\
  CN0_ESTIMATION_SAMPLES
  <= d_cn0_estimation_counter (Bench.fading Bench.receding) /\
  exists w,
    general_work (Bench.fading Bench.receding) 1 4000 (Bench.silence 4000)
    = Some w.
Proof.
  assert (H2 : Int.u64 (d_fs_in (Bench.fading Bench.receding)) <> 0)
    by (vm_compute; discriminate).
  assert (H3 : 0 <= d_carrier_lock_fail_counter (Bench.fading Bench.receding))
    by (vm_compute; discriminate).
  split; [exact fading_receding_completes |]. split; [exact H3 |].
  split; [vm_compute; discriminate |].
  destruct (lock_detector_epoch
              (Bench.fading Bench.receding) 1 4000 (Bench.silence 4000)
              fading_receding_completes H2 H3) as (w & Hw & _).
  exists w. exact Hw.
Defined.

(** C5 as stated fails. Built with a null queue pointer, the block
    detects the loss of lock at the fifty-first failed epoch, disables
    tracking and resets the counter, but hands no message to any
    queue. *)
Lemma loss_of_lock_without_queue :
  exists w,
    general_work (Bench.fading Bench.unheard) 1 4000 (Bench.silence 4000)
    = Some w /\
    d_carrier_lock_fail_counter (state w) = 0 /\
    d_enable_tracking (state w) = false /\
    d_queue (state w) = None /\
    ~ loss_of_lock_emitted (Bench.fading Bench.unheard) (state w).
Proof.
  assert (H : match general_work (Bench.fading Bench.unheard) 1 4000
                      (Bench.silence 4000) with
              | Some w =>
                  (d_carrier_lock_fail_counter (state w) =? 0)
                  && negb (d_enable_tracking (state w))
                  && match d_queue (state w) with
                     | None => true
                     | Some _ => false
                     end
              | None => false
              end = true) by (vm_compute; reflexivity).
  destruct (general_work _ _ _ _) as [w |]; [| discriminate H].
  exists w. split; [reflexivity |].
  apply andb_true_iff in H as [H Hq]. apply andb_true_iff in H as [Hf He].
  apply Z.eqb_eq in Hf. apply negb_true_iff in He.
  assert (Hnone : d_queue (state w) = None)
    by (destruct (d_queue (state w)); [discriminate Hq | reflexivity]).
  split; [exact Hf |]. split; [exact He |]. split; [exact Hnone |].
  intros (q & _ & Hq1). rewrite Hnone in Hq1. discriminate Hq1.
Qed.

(* ================================================================== *)
(** * Phase remainders and block length *)

Section Phases.

Context {X : Externals}.

Local Open Scope Q_scope.

Lemma GPS_TWO_PI_pos : 0 < GPS_TWO_PI.
Proof. reflexivity. Qed.

Lemma code_length_pos : 0 < GPS_L1_CA_CODE_LENGTH_CHIPS.
Proof. reflexivity. Qed.

Lemma code_rate_pos : 0 < GPS_L1_CA_CODE_RATE_HZ.
Proof. reflexivity. Qed.

(** C3 (amended). After a tracking block that runs to its end,
    rem_carr_phase_rad is the fmod by 2 pi of the advanced phase: it
    lies in the open interval (-2 pi, 2 pi) and has the sign of the
    advanced phase, so it is in [0, 2 pi) when
    rem_carr_phase_rad + 2 pi (if_freq + carrier_doppler_hz) T is not
    negative and in (-2 pi, 0] when it is not positive. *)
Theorem rem_carr_phase_within_one_turn
    (s : State) (nout nin : Z) (input : list gr_complex) :
  completes s input ->
  Int.u64 (d_fs_in s) <> 0%Z ->
  exists w,
    general_work s nout nin input = Some w /\
    d_rem_carr_phase_rad (state w)
    = fmod (carr_phase_advance s (state w)) GPS_TWO_PI /\
    Qabs (d_rem_carr_phase_rad (state w)) < GPS_TWO_PI /\
    (0 <= carr_phase_advance s (state w) ->
       0 <= d_rem_carr_phase_rad (state w) /\
       d_rem_carr_phase_rad (state w) < GPS_TWO_PI) /\
    (carr_phase_advance s (state w) <= 0 ->
       - GPS_TWO_PI < d_rem_carr_phase_rad (state w) /\
       d_rem_carr_phase_rad (state w) <= 0).
Proof.
  intros Hc Hfs.
  destruct (general_work_returns s nout nin input Hfs) as [w Hw].
  exists w. split; [exact Hw |].
  rewrite general_work_tracking in Hw by assumption.
  open_tracking_block Hw. unfold carr_phase_advance.
  cbn [state d_rem_carr_phase_rad d_carrier_doppler_hz].
  split; [reflexivity |]. split; [| split].
  - apply fmod_abs_lt, GPS_TWO_PI_pos.
  - intros H. now apply fmod_nonneg; [apply GPS_TWO_PI_pos |].
  - intros H. now apply fmod_nonpos; [apply GPS_TWO_PI_pos |].
Qed.

(** The phase remainder stays within one turn over every invocation. *)
Lemma rem_carr_phase_invariant
    (s : State) (nout nin : Z) (input : list gr_complex) (w : Work) :
  general_work s nout nin input = Some w ->
  Qabs (d_rem_carr_phase_rad s) < GPS_TWO_PI ->
  Qabs (d_rem_carr_phase_rad (state w)) < GPS_TWO_PI.
Proof.
  intros Hw Hinv.
  destruct (general_work_cases s input) as [H | [[H1 H2] | [H | H]]].
  - rewrite general_work_idle in Hw by assumption. unfold idle_block in Hw.
    destruct (Int.udiv _ _); [| discriminate]. injection Hw as <-. exact Hinv.
  - rewrite general_work_pull_in in Hw by assumption. injection Hw as <-.
    exact Hinv.
  - rewrite general_work_nan in Hw by assumption. injection Hw as <-.
    exact Hinv.
  - rewrite general_work_tracking in Hw by assumption.
    open_tracking_block Hw. cbn [state d_rem_carr_phase_rad].
    apply fmod_abs_lt, GPS_TWO_PI_pos.
Qed.

(** C2 (amended). After a tracking block that runs to its end, the
    block length chosen for the next invocation is the nearest integer
    to one code period at the new code-frequency estimate plus the
    carried remainder:
    |current_prn_length_samples - (fs_in * code_length_chips /
    code_freq_chips + rem_code_phase_samples)| <= 1/2. It is therefore
    within 1/2 + |rem_code_phase_samples| of one code period, and within
    one sample of it whenever |rem_code_phase_samples| <= 1/2. *)
Theorem next_block_length_rounds_period_plus_remainder
    (s : State) (nout nin : Z) (input : list gr_complex) :
  completes s input ->
  Int.u64 (d_fs_in s) <> 0%Z ->
  exists w,
    general_work s nout nin input = Some w /\
    Qabs (inject_Z (d_current_prn_length_samples (state w))
          - (prn_period_samples (state w)
             + d_rem_code_phase_samples (state w))) <= 1 # 2 /\
    Qabs (inject_Z (d_current_prn_length_samples (state w))
          - prn_period_samples (state w))
    <= (1 # 2) + Qabs (d_rem_code_phase_samples (state w)) /\
    (Qabs (d_rem_code_phase_samples (state w)) <= 1 # 2 ->
     Qabs (inject_Z (d_current_prn_length_samples (state w))
           - prn_period_samples (state w)) <= 1).
Proof.
  intros Hc Hfs.
  destruct (general_work_returns s nout nin input Hfs) as [w Hw].
  exists w. split; [exact Hw |].
  rewrite general_work_tracking in Hw by assumption.
  open_tracking_block Hw. unfold prn_period_samples.
  cbn [state d_current_prn_length_samples d_rem_code_phase_samples
       d_code_freq_chips d_fs_in].
  set (f := (_ + cnco)%Q).
  set (R := rem_code_phase_samples_next s).
  set (K := (1 / f * GPS_L1_CA_CODE_LENGTH_CHIPS * inject_Z (d_fs_in s) + R)%Q).
  set (P := (inject_Z (d_fs_in s) * GPS_L1_CA_CODE_LENGTH_CHIPS / f)%Q).
  assert (HK : K == P + R) by (unfold K, P, Qdiv; ring).
  pose proof (round_half K) as Hr. rewrite Qabs_Qle_condition in Hr.
  assert (Hn : - (1 # 2) <= inject_Z (round K) - (P + R) <= 1 # 2)
    by (split; lra).
  pose proof (Qle_Qabs R) as HR1.
  pose proof (Qle_Qabs (- R)) as HR2. rewrite Qabs_opp in HR2.
  split; [| split].
  - apply Qabs_Qle_condition. exact Hn.
  - apply Qabs_Qle_condition. split; lra.
  - intros Hsmall. apply Qabs_Qle_condition. split; lra.
Qed.

(** C10. After every tracking block that runs to its end,
    rem_code_phase_samples is recomputed from the accumulated code
    phase: with code_phase_chips reduced modulo the code length L, it is
    L - code_phase_chips, less one code length when above L/2, so in
    (-L/2, L/2], scaled by fs_in / code_rate_nominal. Its magnitude is
    bounded by half a code period in samples. *)
Theorem rem_code_phase_from_accumulated_phase
    (s : State) (nout nin : Z) (input : list gr_complex) :
  completes s input ->
  (0 < d_fs_in s < 2 ^ 63)%Z ->
  (0 <= d_current_prn_length_samples s)%Z ->
  0 <= d_code_phase_chips s ->
  0 <= d_code_freq_chips s ->
  exists w chips,
    general_work s nout nin input = Some w /\
    d_code_phase_chips (state w)
    = fmod (d_code_phase_chips s
            + inject_Z (d_current_prn_length_samples s) / inject_Z (d_fs_in s)
              * d_code_freq_chips s)
           GPS_L1_CA_CODE_LENGTH_CHIPS /\
    0 <= d_code_phase_chips (state w) /\
    d_code_phase_chips (state w) < GPS_L1_CA_CODE_LENGTH_CHIPS /\
    (chips = GPS_L1_CA_CODE_LENGTH_CHIPS - d_code_phase_chips (state w) \/
     chips = GPS_L1_CA_CODE_LENGTH_CHIPS - d_code_phase_chips (state w)
             - GPS_L1_CA_CODE_LENGTH_CHIPS) /\
    - (GPS_L1_CA_CODE_LENGTH_CHIPS / 2) < chips /\
    chips <= GPS_L1_CA_CODE_LENGTH_CHIPS / 2 /\
    d_rem_code_phase_samples (state w)
    = chips * inject_Z (d_fs_in s) / GPS_L1_CA_CODE_RATE_HZ /\
    Qabs (d_rem_code_phase_samples (state w))
    <= GPS_L1_CA_CODE_LENGTH_CHIPS / 2 * inject_Z (d_fs_in s)
       / GPS_L1_CA_CODE_RATE_HZ.
Proof.
  intros Hc Hfs Hlen Hcp Hcf.
  assert (Hfs' : Int.u64 (d_fs_in s) <> 0%Z).
  { unfold Int.u64. rewrite Z.mod_small; lia. }
  destruct (general_work_returns s nout nin input Hfs') as [w Hw].
  exists w, (rem_code_phase_chips_next s). split; [exact Hw |].
  rewrite general_work_tracking in Hw by assumption.
  open_tracking_block Hw.
  cbn [state d_code_phase_chips d_rem_code_phase_samples].
  assert (HfsQ : 0 < inject_Z (d_fs_in s)).
  { rewrite <- (Zlt_Qlt 0). lia. }
  assert (HlenQ : 0 <= inject_Z (d_current_prn_length_samples s)).
  { rewrite <- (Zle_Qle 0). lia. }
  assert (Hadv : 0 <= d_code_phase_chips s
                      + inject_Z (d_current_prn_length_samples s)
                        / inject_Z (d_fs_in s) * d_code_freq_chips s).
  { assert (0 <= inject_Z (d_current_prn_length_samples s)
                 / inject_Z (d_fs_in s))
      by (apply Qle_shift_div_l; lra).
    assert (0 <= inject_Z (d_current_prn_length_samples s)
                 / inject_Z (d_fs_in s) * d_code_freq_chips s)
      by (apply Qmult_le_0_compat; assumption).
    lra. }
  destruct (fmod_nonneg _ GPS_L1_CA_CODE_LENGTH_CHIPS code_length_pos Hadv)
    as [Hlo Hhi].
  fold (code_phase_chips_next s) in Hlo, Hhi.
  pose proof code_length_pos as HL.
  assert (Hhalf : GPS_L1_CA_CODE_LENGTH_CHIPS / 2
                  == GPS_L1_CA_CODE_LENGTH_CHIPS * (1 # 2)) by (unfold Qdiv; reflexivity).
  split; [reflexivity |]. split; [exact Hlo |]. split; [exact Hhi |].
  assert (Hchips :
            (rem_code_phase_chips_next s
             = GPS_L1_CA_CODE_LENGTH_CHIPS - code_phase_chips_next s \/
             rem_code_phase_chips_next s
             = GPS_L1_CA_CODE_LENGTH_CHIPS - code_phase_chips_next s
               - GPS_L1_CA_CODE_LENGTH_CHIPS) /\
            - (GPS_L1_CA_CODE_LENGTH_CHIPS / 2) < rem_code_phase_chips_next s /\
            rem_code_phase_chips_next s <= GPS_L1_CA_CODE_LENGTH_CHIPS / 2).
  { unfold rem_code_phase_chips_next. cbv zeta.
    destruct (ltb _ _) eqn:Hcmp.
    - apply ltb_lt in Hcmp. split; [right; reflexivity |]. split; lra.
    - apply ltb_ge in Hcmp. split; [left; reflexivity |]. split; lra. }
  destruct Hchips as (Hform & Hgt & Hle).
  split; [exact Hform |]. split; [exact Hgt |]. split; [exact Hle |].
  split; [reflexivity |].
  unfold rem_code_phase_samples_next.
  set (r := rem_code_phase_chips_next s) in *.
  set (h := GPS_L1_CA_CODE_LENGTH_CHIPS / 2) in *.
  set (g := inject_Z (d_fs_in s) / GPS_L1_CA_CODE_RATE_HZ).
  assert (Hg : 0 < g) by (apply Qlt_shift_div_l; [apply code_rate_pos | lra]).
  assert (E1 : r * inject_Z (d_fs_in s) / GPS_L1_CA_CODE_RATE_HZ == r * g)
    by (unfold g, Qdiv; ring).
  assert (E2 : h * inject_Z (d_fs_in s) / GPS_L1_CA_CODE_RATE_HZ == h * g)
    by (unfold g, Qdiv; ring).
  rewrite E1, E2. apply Qabs_Qle_condition.
  assert (- h * g <= r * g) by (apply Qmult_le_compat_r; lra).
  assert (r * g <= h * g) by (apply Qmult_le_compat_r; lra).
  split; lra.
Qed.

End Phases.

(** C3 as stated fails. At zero intermediate frequency and an
    acquisition Doppler of -500 Hz, the first tracking block advances
    the carrier phase by -pi, and [fmod] leaves it there: the remainder
    is negative. *)
Lemma rem_carr_phase_goes_negative :
  exists w,
    general_work (Bench.aligned Bench.receding) 1 4000 (Bench.silence 4000)
    = Some w /\
    (d_rem_carr_phase_rad (state w) == - (GPS_TWO_PI / 2))%Q /\
    (d_rem_carr_phase_rad (state w) < 0)%Q.
Proof.
  assert (H : match general_work (Bench.aligned Bench.receding) 1 4000
                      (Bench.silence 4000) with
              | Some w =>
                  Qeq_bool (d_rem_carr_phase_rad (state w))
                           (- (GPS_TWO_PI / 2))
              | None => false
              end = true) by (vm_compute; reflexivity).
  destruct (general_work _ _ _ _) as [w |]; [| discriminate H].
  exists w. split; [reflexivity |].
  apply Qeq_bool_iff in H. split; [exact H |].
  rewrite H. reflexivity.
Qed.

(** The hypotheses of C3 (amended) hold in the bench. *)
Lemma rem_carr_phase_within_one_turn_witness :
  completes (Bench.aligned Bench.receding) (Bench.silence 4000) /\
  exists w,
    general_work (Bench.aligned Bench.receding) 1 4000 (Bench.silence 4000)
    = Some w /\
    (Qabs (d_rem_carr_phase_rad (state w)) < GPS_TWO_PI)%Q.
Proof.
  split; [exact aligned_receding_completes |].
  destruct (rem_carr_phase_within_one_turn
              (Bench.aligned Bench.receding) 1 4000 (Bench.silence 4000)
              aligned_receding_completes aligned_receding_rate)
    as (w & Hw & _ & Hb & _).
  exists w. split; assumption.
Defined.

(** C2 as stated fails. With a code period of 2000.49 samples, two
    input buffers of NaN samples leave a remainder that the next full
    block turns into 1.47 samples; the block length chosen is 2002,
    more than 1.5 samples away from the code period. *)
Lemma next_block_length_off_by_more_than_one :
  exists w,
    general_work Bench.adrift 1 4000 (Bench.silence 4000) = Some w /\
    completes Bench.adrift (Bench.silence 4000) /\
    d_current_prn_length_samples (state w) = 2002 /\
    (prn_period_samples (state w) == 200049 # 100)%Q /\
    (d_rem_code_phase_samples (state w) == 147 # 100)%Q /\
    (1 < Qabs (inject_Z (d_current_prn_length_samples (state w))
               - prn_period_samples (state w)))%Q.
Proof.
  destruct adrift_full_block as (Hc & _ & _ & _ & _ & w & Hw & Hlen & Hper & Hrem).
  exists w. split; [exact Hw |]. split; [exact Hc |].
  split; [exact Hlen |]. split; [exact Hper |]. split; [exact Hrem |].
  rewrite Hlen, Hper. reflexivity.
Qed.

(** The hypotheses of C2 (amended) hold in the bench. *)
Lemma next_block_length_rounds_period_plus_remainder_witness :
  completes (Bench.aligned Bench.receding) (Bench.silence 4000) /\
  exists w,
    general_work (Bench.aligned Bench.receding) 1 4000 (Bench.silence 4000)
    = Some w /\
    (Qabs (inject_Z (d_current_prn_length_samples (state w))
           - (prn_period_samples (state w)
              + d_rem_code_phase_samples (state w))) <= 1 # 2)%Q.
Proof.
  split; [exact aligned_receding_completes |].
  destruct (next_block_length_rounds_period_plus_remainder
              (Bench.aligned Bench.receding) 1 4000 (Bench.silence 4000)
              aligned_receding_completes aligned_receding_rate)
    as (w & Hw & Hb & _).
  exists w. split; assumption.
Defined.

(** The hypotheses of C10 hold in the bench, on a block that ends with
    a remainder of 1.47 samples: more than one sample, and within half
    a code period. *)
Lemma rem_code_phase_from_accumulated_phase_witness :
  completes Bench.adrift (Bench.silence 4000) /\
  0 < d_fs_in Bench.adrift < 2 ^ 63 /\
  0 <= d_current_prn_length_samples Bench.adrift /\
  (0 <= d_code_phase_chips Bench.adrift)%Q /\
  (0 <= d_code_freq_chips Bench.adrift)%Q /\
  exists w,
    general_work Bench.adrift 1 4000 (Bench.silence 4000) = Some w /\
    (1 < Qabs (d_rem_code_phase_samples (state w)))%Q /\
    (Qabs (d_rem_code_phase_samples (state w))
     <= GPS_L1_CA_CODE_LENGTH_CHIPS / 2 * inject_Z (d_fs_in Bench.adrift)
        / GPS_L1_CA_CODE_RATE_HZ)%Q.
Proof.
  destruct adrift_full_block as (H0 & H1 & H2 & H3 & H4 & w & Hw & _ & _ & Hrem).
  split; [exact H0 |]. split; [exact H1 |]. split; [exact H2 |].
  split; [exact H3 |]. split; [exact H4 |].
  destruct (rem_code_phase_from_accumulated_phase
              Bench.adrift 1 4000 (Bench.silence 4000) H0 H1 H2 H3 H4)
    as (w' & chips & Hw' & _ & _ & _ & _ & _ & _ & _ & Hb).
  rewrite Hw in Hw'. injection Hw' as <-.
  exists w. split; [exact Hw |]. split; [| exact Hb].
  rewrite Hrem. reflexivity.
Defined.

(* ================================================================== *)
(** * Construction *)

Section Construction.

Context {X : Externals}.


End Construction.


(* ================================================================== *)
(** * Further properties: the code table and the replicas *)

Section ReplicaFacts.

Context {X : Externals}.

Lemma s64_range (z : Z) : - 2 ^ 63 <= Int.s64 z < 2 ^ 63.
Proof.
  unfold Int.s64.
  pose proof (Z.mod_pos_bound (z + 2 ^ 63) (2 ^ 64) ltac:(lia)). lia.
Qed.

Lemma s64_small (z : Z) : - 2 ^ 63 <= z < 2 ^ 63 -> Int.s64 z = z.
Proof. intros H. unfold Int.s64. rewrite Z.mod_small; lia. Qed.

Lemma s64_add_l (a b : Z) : Int.s64 (Int.s64 a + b) = Int.s64 (a + b).
Proof.
  unfold Int.s64. f_equal.
  replace ((a + 2 ^ 63) mod 2 ^ 64 - 2 ^ 63 + b + 2 ^ 63)
    with ((a + 2 ^ 63) mod 2 ^ 64 + b) by lia.
  rewrite Zplus_mod_idemp_l. f_equal. lia.
Qed.

(** The phase after [i] samples is the starting phase plus [i] steps,
    wrapped once. *)
Lemma phase_at_closed (step : Z) (i : nat) :
  forall p0, - 2 ^ 63 <= p0 < 2 ^ 63 ->
  phase_at p0 step i = Int.s64 (p0 + Z.of_nat i * step).
Proof.
  induction i as [| i IH]; intros p0 Hp0.
  - cbn [phase_at]. replace (p0 + Z.of_nat 0 * step) with p0 by lia.
    now rewrite s64_small.
  - cbn [phase_at]. rewrite IH by apply s64_range.
    rewrite s64_add_l. f_equal. lia.
Qed.

(** X1. The fixed-point phase accumulators of update_local_code carry
    no drift: sample i of a replica is the table entry at
    1 + ((p0 + i * step) >> 32), where p0 is the starting phase of the
    replica and the sum wraps as a 64-bit integer; as long as the sum
    does not wrap, the index is 1 + floor((p0 + i * step) / 2^32). *)
Theorem update_local_code_phase_is_linear (r : Replica) (s : State) (i : nat) :
  (i < Z.to_nat (d_current_prn_length_samples s))%nat ->
  - 2 ^ 63 <= replica_phase_fxp r s < 2 ^ 63 ->
  nth_error (replica_code r (update_local_code s)) i
  = Some (ca_code_at (d_ca_code s)
            (chip_index (Int.s64 (replica_phase_fxp r s
                                  + Z.of_nat i * code_phase_step_fxp s)))) /\
  (- 2 ^ 63 <= replica_phase_fxp r s + Z.of_nat i * code_phase_step_fxp s
   < 2 ^ 63 ->
   nth_error (replica_code r (update_local_code s)) i
   = Some (ca_code_at (d_ca_code s)
             (1 + (replica_phase_fxp r s + Z.of_nat i * code_phase_step_fxp s)
                  / 2 ^ 32))).
Proof.
  intros Hi Hp0.
  pose proof (update_local_code_nth r s i Hi) as Hn.
  unfold replica_phase_at in Hn. rewrite phase_at_closed in Hn by exact Hp0.
  split; [exact Hn |].
  intros Hsum. rewrite Hn, s64_small by exact Hsum.
  unfold chip_index, Int.sar. now rewrite Z.shiftr_div_pow2 by lia.
Qed.

Lemma blit_0_length {A : Type} (buf src : list A) :
  (length src <= length buf)%nat -> length (blit buf 0 src) = length buf.
Proof.
  intros H. unfold blit. cbn [firstn app Nat.add].
  rewrite length_app, length_skipn. lia.
Qed.

Lemma blit_0_beyond {A : Type} (buf src : list A) (j : nat) :
  (length src <= j)%nat -> nth_error (blit buf 0 src) j = nth_error buf j.
Proof.
  intros H. unfold blit. cbn [firstn app Nat.add].
  rewrite nth_error_app2 by exact H.
  rewrite nth_error_skipn. f_equal. lia.
Qed.

(** X2. update_local_code rewrites only the first
    current_prn_length_samples cells of each replica buffer: when the
    block fits in the buffer its length is kept and every cell from the
    block length on holds what it held before; for a block length that
    is zero or negative the loop does not run and the three buffers are
    left as they were. *)
Theorem update_local_code_writes_one_block (r : Replica) (s : State) :
  (Z.to_nat (d_current_prn_length_samples s) <= length (replica_buffer r s))%nat ->
  length (replica_code r (update_local_code s)) = length (replica_buffer r s) /\
  (forall j, (Z.to_nat (d_current_prn_length_samples s) <= j)%nat ->
     nth_error (replica_code r (update_local_code s)) j
     = nth_error (replica_buffer r s) j) /\
  (d_current_prn_length_samples s <= 0 ->
     update_local_code s = (d_early_code s, d_prompt_code s, d_late_code s)).
Proof.
  intros Hfit. unfold update_local_code.
  pose proof (epl_loop_length (Z.to_nat (d_current_prn_length_samples s))
                (d_ca_code s) (early_code_phase_fxp s) (prompt_code_phase_fxp s)
                (late_code_phase_fxp s) (code_phase_step_fxp s)) as HL.
  split; [| split].
  - destruct (epl_loop _ _ _ _ _ _) as [[es ps] ls].
    cbn [fst snd] in HL. destruct HL as (Le & Lp & Ll).
    destruct r; cbn [replica_code replica_buffer fst snd] in *;
      apply blit_0_length; lia.
  - intros j Hj. destruct (epl_loop _ _ _ _ _ _) as [[es ps] ls].
    cbn [fst snd] in HL. destruct HL as (Le & Lp & Ll).
    destruct r; cbn [replica_code replica_buffer fst snd] in *;
      apply blit_0_beyond; lia.
  - intros Hneg.
    replace (Z.to_nat (d_current_prn_length_samples s)) with 0%nat by lia.
    reflexivity.
Qed.

Lemma ca_code_at_blit (tbl : list cell) (code : list gr_complex) (k : Z) :
  (1 <= length tbl)%nat ->
  1 <= k <= Z.of_nat (length code) ->
  ca_code_at (blit tbl 1 (map Some code)) k
  = nth_error code (Z.to_nat (k - 1)).
Proof.
  intros Htbl Hk. unfold ca_code_at, blit.
  destruct (k <? 0) eqn:Hneg; [apply Z.ltb_lt in Hneg; lia |].
  rewrite nth_error_app2 by (rewrite length_firstn; lia).
  rewrite length_firstn.
  replace (Z.to_nat k - Nat.min 1 (length tbl))%nat with (Z.to_nat (k - 1))
    by lia.
  rewrite nth_error_app1 by (rewrite length_map; lia).
  rewrite nth_error_map.
  destruct (nth_error code (Z.to_nat (k - 1))); reflexivity.
Qed.

(** X3. start_tracking fills the whole code table: on a table of L + 2
    entries and with a generator that yields the L chips of the code,
    entry k holds chip (k - 1) mod L for every k from 0 to L + 1, so
    entries 1 .. L are the code, entry 0 repeats the last chip and entry
    L + 1 the first. *)
Theorem start_tracking_fills_the_table (s : State) (k : Z) :
  length (d_ca_code s) = Z.to_nat (code_length_chips + 2) ->
  length (gps_l1_ca_code_gen_complex (PRN (d_acquisition_gnss_synchro s)) 0)
  = Z.to_nat code_length_chips ->
  0 <= k <= code_length_chips + 1 ->
  length (d_ca_code (start_tracking s)) = Z.to_nat (code_length_chips + 2) /\
  ca_code_at (d_ca_code (start_tracking s)) k
  = nth_error
      (gps_l1_ca_code_gen_complex (PRN (d_acquisition_gnss_synchro s)) 0)
      (Z.to_nat ((k - 1) mod code_length_chips)).
Proof.
  intros Htbl Hgen Hk. cbn [start_tracking d_ca_code]. unfold fill_ca_code.
  set (gen := gps_l1_ca_code_gen_complex _ 0) in *.
  set (t1 := blit (d_ca_code s) 1 (map Some gen)).
  change code_length_chips with 1023 in *.
  set (t2 := store t1 0 (ca_code_at t1 1023)).
  change (Z.to_nat (1023 + 2)) with 1025%nat in *.
  change (Z.to_nat (1023 + 1)) with 1024%nat.
  change (Z.to_nat 1023) with 1023%nat in Hgen.
  assert (H1 : length t1 = 1025%nat).
  { unfold t1, blit. rewrite !length_app, length_firstn, length_skipn, length_map.
    unfold cell in *. lia. }
  assert (H2 : length t2 = 1025%nat) by (unfold t2; now rewrite store_length).
  split; [now rewrite store_length |].
  assert (Hin : forall j, 1 <= j <= 1023 ->
                  ca_code_at t1 j = nth_error gen (Z.to_nat (j - 1))).
  { intros j Hj. apply ca_code_at_blit; unfold cell in *; lia. }
  assert (Hc : k = 0 \/ k = 1024 \/ 1 <= k <= 1023) by lia.
  destruct Hc as [-> | [-> | Hc]].
  - rewrite (ca_code_at_store_other t2 1024) by (cbn; lia).
    unfold t2. rewrite (ca_code_at_store_same t1 0) by lia.
    rewrite Hin by lia. reflexivity.
  - change 1024 with (Z.of_nat 1024).
    rewrite (ca_code_at_store_same t2 1024) by lia.
    unfold t2. rewrite ca_code_at_store_other by (cbn; lia).
    rewrite Hin by lia. reflexivity.
  - rewrite (ca_code_at_store_other t2 1024) by lia.
    unfold t2. rewrite ca_code_at_store_other by lia.
    rewrite Hin by lia. rewrite Z.mod_small by lia. reflexivity.
Qed.

End ReplicaFacts.

(* ================================================================== *)
(** * Further properties: start of tracking and alignment *)

Section Alignment.

Context {X : Externals}.

Local Open Scope Q_scope.

Lemma round_comp (x y : Q) : x == y -> round x = round y.
Proof.
  intros H. unfold round.
  assert (Hb : Qle_bool 0 x = Qle_bool 0 y).
  { destruct (Qle_bool 0 y) eqn:Hy.
    - apply Qle_bool_iff. apply Qle_bool_iff in Hy. lra.
    - apply not_true_iff_false. intros Hx. apply not_true_iff_false in Hy.
      apply Hy. apply Qle_bool_iff. apply Qle_bool_iff in Hx. lra. }
  rewrite Hb. destruct (Qle_bool 0 y).
  - apply Qfloor_comp. lra.
  - apply Qceiling_comp. lra.
Qed.

Lemma round_inject_Z (n : Z) : round (inject_Z n) = n.
Proof.
  pose proof (round_half (inject_Z n)) as H.
  apply Qabs_Qle_condition in H. destruct H as [H1 H2].
  unfold Qminus in H1, H2. rewrite <- inject_Z_opp, <- inject_Z_plus in H1, H2.
  assert (Hlo : (-1 < round (inject_Z n) + - n)%Z).
  { rewrite Zlt_Qlt. change (inject_Z (-1)) with (-1). lra. }
  assert (Hhi : (round (inject_Z n) + - n < 1)%Z).
  { rewrite Zlt_Qlt. change (inject_Z 1) with 1. lra. }
  lia.
Qed.

(** [fmod] of two integers is the integer remainder, with the sign of
    the dividend. *)
Lemma fmod_inject_Z (a b : Z) :
  (0 < b)%Z -> fmod (inject_Z a) (inject_Z b) == inject_Z (Z.rem a b).
Proof.
  intros Hb. unfold fmod.
  assert (Ht : trunc (inject_Z a / inject_Z b) = Z.quot a b).
  { destruct b as [| p | p]; try lia.
    unfold trunc, Qdiv, Qinv, Qmult, inject_Z. cbn [Qnum Qden].
    rewrite Z.mul_1_r. reflexivity. }
  rewrite Ht. unfold Qminus.
  rewrite <- inject_Z_mult, <- inject_Z_opp, <- inject_Z_plus.
  pose proof (Z.quot_rem' a b) as Hqr.
  replace (a + - (Z.quot a b * b))%Z with (Z.rem a b) by lia.
  reflexivity.
Qed.

Lemma freq_pos : 0 < GPS_L1_FREQ_HZ.
Proof. reflexivity. Qed.

(** The two ways [start_tracking] writes the Doppler-scaled code rate
    agree, and so do the code period it rounds and the code period at
    the code rate it leaves. *)
Lemma start_tracking_code_rate (s : State) :
  d_code_freq_chips (start_tracking s)
  == (GPS_L1_FREQ_HZ + Acq_doppler_hz (d_acquisition_gnss_synchro s))
     / GPS_L1_FREQ_HZ * GPS_L1_CA_CODE_RATE_HZ.
Proof.
  cbn [start_tracking d_code_freq_chips]. field.
  pose proof freq_pos. lra.
Qed.

Lemma start_tracking_period (s : State) :
  ~ Acq_doppler_hz (d_acquisition_gnss_synchro s) == - GPS_L1_FREQ_HZ ->
  1 / ((GPS_L1_FREQ_HZ + Acq_doppler_hz (d_acquisition_gnss_synchro s))
       / GPS_L1_FREQ_HZ * GPS_L1_CA_CODE_RATE_HZ)
  * GPS_L1_CA_CODE_LENGTH_CHIPS * inject_Z (d_fs_in s)
  == prn_period_samples (start_tracking s).
Proof.
  intros Hd. unfold prn_period_samples.
  cbn [start_tracking d_code_freq_chips d_fs_in].
  pose proof freq_pos. pose proof code_rate_pos.
  set (d := Acq_doppler_hz (d_acquisition_gnss_synchro s)) in *.
  field. repeat split; try lra.
  intros E. apply Hd.
  assert (E' : (GPS_L1_CA_CODE_RATE_HZ * GPS_L1_FREQ_HZ
                + d * GPS_L1_CA_CODE_RATE_HZ)
               == GPS_L1_CA_CODE_RATE_HZ * (GPS_L1_FREQ_HZ + d)) by ring.
  rewrite E' in E. apply Qmult_integral in E. destruct E; lra.
Qed.

(** X4. start_tracking sets the Doppler-scaled code rate
    code_rate * (f_L1 + doppler) / f_L1 and a first block length within
    half a sample of one code period at that rate (for a Doppler other
    than -f_L1, where the rate is zero). *)
Theorem start_tracking_block_length (s : State) :
  ~ Acq_doppler_hz (d_acquisition_gnss_synchro s) == - GPS_L1_FREQ_HZ ->
  d_code_freq_chips (start_tracking s)
  == GPS_L1_CA_CODE_RATE_HZ
     * ((GPS_L1_FREQ_HZ + Acq_doppler_hz (d_acquisition_gnss_synchro s))
        / GPS_L1_FREQ_HZ) /\
  Qabs (inject_Z (d_current_prn_length_samples (start_tracking s))
        - prn_period_samples (start_tracking s)) <= 1 # 2.
Proof.
  intros Hd. split.
  - rewrite start_tracking_code_rate. ring.
  - rewrite <- (start_tracking_period s Hd).
    cbn [start_tracking d_current_prn_length_samples]. apply round_half.
Qed.

Lemma nominal_period_pos (s : State) :
  (0 < d_fs_in s)%Z -> 0 < nominal_period_samples s.
Proof.
  intros Hfs. unfold nominal_period_samples.
  assert (0 < inject_Z (d_fs_in s)) by (rewrite <- (Zlt_Qlt 0); lia).
  assert (0 < GPS_L1_CA_CODE_LENGTH_CHIPS / GPS_L1_CA_CODE_RATE_HZ)
    by reflexivity.
  apply Qmult_lt_0_compat; assumption.
Qed.

(** The corrected acquisition phase, as [start_tracking] computes it. *)
Lemma start_tracking_acq_phase (s : State) :
  ~ Acq_doppler_hz (d_acquisition_gnss_synchro s) == - GPS_L1_FREQ_HZ ->
  exists wrapped,
    wrapped = fmod (uncorrected_acq_phase_samples s) (nominal_period_samples s) /\
    ((wrapped < 0 /\
      d_acq_code_phase_samples (start_tracking s)
      == prn_period_samples (start_tracking s) + wrapped) \/
     (0 <= wrapped /\ d_acq_code_phase_samples (start_tracking s) = wrapped)).
Proof.
  intros Hd. eexists. split; [reflexivity |].
  cbn [start_tracking d_acq_code_phase_samples].
  change (fmod _ (GPS_L1_CA_CODE_LENGTH_CHIPS / GPS_L1_CA_CODE_RATE_HZ
                  * inject_Z (d_fs_in s)))
    with (fmod (uncorrected_acq_phase_samples s) (nominal_period_samples s)).
  destruct (ltb _ 0) eqn:Hneg.
  - apply ltb_lt in Hneg. left. split; [exact Hneg |].
    rewrite <- (start_tracking_period s Hd). reflexivity.
  - apply ltb_ge in Hneg. right. split; [exact Hneg | reflexivity].
Qed.

(** X5. start_tracking wraps the acquisition code phase into one code
    period: for a positive sampling rate, the phase it leaves in
    acq_code_phase_samples is in [0, one Doppler-scaled code period)
    whenever that period is not shorter than the nominal one (Doppler
    not positive), and in [0, one nominal code period) whenever the
    phase brought forward from acquisition is not negative. *)
Theorem start_tracking_wraps_the_code_phase (s : State) :
  (0 < d_fs_in s)%Z ->
  ~ Acq_doppler_hz (d_acquisition_gnss_synchro s) == - GPS_L1_FREQ_HZ ->
  (nominal_period_samples s <= prn_period_samples (start_tracking s) ->
   0 <= d_acq_code_phase_samples (start_tracking s) /\
   d_acq_code_phase_samples (start_tracking s)
   < prn_period_samples (start_tracking s)) /\
  (0 <= uncorrected_acq_phase_samples s ->
   d_acq_code_phase_samples (start_tracking s)
   = fmod (uncorrected_acq_phase_samples s) (nominal_period_samples s) /\
   0 <= d_acq_code_phase_samples (start_tracking s) /\
   d_acq_code_phase_samples (start_tracking s) < nominal_period_samples s).
Proof.
  intros Hfs Hd.
  pose proof (nominal_period_pos s Hfs) as HT.
  destruct (start_tracking_acq_phase s Hd) as (wr & Hwr & Hcase).
  pose proof (fmod_abs_lt (uncorrected_acq_phase_samples s) _ HT) as Habs.
  rewrite <- Hwr in Habs. apply Qabs_Qlt_condition in Habs.
  split.
  - intros Hlong. destruct Hcase as [[Hneg Hp] | [Hpos Hp]].
    + rewrite Hp. split; lra.
    + rewrite Hp. split; lra.
  - intros Hx.
    destruct (fmod_nonneg _ _ HT Hx) as [Hlo Hhi]. rewrite <- Hwr in Hlo, Hhi.
    destruct Hcase as [[Hneg Hp] | [Hpos Hp]]; [lra |].
    rewrite Hp. split; [exact Hwr |]. split; assumption.
Qed.

(** The sample offset of the alignment block. *)
Lemma pull_in_offset (s : State) :
  (0 < d_current_prn_length_samples s)%Z ->
  d_acq_code_phase_samples s
  + (inject_Z (d_current_prn_length_samples s)
     - fmod (inject_Z (acq_to_trk_delay_samples s))
            (inject_Z (d_current_prn_length_samples s)))
  == d_acq_code_phase_samples s
     + inject_Z (d_current_prn_length_samples s
                 - Z.rem (acq_to_trk_delay_samples s)
                         (d_current_prn_length_samples s)).
Proof.
  intros Hlen. rewrite fmod_inject_Z by exact Hlen.
  unfold Zminus. rewrite inject_Z_plus, inject_Z_opp. ring.
Qed.

(** X6. The alignment block brings the input to a code-period boundary
    of the acquisition: with a block length and a count of samples since
    the acquisition stamp below 2^24 (where the single-precision casts
    of the source are exact), the block length positive and the count
    not negative, the samples counted since the stamp after the block
    are within half a sample of the acquisition code phase plus a whole
    number of block lengths, and exactly that when the code phase is a
    whole number of samples. *)
Theorem pull_in_aligns_to_the_acquisition
    (s : State) (nout nin : Z) (input : list gr_complex) :
  d_enable_tracking s = true -> d_pull_in s = true ->
  (0 < d_current_prn_length_samples s < 2 ^ 24)%Z ->
  (0 <= d_sample_counter s - d_acq_sample_stamp s < 2 ^ 24)%Z ->
  exists w periods,
    general_work s nout nin input = Some w /\
    periods = ((d_sample_counter s - d_acq_sample_stamp s)
               / d_current_prn_length_samples s + 1)%Z /\
    Qabs (inject_Z (d_sample_counter s - d_acq_sample_stamp s + consumed w)
          - (d_acq_code_phase_samples s
             + inject_Z (periods * d_current_prn_length_samples s)))
    <= 1 # 2 /\
    (forall n : Z, d_acq_code_phase_samples s == inject_Z n ->
       (d_sample_counter s - d_acq_sample_stamp s + consumed w
        = n + periods * d_current_prn_length_samples s)%Z).
Proof.
  intros Hen Hpull [Hlen _] Hdelay.
  rewrite general_work_pull_in by assumption.
  eexists. eexists. split; [reflexivity |]. split; [reflexivity |].
  cbn [pull_in_block consumed].
  fold (acq_to_trk_delay_samples s).
  set (D := (d_sample_counter s - d_acq_sample_stamp s)%Z) in *.
  set (len := d_current_prn_length_samples s) in *.
  assert (HD : acq_to_trk_delay_samples s = D).
  { unfold acq_to_trk_delay_samples. fold D. unfold Int.u64, Int.s32.
    rewrite (Z.mod_small D) by lia. rewrite Z.mod_small by lia. lia. }
  pose proof (pull_in_offset s Hlen) as Hoff. fold len in Hoff.
  rewrite HD in Hoff |- *.
  assert (Hrem : Z.rem D len = (D mod len)%Z) by (apply Z.rem_mod_nonneg; lia).
  pose proof (Z.div_mod D len ltac:(lia)) as Hdm.
  assert (Hsum : (D + (len - Z.rem D len) = (D / len + 1) * len)%Z)
    by (rewrite Hrem; lia).
  split.
  - rewrite (round_comp _ _ Hoff).
    pose proof (round_half (d_acq_code_phase_samples s
                            + inject_Z (len - Z.rem D len))) as Hr.
    apply Qabs_Qle_condition in Hr. apply Qabs_Qle_condition.
    set (c := round _) in *.
    assert (E1 : inject_Z (D + c) == inject_Z D + inject_Z c)
      by (rewrite inject_Z_plus; reflexivity).
    assert (E2 : inject_Z ((D / len + 1) * len)
                 == inject_Z D + inject_Z (len - Z.rem D len))
      by (rewrite <- Hsum, inject_Z_plus; reflexivity).
    split; lra.
  - intros n Hn. rewrite (round_comp _ _ Hoff).
    assert (Hint : d_acq_code_phase_samples s + inject_Z (len - Z.rem D len)
                   == inject_Z (n + (len - Z.rem D len))).
    { rewrite Hn, <- inject_Z_plus. reflexivity. }
    rewrite (round_comp _ _ Hint), round_inject_Z. lia.
Qed.



End Alignment.

(* ================================================================== *)
(** * Further properties: what every invocation keeps *)

Section Invocations.

Context {X : Externals}.

(** Case analysis on a returning invocation: [tac] closes the idle,
    alignment and NaN paths, in which the new state is a record with
    known fields; the tracking path is left open, its equation
    opened. *)
Ltac on_paths Hw s input :=
  destruct (general_work_cases s input) as [?Hoff | [[?Hon ?Hpull] | [?Hf | ?Hc]]];
  [ rewrite general_work_idle in Hw by assumption; unfold idle_block in Hw;
    destruct (Int.udiv _ _); [| discriminate Hw]; injection Hw as <-
  | rewrite general_work_pull_in in Hw by assumption; injection Hw as <-
  | rewrite general_work_nan in Hw by assumption; injection Hw as <-
  | rewrite general_work_tracking in Hw by assumption;
    open_tracking_block Hw ].

(** X9. Every invocation that returns writes exactly one output record
    and returns 1, and never raises a validity flag of its own:
    Flag_valid_tracking is set in the output only if it is set in the
    acquisition record, and Flag_valid_pseudorange only by the alignment
    block, which passes the acquisition record through. *)
Theorem one_record_per_invocation
    (s : State) (nout nin : Z) (input : list gr_complex) (w : Work) :
  general_work s nout nin input = Some w ->
  returned w = 1 /\
  exists o,
    out w = [o] /\
    (Flag_valid_tracking o = true ->
     Flag_valid_tracking (d_acquisition_gnss_synchro s) = true) /\
    (Flag_valid_pseudorange o = true ->
     d_pull_in s = true /\ o = d_acquisition_gnss_synchro s).
Proof.
  intros Hw. on_paths Hw s input; cbn [returned out pull_in_block nan_block];
    (split; [reflexivity |]); eexists; (split; [reflexivity |]);
    cbn [Flag_valid_tracking Flag_valid_pseudorange Gnss_Synchro_default];
    split; intros H; try discriminate H; auto.
Qed.

(** The lock fail counter stays between 0 and the maximum. *)
Lemma fail_counter_step
    (s : State) (nout nin : Z) (input : list gr_complex) (w : Work) :
  general_work s nout nin input = Some w ->
  0 <= d_carrier_lock_fail_counter s <= MAXIMUM_LOCK_FAIL_COUNTER ->
  0 <= d_carrier_lock_fail_counter (state w) <= MAXIMUM_LOCK_FAIL_COUNTER.
Proof.
  intros Hw Hb. on_paths Hw s input;
    cbn [state pull_in_block nan_block d_carrier_lock_fail_counter];
    try exact Hb.
  unfold MAXIMUM_LOCK_FAIL_COUNTER in *.
  destruct (d_cn0_estimation_counter s <? CN0_ESTIMATION_SAMPLES);
    cbn [negb andb]; [exact Hb |].
  destruct (ltb _ _ || ltb _ _).
  - destruct (d_carrier_lock_fail_counter s + 1 >? 50) eqn:Hgt; [lia |].
    rewrite Z.gtb_ltb in Hgt. apply Z.ltb_ge in Hgt. lia.
  - destruct (d_carrier_lock_fail_counter s >? 0) eqn:Hpos.
    + destruct (d_carrier_lock_fail_counter s - 1 >? 50) eqn:Hgt; lia.
    + destruct (d_carrier_lock_fail_counter s >? 50) eqn:Hgt; lia.
Qed.

Lemma pull_in_implies_enabled_step
    (s : State) (nout nin : Z) (input : list gr_complex) (w : Work) :
  general_work s nout nin input = Some w ->
  (d_pull_in s = true -> d_enable_tracking s = true) ->
  d_pull_in (state w) = true -> d_enable_tracking (state w) = true.
Proof.
  intros Hw Hinv. on_paths Hw s input;
    cbn [state pull_in_block nan_block d_pull_in d_enable_tracking];
    try assumption; try discriminate.
  destruct Hc as (_ & Hp & _). intros H. congruence.
Qed.

Lemma sample_counter_step
    (s : State) (nout nin : Z) (input : list gr_complex) (w : Work) :
  general_work s nout nin input = Some w ->
  0 <= d_sample_counter (state w) < 2 ^ 64.
Proof.
  intros Hw. on_paths Hw s input;
    cbn [state pull_in_block nan_block d_sample_counter];
    apply Z.mod_pos_bound; lia.
Qed.

(** X10. On every object, from construction on and through any
    sequence of set_channel, set_gnss_synchro, start_tracking and
    general_work, the sample counter is in [0, 2^64), the lock fail
    counter in [0, 50], the estimation counter in [0, 20] over a Prompt
    buffer of 20 entries, and an alignment is pending only while
    tracking is enabled. *)
Theorem object_invariants (a : Args) (s : State) :
  reached a s ->
  0 <= d_sample_counter s < 2 ^ 64 /\
  0 <= d_carrier_lock_fail_counter s <= MAXIMUM_LOCK_FAIL_COUNTER /\
  buffer_invariant s /\
  (d_pull_in s = true -> d_enable_tracking s = true).
Proof.
  induction 1 as [| s ch _ IH | s g _ IH | s _ IH | s nout nin input w _ IH Hw].
  - cbn. unfold MAXIMUM_LOCK_FAIL_COUNTER.
    split; [lia |]. split; [lia |].
    split; [apply buffer_invariant_constructor | discriminate].
  - exact IH.
  - exact IH.
  - destruct IH as (Hsc & _ & Hbuf & _).
    cbn [start_tracking d_sample_counter d_carrier_lock_fail_counter
         d_pull_in d_enable_tracking].
    unfold MAXIMUM_LOCK_FAIL_COUNTER.
    split; [exact Hsc |]. split; [lia |]. split; [exact Hbuf | reflexivity].
  - destruct IH as (Hsc & Hfail & Hbuf & Hpull).
    split; [exact (sample_counter_step _ _ _ _ _ Hw) |].
    split; [exact (fail_counter_step _ _ _ _ _ Hw Hfail) |].
    split; [exact (buffer_invariant_general_work _ _ _ _ _ Hw Hbuf) |].
    exact (pull_in_implies_enabled_step _ _ _ _ _ Hw Hpull).
Qed.

(** X11. No method changes the configuration given at construction:
    on every object the sampling rate, the intermediate frequency, the
    vector length, the early-late spacing and the dump flag are those of
    the constructor arguments, and the lock threshold is the constant
    0.85. *)
Theorem configuration_is_frozen (a : Args) (s : State) :
  reached a s ->
  d_fs_in s = fs_in a /\ d_if_freq s = if_freq a /\
  d_vector_length s = vector_length a /\
  d_early_late_spc_chips s = early_late_space_chips a /\
  d_dump s = dump a /\
  d_carrier_lock_threshold s = CARRIER_LOCK_THRESHOLD.
Proof.
  induction 1 as [| s ch _ IH | s g _ IH | s _ IH | s nout nin input w _ IH Hw];
    try exact IH.
  - cbn. repeat split.
  - on_paths Hw s input; exact IH.
Qed.

Lemma reached_carrier_aiding (a : Args) (s : State) :
  reached a s -> d_carrier_aiding_enabled s = true.
Proof.
  induction 1 as [| s ch _ IH | s g _ IH | s _ IH | s nout nin input w _ IH Hw];
    try exact IH.
  - reflexivity.
  - on_paths Hw s input; exact IH.
Qed.

(** X12. Carrier aiding is always on: on every object, a tracking block
    that runs to its end leaves
    code_freq_chips = code_rate + carrier_doppler_hz * code_rate / f_L1 + c
    for the new Doppler estimate and some code-filter output c, and adds
    T * c / code_rate to acc_code_phase_secs for the same c; the
    unaided branch is never taken. *)
Theorem code_rate_is_carrier_aided
    (a : Args) (s : State) (nout nin : Z) (input : list gr_complex) (w : Work) :
  reached a s ->
  completes s input ->
  general_work s nout nin input = Some w ->
  exists c : Q,
    d_code_freq_chips (state w)
    = (GPS_L1_CA_CODE_RATE_HZ
       + d_carrier_doppler_hz (state w) * GPS_L1_CA_CODE_RATE_HZ
         / GPS_L1_FREQ_HZ + c)%Q /\
    d_acc_code_phase_secs (state w)
    = (d_acc_code_phase_secs s
       + GPS_L1_CA_CODE_PERIOD * c / GPS_L1_CA_CODE_RATE_HZ)%Q.
Proof.
  intros Hr Hc Hw. pose proof (reached_carrier_aiding a s Hr) as Haid.
  rewrite general_work_tracking in Hw by assumption.
  open_tracking_block Hw.
  cbn [state d_code_freq_chips d_carrier_doppler_hz d_acc_code_phase_secs].
  rewrite Haid. exists cnco. split; reflexivity.
Qed.

(** X13. general_work never enables tracking, and disables it only on
    loss of lock: with the fail counter at most 50, an invocation that
    finds tracking enabled and leaves it disabled is a tracking block
    run to its end at an estimation epoch, with the fail counter at
    exactly 50 and a new estimate below the lock threshold or the
    minimum C/N0; it leaves the fail counter at 0. *)
Theorem tracking_stops_only_on_loss_of_lock
    (s : State) (nout nin : Z) (input : list gr_complex) (w : Work) :
  general_work s nout nin input = Some w ->
  d_carrier_lock_fail_counter s <= MAXIMUM_LOCK_FAIL_COUNTER ->
  (d_enable_tracking s = false -> d_enable_tracking (state w) = false) /\
  (d_enable_tracking s = true -> d_enable_tracking (state w) = false ->
   completes s input /\
   CN0_ESTIMATION_SAMPLES <= d_cn0_estimation_counter s /\
   d_carrier_lock_fail_counter s = MAXIMUM_LOCK_FAIL_COUNTER /\
   (d_carrier_lock_test (state w) < d_carrier_lock_threshold s \/
    d_CN0_SNV_dB_Hz (state w) < MINIMUM_VALID_CN0)%Q /\
   d_carrier_lock_fail_counter (state w) = 0).
Proof.
  intros Hw Hmax. on_paths Hw s input;
    cbn [state pull_in_block nan_block d_enable_tracking];
    try (split; [intros H; try exact H; congruence
                | intros H1 H2; congruence]).
  pose proof Hc as (Hen & _ & _).
    cbn [d_carrier_lock_fail_counter d_carrier_lock_test d_CN0_SNV_dB_Hz].
    split; [intros H; congruence |]. intros _.
    unfold MAXIMUM_LOCK_FAIL_COUNTER in *.
    destruct (d_cn0_estimation_counter s <? CN0_ESTIMATION_SAMPLES) eqn:Hfill;
      cbn [negb andb]; [intros H; congruence |].
    apply Z.ltb_ge in Hfill.
    set (lock := carrier_lock_detector _ _).
    set (cn0 := cn0_svn_estimator _ _ _ _).
    destruct (ltb lock _ || ltb cn0 _) eqn:Hbad.
    + destruct (d_carrier_lock_fail_counter s + 1 >? 50) eqn:Hgt;
        [| intros H; congruence].
      intros _. apply Z.gtb_lt in Hgt.
      apply orb_true_iff in Hbad. rewrite !ltb_lt in Hbad.
      split; [exact Hc |]. split; [exact Hfill |]. split; [lia |].
      split; [exact Hbad | reflexivity].
    + destruct (d_carrier_lock_fail_counter s >? 0).
      * destruct (d_carrier_lock_fail_counter s - 1 >? 50) eqn:Hgt;
          [apply Z.gtb_lt in Hgt; lia | intros H; congruence].
      * destruct (d_carrier_lock_fail_counter s >? 50) eqn:Hgt;
          [apply Z.gtb_lt in Hgt; lia | intros H; congruence].
Qed.

(** X14. The queue is only ever appended to: an invocation either
    leaves the queue as it is, or appends the loss-of-lock message of
    its channel behind the messages already there, and it does so only
    when it turns tracking from enabled to disabled. A null queue stays
    null. *)
Theorem queue_only_grows_by_loss_of_lock
    (s : State) (nout nin : Z) (input : list gr_complex) (w : Work) :
  general_work s nout nin input = Some w ->
  d_queue (state w) = d_queue s \/
  (exists q,
     d_queue s = Some q /\
     d_queue (state w) = Some (q ++ [loss_of_lock_message s]) /\
     d_enable_tracking s = true /\ d_enable_tracking (state w) = false).
Proof.
  intros Hw. on_paths Hw s input;
    cbn [state pull_in_block nan_block d_queue d_enable_tracking];
    try (left; reflexivity).
  pose proof Hc as (Hen & _ & _).
  destruct (negb _ && _); [| left; reflexivity].
  destruct (d_queue s) as [q |]; [| left; reflexivity].
  right. exists q. repeat split. exact Hen.
Qed.

End Invocations.

(* ================================================================== *)
(** * Further properties: runs of invocations *)

Section Runs.

Context {X : Externals}.

Local Open Scope Z_scope.

Lemma invocations_app (a b : list (list gr_complex)) :
  forall s : State,
  invocations s (a ++ b)
  = match invocations s a with
    | Some s1 => invocations s1 b
    | None => None
    end.
Proof.
  induction a as [| input rest IH]; intros s; cbn [app invocations].
  - reflexivity.
  - destruct (general_work s 1 _ input) as [w |]; [apply IH | reflexivity].
Qed.

Lemma all_complete_app (a b : list (list gr_complex)) :
  forall s s1 : State,
  all_complete s (a ++ b) ->
  invocations s a = Some s1 ->
  all_complete s a /\ all_complete s1 b.
Proof.
  induction a as [| input rest IH]; intros s s1 Hall Hrun;
    cbn [app invocations all_complete] in *.
  - injection Hrun as <-. split; [exact I | exact Hall].
  - destruct Hall as [Hc Hall].
    destruct (general_work s 1 _ input) as [w |]; [| discriminate Hrun].
    destruct (IH _ _ Hall Hrun) as [H1 H2].
    split; [split; assumption | exact H2].
Qed.

Lemma invocations_fs_in (inputs : list (list gr_complex)) :
  forall s s' : State,
  invocations s inputs = Some s' -> d_fs_in s' = d_fs_in s.
Proof.
  induction inputs as [| input rest IH]; intros s s' Hrun;
    cbn [invocations] in Hrun.
  - now injection Hrun as <-.
  - destruct (general_work s 1 _ input) as [w |] eqn:Hw; [| discriminate Hrun].
    rewrite (IH _ _ Hrun). exact (general_work_fs_in _ _ _ _ _ Hw).
Qed.

Lemma same_loops_refl (s : State) : same_loops s s.
Proof. unfold same_loops. repeat split. Qed.

Lemma same_loops_trans (s1 s2 s3 : State) :
  same_loops s1 s2 -> same_loops s2 s3 -> same_loops s1 s3.
Proof.
  unfold same_loops. intros H12 H23.
  repeat match goal with H : _ /\ _ |- _ => destruct H end.
  repeat split; congruence.
Qed.

(** X15. While tracking is disabled the block only counts: any number
    n of invocations returns, whatever the input buffers hold, advances
    the sample counter by n block lengths (modulo 2^64), leaves tracking
    disabled and leaves the loop filters, the Doppler and code-frequency
    estimates, the accumulated phases, the lock detector, the block
    length and the queue as they were. *)
Theorem idle_run_only_counts (inputs : list (list gr_complex)) :
  forall s : State,
  d_enable_tracking s = false ->
  Int.u64 (d_fs_in s) <> 0 ->
  0 <= d_sample_counter s < 2 ^ 64 ->
  exists s',
    invocations s inputs = Some s' /\
    d_sample_counter s'
    = Int.u64 (d_sample_counter s
               + Z.of_nat (length inputs) * d_current_prn_length_samples s) /\
    same_loops s s' /\
    d_enable_tracking s' = false.
Proof.
  induction inputs as [| input rest IH]; intros s Hoff Hfs Hsc.
  - exists s. cbn [invocations length Z.of_nat].
    split; [reflexivity |].
    split; [unfold Int.u64; rewrite Z.mod_small; [lia | lia] |].
    split; [apply same_loops_refl | exact Hoff].
  - cbn [invocations]. rewrite general_work_idle by exact Hoff.
    unfold idle_block, Int.udiv.
    destruct (Int.u64 (d_fs_in s) =? 0) eqn:Hz;
      [apply Z.eqb_eq in Hz; contradiction |].
    cbn [state].
    match goal with
    | |- context [invocations ?st rest] => set (s1 := st)
    end.
    destruct (IH s1 Hoff Hfs) as (s' & Hrun & Hcnt & Hloops & Hoff').
    { cbn [s1 d_sample_counter]. apply Z.mod_pos_bound. lia. }
    exists s'. split; [exact Hrun |]. split; [| split; [| exact Hoff']].
    + rewrite Hcnt. cbn [s1 d_sample_counter d_current_prn_length_samples length].
      unfold Int.u64. rewrite Zplus_mod_idemp_l. f_equal. lia.
    + apply (same_loops_trans s s1 s'); [| exact Hloops].
      unfold same_loops. repeat split.
Qed.

(** X16. The lock detector has a cycle of 21 blocks, not 20. With k
    Prompts buffered, 20 - k tracking blocks that run to their end fill
    the buffer with their Prompts; the next one produces the C/N0
    estimate and the lock test from exactly those 20 buffered values,
    leaves the buffer as it is and resets the counter to 0: the Prompt
    of the estimating block itself enters no estimate. *)
Theorem lock_detector_cycle
    (inputs : list (list gr_complex)) (last : list gr_complex) (s : State) :
  buffer_invariant s ->
  Int.u64 (d_fs_in s) <> 0 ->
  all_complete s (inputs ++ [last]) ->
  d_cn0_estimation_counter s + Z.of_nat (length inputs)
  = CN0_ESTIMATION_SAMPLES ->
  exists s20 s',
    invocations s inputs = Some s20 /\
    invocations s (inputs ++ [last]) = Some s' /\
    (forall j, (j < length inputs)%nat ->
       nth_error (d_Prompt_buffer s20)
         (Z.to_nat (d_cn0_estimation_counter s) + j)
       = nth_error (prompts_of s inputs) j) /\
    (forall j, (j < Z.to_nat (d_cn0_estimation_counter s))%nat ->
       nth_error (d_Prompt_buffer s20) j = nth_error (d_Prompt_buffer s) j) /\
    d_Prompt_buffer s' = d_Prompt_buffer s20 /\
    d_cn0_estimation_counter s' = 0 /\
    d_CN0_SNV_dB_Hz s'
    = cn0_svn_estimator (d_Prompt_buffer s20) CN0_ESTIMATION_SAMPLES
        (d_fs_in s) GPS_L1_CA_CODE_LENGTH_CHIPS /\
    d_carrier_lock_test s'
    = carrier_lock_detector (d_Prompt_buffer s20) CN0_ESTIMATION_SAMPLES.
Proof.
  intros Hinv Hfs Hall Hroom.
  assert (Hpre : exists s20, invocations s inputs = Some s20).
  { clear Hroom Hinv. revert s Hfs Hall.
    induction inputs as [| input rest IH]; intros s Hfs Hall;
      cbn [app invocations all_complete] in *; [eauto |].
    destruct Hall as [_ Hall].
    destruct (general_work s 1 _ input) as [w |] eqn:Hw; [| contradiction].
    apply IH; [| exact Hall].
    rewrite (general_work_fs_in _ _ _ _ _ Hw). exact Hfs. }
  destruct Hpre as [s20 Hrun].
  destruct (all_complete_app _ _ _ _ Hall Hrun) as [Hall1 Hall2].
  destruct (buffer_fills_one_prompt_per_block inputs s Hinv Hfs Hall1)
    as (s20' & Hrun' & Hinv20 & Hcnt20 & Hnew & Hold & _); [lia |].
  rewrite Hrun in Hrun'. injection Hrun' as <-.
  cbn [all_complete] in Hall2. destruct Hall2 as [Hc _].
  assert (Hfs20 : d_fs_in s20 = d_fs_in s) by exact (invocations_fs_in _ _ _ Hrun).
  assert (Hfs' : Int.u64 (d_fs_in s20) <> 0) by (rewrite Hfs20; exact Hfs).
  destruct (tracking_block_buffer s20 1 (Z.of_nat (length last)) last
              Hc Hfs' Hinv20) as (w & Hw & _ & _ & Hest).
  destruct Hest as (Hcnt' & Hbuf' & Hcn0 & Hlock); [lia |].
  exists s20, (state w).
  split; [exact Hrun |].
  split; [rewrite invocations_app, Hrun; cbn [invocations]; rewrite Hw;
          reflexivity |].
  split; [exact Hnew |]. split; [exact Hold |]. split; [exact Hbuf' |].
  split; [exact Hcnt' |]. rewrite <- Hfs20. split; [exact Hcn0 | exact Hlock].
Qed.

End Runs.

(* ================================================================== *)
(** * Further properties: the length of the next block *)

Section BlockLength.

Context {X : Externals}.

Local Open Scope Q_scope.

(** The remainder computed by a tracking block is within half a nominal
    code period. *)
Lemma rem_code_phase_samples_next_range (s : State) :
  (0 < d_fs_in s)%Z ->
  (0 <= d_current_prn_length_samples s)%Z ->
  0 <= d_code_phase_chips s ->
  0 <= d_code_freq_chips s ->
  - (nominal_period_samples s / 2) < rem_code_phase_samples_next s /\
  rem_code_phase_samples_next s <= nominal_period_samples s / 2.
Proof.
  intros Hfs Hlen Hcp Hcf.
  assert (HfsQ : 0 < inject_Z (d_fs_in s)) by (rewrite <- (Zlt_Qlt 0); lia).
  assert (HlenQ : 0 <= inject_Z (d_current_prn_length_samples s))
    by (rewrite <- (Zle_Qle 0); lia).
  assert (Hadv : 0 <= d_code_phase_chips s
                      + inject_Z (d_current_prn_length_samples s)
                        / inject_Z (d_fs_in s) * d_code_freq_chips s).
  { assert (0 <= inject_Z (d_current_prn_length_samples s)
                 / inject_Z (d_fs_in s))
      by (apply Qle_shift_div_l; lra).
    assert (0 <= inject_Z (d_current_prn_length_samples s)
                 / inject_Z (d_fs_in s) * d_code_freq_chips s)
      by (apply Qmult_le_0_compat; assumption).
    lra. }
  destruct (fmod_nonneg _ GPS_L1_CA_CODE_LENGTH_CHIPS code_length_pos Hadv)
    as [Hlo Hhi].
  fold (code_phase_chips_next s) in Hlo, Hhi.
  pose proof code_length_pos as HL.
  assert (Hhalf : GPS_L1_CA_CODE_LENGTH_CHIPS / 2
                  == GPS_L1_CA_CODE_LENGTH_CHIPS * (1 # 2))
    by (unfold Qdiv; reflexivity).
  assert (Hchips :
            - (GPS_L1_CA_CODE_LENGTH_CHIPS / 2) < rem_code_phase_chips_next s /\
            rem_code_phase_chips_next s <= GPS_L1_CA_CODE_LENGTH_CHIPS / 2).
  { unfold rem_code_phase_chips_next. cbv zeta.
    destruct (ltb _ _) eqn:Hcmp.
    - apply ltb_lt in Hcmp. split; lra.
    - apply ltb_ge in Hcmp. split; lra. }
  destruct Hchips as (Hgt & Hle).
  unfold rem_code_phase_samples_next, nominal_period_samples.
  set (r := rem_code_phase_chips_next s) in *.
  set (h := GPS_L1_CA_CODE_LENGTH_CHIPS / 2) in *.
  set (g := inject_Z (d_fs_in s) / GPS_L1_CA_CODE_RATE_HZ).
  assert (Hg : 0 < g) by (apply Qlt_shift_div_l; [apply code_rate_pos | lra]).
  assert (E1 : r * inject_Z (d_fs_in s) / GPS_L1_CA_CODE_RATE_HZ == r * g)
    by (unfold g, Qdiv; ring).
  assert (E2 : GPS_L1_CA_CODE_LENGTH_CHIPS / GPS_L1_CA_CODE_RATE_HZ
               * inject_Z (d_fs_in s) / 2 == h * g)
    by (unfold h, g, Qdiv; ring).
  rewrite E1, E2.
  assert (- h * g < r * g) by (apply Qmult_lt_compat_r; lra).
  assert (r * g <= h * g) by (apply Qmult_le_compat_r; lra).
  split; lra.
Qed.

(** X17. The length chosen for the next block stays near one code
    period: after a tracking block that runs to its end (positive
    sampling rate, non-negative block length, code phase and code
    frequency), it is within half a nominal code period plus half a
    sample of one code period at the new code frequency, and it is not
    negative as long as the new code frequency is positive and at most
    twice the nominal code rate. *)
Theorem next_block_length_is_not_negative
    (s : State) (nout nin : Z) (input : list gr_complex) :
  completes s input ->
  (0 < d_fs_in s < 2 ^ 63)%Z ->
  (0 <= d_current_prn_length_samples s)%Z ->
  0 <= d_code_phase_chips s ->
  0 <= d_code_freq_chips s ->
  exists w,
    general_work s nout nin input = Some w /\
    prn_period_samples (state w) - nominal_period_samples s / 2 - (1 # 2)
    < inject_Z (d_current_prn_length_samples (state w)) /\
    inject_Z (d_current_prn_length_samples (state w))
    <= prn_period_samples (state w) + nominal_period_samples s / 2 + (1 # 2) /\
    (0 < d_code_freq_chips (state w) ->
     d_code_freq_chips (state w) <= 2 * GPS_L1_CA_CODE_RATE_HZ ->
     (0 <= d_current_prn_length_samples (state w))%Z).
Proof.
  intros Hc Hfs Hlen Hcp Hcf.
  assert (Hfs' : Int.u64 (d_fs_in s) <> 0%Z).
  { unfold Int.u64. rewrite Z.mod_small; lia. }
  destruct (general_work_returns s nout nin input Hfs') as [w Hw].
  exists w. split; [exact Hw |].
  destruct (rem_code_phase_samples_next_range s) as [Rlo Rhi];
    [lia | exact Hlen | exact Hcp | exact Hcf |].
  rewrite general_work_tracking in Hw by assumption.
  open_tracking_block Hw. unfold prn_period_samples.
  cbn [state d_current_prn_length_samples d_code_freq_chips d_fs_in].
  set (f := (_ + cnco)%Q).
  set (R := rem_code_phase_samples_next s) in *.
  set (K := (1 / f * GPS_L1_CA_CODE_LENGTH_CHIPS * inject_Z (d_fs_in s) + R)%Q).
  set (P := (inject_Z (d_fs_in s) * GPS_L1_CA_CODE_LENGTH_CHIPS / f)%Q).
  set (h := nominal_period_samples s / 2) in *.
  assert (HK : K == P + R) by (unfold K, P, Qdiv; ring).
  pose proof (round_half K) as Hr. rewrite Qabs_Qle_condition in Hr.
  split; [lra |]. split; [lra |].
  intros Hpos Htwice.
  assert (HfsQ : 0 < inject_Z (d_fs_in s)) by (rewrite <- (Zlt_Qlt 0); lia).
  assert (Hh : 0 <= h).
  { unfold h, nominal_period_samples.
    pose proof code_length_pos. pose proof code_rate_pos.
    assert (0 < GPS_L1_CA_CODE_LENGTH_CHIPS / GPS_L1_CA_CODE_RATE_HZ)
      by (apply Qlt_shift_div_l; lra).
    assert (0 <= GPS_L1_CA_CODE_LENGTH_CHIPS / GPS_L1_CA_CODE_RATE_HZ
                 * inject_Z (d_fs_in s))
      by (apply Qmult_le_0_compat; lra).
    apply Qle_shift_div_l; lra. }
  assert (HP : h <= P).
  { unfold P. apply Qle_shift_div_l; [exact Hpos |].
    assert (H1 : f * h <= (2 * GPS_L1_CA_CODE_RATE_HZ) * h)
      by (apply Qmult_le_compat_r; assumption).
    assert (H2 : (2 * GPS_L1_CA_CODE_RATE_HZ) * h
                 == inject_Z (d_fs_in s) * GPS_L1_CA_CODE_LENGTH_CHIPS).
    { unfold h, nominal_period_samples. field.
      pose proof code_rate_pos. lra. }
    lra. }
  destruct (Z_le_gt_dec 0 (round K)) as [Hok | Hneg]; [exact Hok |].
  assert (Hle : (round K <= -1)%Z) by lia.
  rewrite Zle_Qle in Hle. change (inject_Z (-1)) with (-1) in Hle. lra.
Qed.

End BlockLength.

(* ================================================================== *)
(** * Further properties: the output record *)

Section Output.

Context {X : Externals}.

Local Open Scope Q_scope.

(** X18. The record written by a tracking block that runs to its end
    reports the state the block leaves: the Prompt correlator output of
    this block, the accumulated carrier phase, the Doppler estimate and
    the C/N0 after the update, and a timestamp of the new sample counter
    plus the new code phase remainder, over the sampling rate, that is
    the start of the next code period; the code phase is reported as
    zero and the satellite is that of the acquisition record. *)
Theorem tracking_record_reports_the_new_state
    (s : State) (nout nin : Z) (input : list gr_complex) (w : Work) :
  completes s input ->
  general_work s nout nin input = Some w ->
  exists o,
    out w = [o] /\
    d_Prompt (state w) = prompt_of s input /\
    Prompt_I o = real (d_Prompt (state w)) /\
    Prompt_Q o = imag (d_Prompt (state w)) /\
    Tracking_timestamp_secs o
    = (inject_Z (d_sample_counter (state w))
       + d_rem_code_phase_samples (state w)) / inject_Z (d_fs_in (state w)) /\
    Carrier_phase_rads o = d_acc_carrier_phase_rad (state w) /\
    Carrier_Doppler_hz o = d_carrier_doppler_hz (state w) /\
    CN0_dB_hz o = d_CN0_SNV_dB_Hz (state w) /\
    Code_phase_secs o = 0 /\
    System o = System (d_acquisition_gnss_synchro s) /\
    PRN o = PRN (d_acquisition_gnss_synchro s).
Proof.
  intros Hc Hw. rewrite general_work_tracking in Hw by assumption.
  open_tracking_block Hw. cbn [state out].
  eexists. split; [reflexivity |].
  cbn. repeat split.
Qed.

End Output.

(* ================================================================== *)
(** * The further properties on the bench *)

Lemma receding_reached :
  reached (Bench.args 2000000 (Some [])) Bench.receding.
Proof.
  unfold Bench.receding, Bench.started.
  apply reached_start_tracking, reached_set_gnss_synchro,
    reached_set_channel, reached_new.
Qed.

(** The object after start_tracking and the alignment block. *)
Lemma pulled_in_reached :
  reached (Bench.args 2000000 (Some [])) (state (pull_in_block Bench.receding)).
Proof.
  apply (reached_general_work _ Bench.receding 1 4000 (Bench.silence 4000));
    [exact receding_reached |].
  apply general_work_pull_in; vm_compute; reflexivity.
Qed.

Lemma pulled_in_completes :
  completes (state (pull_in_block Bench.receding)) (Bench.silence 4000).
Proof. split; [| split]; vm_compute; reflexivity. Qed.

Lemma pulled_in_rate :
  Int.u64 (d_fs_in (state (pull_in_block Bench.receding))) <> 0.
Proof. vm_compute. discriminate. Qed.

(** Two tracking blocks from nineteen buffered Prompts run to their
    end. *)
Lemma filling_receding_two_blocks :
  all_complete (Bench.filling Bench.receding)
    [Bench.silence 4000; Bench.silence 4000].
Proof.
  assert (H : let s := Bench.filling Bench.receding in
              let i := Bench.silence 4000 in
              match general_work s 1 (Z.of_nat (length i)) i with
              | Some w =>
                  d_enable_tracking s && negb (d_pull_in s)
                  && negb (prompt_is_nan s i)
                  && d_enable_tracking (state w) && negb (d_pull_in (state w))
                  && negb (prompt_is_nan (state w) i)
                  && match general_work (state w) 1 (Z.of_nat (length i)) i with
                     | Some _ => true
                     | None => false
                     end
              | None => false
              end = true) by (vm_compute; reflexivity).
  cbv zeta in H. cbn [all_complete]. revert H.
  destruct (general_work (Bench.filling Bench.receding) 1 _ _) as [w |];
    [| discriminate].
  destruct (general_work (state w) 1 _ _) as [w' |];
    [| rewrite andb_false_r; discriminate].
  intros H.
  apply andb_true_iff in H as [H _].
  apply andb_true_iff in H as [H Hn']. apply negb_true_iff in Hn'.
  apply andb_true_iff in H as [H Hp']. apply negb_true_iff in Hp'.
  apply andb_true_iff in H as [H He'].
  apply andb_true_iff in H as [H Hn]. apply negb_true_iff in Hn.
  apply andb_true_iff in H as [He Hp]. apply negb_true_iff in Hp.
  split; [exact (conj He (conj Hp Hn)) |].
  split; [exact (conj He' (conj Hp' Hn')) | exact I].
Qed.

(** The hypotheses of X1 hold in the bench, on the first sample of the
    Early replica of the first tracking block. *)
Lemma update_local_code_phase_is_linear_witness :
  (0 < Z.to_nat (d_current_prn_length_samples (Bench.aligned Bench.receding)))%nat /\
  - 2 ^ 63 <= replica_phase_fxp Early (Bench.aligned Bench.receding) < 2 ^ 63 /\
  nth_error
    (replica_code Early (update_local_code (Bench.aligned Bench.receding))) 0
  = Some (ca_code_at (d_ca_code (Bench.aligned Bench.receding))
            (chip_index
               (Int.s64 (replica_phase_fxp Early (Bench.aligned Bench.receding)
                         + Z.of_nat 0
                           * code_phase_step_fxp (Bench.aligned Bench.receding))))).
Proof.
  assert (H1 : (0 < Z.to_nat (d_current_prn_length_samples
                                (Bench.aligned Bench.receding)))%nat)
    by (apply Nat.ltb_lt; vm_compute; reflexivity).
  assert (H2 : - 2 ^ 63 <= replica_phase_fxp Early (Bench.aligned Bench.receding)
               < 2 ^ 63)
    by (split; [apply Z.leb_le | apply Z.ltb_lt]; vm_compute; reflexivity).
  split; [exact H1 |]. split; [exact H2 |].
  exact (proj1 (update_local_code_phase_is_linear
                  Early (Bench.aligned Bench.receding) 0%nat H1 H2)).
Defined.

(** The hypothesis of X2 holds in the bench: a block of 2000 samples in
    buffers of 4000. *)
Lemma update_local_code_writes_one_block_witness :
  (Z.to_nat (d_current_prn_length_samples (Bench.aligned Bench.receding))
   <= length (replica_buffer Prompt (Bench.aligned Bench.receding)))%nat /\
  length (replica_code Prompt (update_local_code (Bench.aligned Bench.receding)))
  = length (replica_buffer Prompt (Bench.aligned Bench.receding)).
Proof.
  assert (H1 : (Z.to_nat (d_current_prn_length_samples
                            (Bench.aligned Bench.receding))
                <= length (replica_buffer Prompt
                             (Bench.aligned Bench.receding)))%nat)
    by (apply Nat.leb_le; vm_compute; reflexivity).
  split; [exact H1 |].
  exact (proj1 (update_local_code_writes_one_block
                  Prompt (Bench.aligned Bench.receding) H1)).
Defined.

(** The hypotheses of X3 hold in the bench, at the lower guard entry. *)
Lemma start_tracking_fills_the_table_witness :
  length (d_ca_code Bench.tuned) = Z.to_nat (code_length_chips + 2) /\
  length (@gps_l1_ca_code_gen_complex Bench.externals
            (PRN (d_acquisition_gnss_synchro Bench.tuned)) 0)
  = Z.to_nat code_length_chips /\
  0 <= 0 <= code_length_chips + 1 /\
  ca_code_at (d_ca_code (start_tracking Bench.tuned)) 0
  = nth_error
      (@gps_l1_ca_code_gen_complex Bench.externals
         (PRN (d_acquisition_gnss_synchro Bench.tuned)) 0)
      (Z.to_nat ((0 - 1) mod code_length_chips)).
Proof.
  assert (H1 : length (d_ca_code Bench.tuned)
               = Z.to_nat (code_length_chips + 2))
    by (vm_compute; reflexivity).
  assert (H2 : length (@gps_l1_ca_code_gen_complex Bench.externals
                         (PRN (d_acquisition_gnss_synchro Bench.tuned)) 0)
               = Z.to_nat code_length_chips)
    by (vm_compute; reflexivity).
  assert (H3 : 0 <= 0 <= code_length_chips + 1)
    by (split; vm_compute; discriminate).
  split; [exact H1 |]. split; [exact H2 |]. split; [exact H3 |].
  exact (proj2 (start_tracking_fills_the_table Bench.tuned 0 H1 H2 H3)).
Defined.

(** The hypothesis of X4 holds in the bench. *)
Lemma start_tracking_block_length_witness :
  ~ (Acq_doppler_hz (d_acquisition_gnss_synchro Bench.tuned)
     == - GPS_L1_FREQ_HZ)%Q /\
  (Qabs (inject_Z (d_current_prn_length_samples (start_tracking Bench.tuned))
         - prn_period_samples (start_tracking Bench.tuned)) <= 1 # 2)%Q.
Proof.
  assert (H1 : ~ (Acq_doppler_hz (d_acquisition_gnss_synchro Bench.tuned)
                  == - GPS_L1_FREQ_HZ)%Q)
    by (intros H; vm_compute in H; discriminate H).
  split; [exact H1 |].
  exact (proj2 (start_tracking_block_length Bench.tuned H1)).
Defined.

(** The hypotheses of X5 hold in the bench, with a phase brought
    forward from acquisition that is not negative. *)
Lemma start_tracking_wraps_the_code_phase_witness :
  0 < d_fs_in Bench.tuned /\
  ~ (Acq_doppler_hz (d_acquisition_gnss_synchro Bench.tuned)
     == - GPS_L1_FREQ_HZ)%Q /\
  (0 <= uncorrected_acq_phase_samples Bench.tuned)%Q /\
  (0 <= d_acq_code_phase_samples (start_tracking Bench.tuned))%Q /\
  (d_acq_code_phase_samples (start_tracking Bench.tuned)
   < nominal_period_samples Bench.tuned)%Q.
Proof.
  assert (H1 : 0 < d_fs_in Bench.tuned) by (vm_compute; reflexivity).
  assert (H2 : ~ (Acq_doppler_hz (d_acquisition_gnss_synchro Bench.tuned)
                  == - GPS_L1_FREQ_HZ)%Q)
    by (intros H; vm_compute in H; discriminate H).
  assert (H3 : (0 <= uncorrected_acq_phase_samples Bench.tuned)%Q)
    by (vm_compute; discriminate).
  split; [exact H1 |]. split; [exact H2 |]. split; [exact H3 |].
  exact (proj2 (proj2 (start_tracking_wraps_the_code_phase Bench.tuned H1 H2)
                  H3)).
Defined.

(** The hypotheses of X6 hold in the bench, on the block that follows
    start_tracking. *)
Lemma pull_in_aligns_to_the_acquisition_witness :
  d_enable_tracking Bench.receding = true /\
  d_pull_in Bench.receding = true /\
  0 < d_current_prn_length_samples Bench.receding < 2 ^ 24 /\
  0 <= d_sample_counter Bench.receding - d_acq_sample_stamp Bench.receding
  < 2 ^ 24 /\
  exists w periods,
    general_work Bench.receding 1 4000 (Bench.silence 4000) = Some w /\
    periods = (d_sample_counter Bench.receding
               - d_acq_sample_stamp Bench.receding)
              / d_current_prn_length_samples Bench.receding + 1.
Proof.
  assert (H1 : d_enable_tracking Bench.receding = true)
    by (vm_compute; reflexivity).
  assert (H2 : d_pull_in Bench.receding = true) by (vm_compute; reflexivity).
  assert (H3 : 0 < d_current_prn_length_samples Bench.receding < 2 ^ 24)
    by (split; apply Z.ltb_lt; vm_compute; reflexivity).
  assert (H4 : 0 <= d_sample_counter Bench.receding
                    - d_acq_sample_stamp Bench.receding < 2 ^ 24)
    by (split; [apply Z.leb_le | apply Z.ltb_lt]; vm_compute; reflexivity).
  split; [exact H1 |]. split; [exact H2 |]. split; [exact H3 |].
  split; [exact H4 |].
  destruct (pull_in_aligns_to_the_acquisition
              Bench.receding 1 4000 (Bench.silence 4000) H1 H2 H3 H4)
    as (w & periods & Hw & Hp & _).
  exists w, periods. split; [exact Hw | exact Hp].
Defined.


(** The hypothesis of X9 holds in the bench, on a tracking block. *)
Lemma one_record_per_invocation_witness :
  exists w,
    general_work (Bench.aligned Bench.receding) 1 4000 (Bench.silence 4000)
    = Some w /\
    returned w = 1.
Proof.
  destruct (general_work_returns (Bench.aligned Bench.receding) 1 4000
              (Bench.silence 4000) aligned_receding_rate) as [w Hw].
  exists w. split; [exact Hw |].
  exact (proj1 (one_record_per_invocation _ _ _ _ _ Hw)).
Defined.

(** The hypothesis of X10 holds in the bench: the receiver after
    start_tracking is an object. *)
Lemma object_invariants_witness :
  reached (Bench.args 2000000 (Some [])) Bench.receding /\
  0 <= d_carrier_lock_fail_counter Bench.receding
  <= MAXIMUM_LOCK_FAIL_COUNTER.
Proof.
  split; [exact receding_reached |].
  exact (proj1 (proj2 (object_invariants _ _ receding_reached))).
Defined.

(** The hypothesis of X11 holds in the bench, after the alignment
    block. *)
Lemma configuration_is_frozen_witness :
  reached (Bench.args 2000000 (Some []))
    (state (pull_in_block Bench.receding)) /\
  d_fs_in (state (pull_in_block Bench.receding))
  = fs_in (Bench.args 2000000 (Some [])).
Proof.
  split; [exact pulled_in_reached |].
  exact (proj1 (configuration_is_frozen _ _ pulled_in_reached)).
Defined.

(** The hypotheses of X12 hold in the bench, on the first tracking
    block. *)
Lemma code_rate_is_carrier_aided_witness :
  reached (Bench.args 2000000 (Some []))
    (state (pull_in_block Bench.receding)) /\
  completes (state (pull_in_block Bench.receding)) (Bench.silence 4000) /\
  exists w,
    general_work (state (pull_in_block Bench.receding)) 1 4000
      (Bench.silence 4000) = Some w /\
    exists c : Q,
      d_code_freq_chips (state w)
      = (GPS_L1_CA_CODE_RATE_HZ
         + d_carrier_doppler_hz (state w) * GPS_L1_CA_CODE_RATE_HZ
           / GPS_L1_FREQ_HZ + c)%Q.
Proof.
  split; [exact pulled_in_reached |].
  split; [exact pulled_in_completes |].
  destruct (general_work_returns (state (pull_in_block Bench.receding)) 1 4000
              (Bench.silence 4000) pulled_in_rate) as [w Hw].
  exists w. split; [exact Hw |].
  destruct (code_rate_is_carrier_aided _ _ _ _ _ _
              pulled_in_reached pulled_in_completes Hw)
    as (c & Hc & _).
  exists c. exact Hc.
Defined.

(** The hypotheses of X13 hold in the bench, on the first tracking
    block. *)
Lemma tracking_stops_only_on_loss_of_lock_witness :
  d_carrier_lock_fail_counter (Bench.aligned Bench.receding)
  <= MAXIMUM_LOCK_FAIL_COUNTER /\
  exists w,
    general_work (Bench.aligned Bench.receding) 1 4000 (Bench.silence 4000)
    = Some w /\
    (d_enable_tracking (Bench.aligned Bench.receding) = false ->
     d_enable_tracking (state w) = false).
Proof.
  assert (H1 : d_carrier_lock_fail_counter (Bench.aligned Bench.receding)
               <= MAXIMUM_LOCK_FAIL_COUNTER)
    by (vm_compute; discriminate).
  split; [exact H1 |].
  destruct (general_work_returns (Bench.aligned Bench.receding) 1 4000
              (Bench.silence 4000) aligned_receding_rate) as [w Hw].
  exists w. split; [exact Hw |].
  exact (proj1 (tracking_stops_only_on_loss_of_lock _ _ _ _ _ Hw H1)).
Defined.

(** The hypothesis of X14 holds in the bench, on a block that detects
    the loss of lock. *)
Lemma queue_only_grows_by_loss_of_lock_witness :
  exists w,
    general_work (Bench.fading Bench.receding) 1 4000 (Bench.silence 4000)
    = Some w /\
    (d_queue (state w) = d_queue (Bench.fading Bench.receding) \/
     exists q,
       d_queue (Bench.fading Bench.receding) = Some q /\
       d_queue (state w)
       = Some (q ++ [loss_of_lock_message (Bench.fading Bench.receding)]) /\
       d_enable_tracking (Bench.fading Bench.receding) = true /\
       d_enable_tracking (state w) = false).
Proof.
  assert (H2 : Int.u64 (d_fs_in (Bench.fading Bench.receding)) <> 0)
    by (vm_compute; discriminate).
  destruct (general_work_returns (Bench.fading Bench.receding) 1 4000
              (Bench.silence 4000) H2) as [w Hw].
  exists w. split; [exact Hw |].
  exact (queue_only_grows_by_loss_of_lock _ _ _ _ _ Hw).
Defined.

(** The hypotheses of X15 hold in the bench: a constructed object, not
    started, given three input buffers. *)
Lemma idle_run_only_counts_witness :
  d_enable_tracking Bench.fresh = false /\
  Int.u64 (d_fs_in Bench.fresh) <> 0 /\
  0 <= d_sample_counter Bench.fresh < 2 ^ 64 /\
  exists s',
    invocations Bench.fresh
      [Bench.silence 4000; Bench.garbage 4000; Bench.silence 4000] = Some s' /\
    d_sample_counter s'
    = Int.u64 (d_sample_counter Bench.fresh
               + 3 * d_current_prn_length_samples Bench.fresh).
Proof.
  assert (H1 : d_enable_tracking Bench.fresh = false)
    by (vm_compute; reflexivity).
  assert (H2 : Int.u64 (d_fs_in Bench.fresh) <> 0)
    by (vm_compute; discriminate).
  assert (H3 : 0 <= d_sample_counter Bench.fresh < 2 ^ 64)
    by (split; [apply Z.leb_le | apply Z.ltb_lt]; vm_compute; reflexivity).
  split; [exact H1 |]. split; [exact H2 |]. split; [exact H3 |].
  destruct (idle_run_only_counts
              [Bench.silence 4000; Bench.garbage 4000; Bench.silence 4000]
              Bench.fresh H1 H2 H3) as (s' & Hrun & Hcnt & _).
  exists s'. split; [exact Hrun | exact Hcnt].
Defined.

(** The hypotheses of X16 hold in the bench: from nineteen buffered
    Prompts, one block fills the buffer and the next estimates. *)
Lemma lock_detector_cycle_witness :
  buffer_invariant (Bench.filling Bench.receding) /\
  Int.u64 (d_fs_in (Bench.filling Bench.receding)) <> 0 /\
  all_complete (Bench.filling Bench.receding)
    ([Bench.silence 4000] ++ [Bench.silence 4000]) /\
  d_cn0_estimation_counter (Bench.filling Bench.receding)
  + Z.of_nat (length [Bench.silence 4000]) = CN0_ESTIMATION_SAMPLES /\
  exists s20 s',
    invocations (Bench.filling Bench.receding) [Bench.silence 4000]
    = Some s20 /\
    invocations (Bench.filling Bench.receding)
      ([Bench.silence 4000] ++ [Bench.silence 4000]) = Some s' /\
    d_Prompt_buffer s' = d_Prompt_buffer s20 /\
    d_cn0_estimation_counter s' = 0.
Proof.
  assert (H1 : buffer_invariant (Bench.filling Bench.receding))
    by (split; [split |]; vm_compute; first [discriminate | reflexivity]).
  assert (H2 : Int.u64 (d_fs_in (Bench.filling Bench.receding)) <> 0)
    by (vm_compute; discriminate).
  assert (H4 : d_cn0_estimation_counter (Bench.filling Bench.receding)
               + Z.of_nat (length [Bench.silence 4000])
               = CN0_ESTIMATION_SAMPLES)
    by (vm_compute; reflexivity).
  split; [exact H1 |]. split; [exact H2 |].
  split; [exact filling_receding_two_blocks |]. split; [exact H4 |].
  destruct (lock_detector_cycle [Bench.silence 4000] (Bench.silence 4000)
              (Bench.filling Bench.receding) H1 H2
              filling_receding_two_blocks H4)
    as (s20 & s' & Hr1 & Hr2 & _ & _ & Hbuf & Hcnt & _).
  exists s20, s'. split; [exact Hr1 |]. split; [exact Hr2 |].
  split; [exact Hbuf | exact Hcnt].
Defined.

(** The hypotheses of X17 hold in the bench, on the block that chooses
    a next length of 2002 samples. *)
Lemma next_block_length_is_not_negative_witness :
  completes Bench.adrift (Bench.silence 4000) /\
  0 < d_fs_in Bench.adrift < 2 ^ 63 /\
  0 <= d_current_prn_length_samples Bench.adrift /\
  (0 <= d_code_phase_chips Bench.adrift)%Q /\
  (0 <= d_code_freq_chips Bench.adrift)%Q /\
  exists w,
    general_work Bench.adrift 1 4000 (Bench.silence 4000) = Some w /\
    (inject_Z (d_current_prn_length_samples (state w))
     <= prn_period_samples (state w) + nominal_period_samples Bench.adrift / 2
        + (1 # 2))%Q.
Proof.
  destruct adrift_full_block as (H0 & H1 & H2 & H3 & H4 & _).
  split; [exact H0 |]. split; [exact H1 |]. split; [exact H2 |].
  split; [exact H3 |]. split; [exact H4 |].
  destruct (next_block_length_is_not_negative
              Bench.adrift 1 4000 (Bench.silence 4000) H0 H1 H2 H3 H4)
    as (w & Hw & _ & Hhi & _).
  exists w. split; [exact Hw | exact Hhi].
Defined.

(** The hypotheses of X18 hold in the bench, on the first tracking
    block. *)
Lemma tracking_record_reports_the_new_state_witness :
  completes (Bench.aligned Bench.receding) (Bench.silence 4000) /\
  exists w o,
    general_work (Bench.aligned Bench.receding) 1 4000 (Bench.silence 4000)
    = Some w /\
    out w = [o] /\
    d_Prompt (state w)
    = prompt_of (Bench.aligned Bench.receding) (Bench.silence 4000).
Proof.
  split; [exact aligned_receding_completes |].
  destruct (general_work_returns (Bench.aligned Bench.receding) 1 4000
              (Bench.silence 4000) aligned_receding_rate) as [w Hw].
  destruct (tracking_record_reports_the_new_state _ _ _ _ _
              aligned_receding_completes Hw) as (o & Ho & Hp & _).
  exists w, o. split; [exact Hw |]. split; [exact Ho | exact Hp].
Defined.
